(** * line-ai-agent: profile extraction and knowledge retrieval

    A shallow embedding of the Python sources

      - [app/models.py]            (data model),
      - [app/persona_analyzer.py]  (profile extractor),
      - [app/knowledge_base.py]    (knowledge ranker),
      - [app/ai_engine.py]         (context assembler),
      - [app/database.py]          (the enumerations as columns),
      - [app/lstep_client.py]      (tag mapper),
      - [app/line_handler.py]      (enrichment from Lstep, hand-off test),

    followed by the properties of these functions.

    Conventions.  A Python [str] is a [string] holding its UTF-8 bytes; since
    UTF-8 is self-synchronising, byte-wise substring search on well-formed
    text agrees with Python's code-point-wise [in].  A Python [int] is a [Z].
    [Optional[T]] is [option T].  Objects mutated in place by the source
    (the customer, the score table, the result list) are threaded through
    explicitly. *)

From Stdlib Require Import String Ascii List ZArith Lia Bool.
From Stdlib Require Import Permutation Sorted.
Import ListNotations.

Local Open Scope string_scope.
Local Open Scope list_scope.
Local Open Scope Z_scope.

(* ================================================================== *)
(** * Python built-ins used by the sources *)
(* ================================================================== *)

(** Two built-ins are not determined by the sources themselves:
    [str.lower] (full Unicode case mapping) and the iteration order of a
    [set], which [list(existing | set(new))] exposes.  They are the fields
    of an interface; the set operation comes with the two facts Python
    guarantees about it. *)
Class PyBuiltins : Type := {
  (** [s.lower()] *)
  str_lower : string -> string;
  (** [list(set(a) | set(b))] *)
  set_union_list : list string -> list string -> list string;
  set_union_list_In :
    forall a b x, In x (set_union_list a b) <-> In x a \/ In x b;
  set_union_list_NoDup :
    forall a b, NoDup (set_union_list a b)
}.

(** A third depends on the version of the interpreter: what [format],
    and so an f-string, gives for a member of an enumeration class that
    derives from [str].  Before Python 3.11 it is the member's value; from
    Python 3.11 on it is the name of the class and of the member. *)
Inductive PyVersion : Type :=
| Before_3_11
| Since_3_11.

Existing Class PyVersion.

Module Py.

(** [format(m)] for the member [m], of the given name and value, of a
    class that derives from [str] and [Enum]. *)
Definition format_member {python : PyVersion}
  (class_name name value : string) : string :=
  match python with
  | Before_3_11 => value
  | Since_3_11 => (class_name ++ "." ++ name)%string
  end.

(** [needle in haystack] for two strings. *)
Fixpoint contains (needle haystack : string) : bool :=
  if prefix needle haystack then true
  else match haystack with
       | EmptyString => false
       | String _ rest => contains needle rest
       end.

(** [x in xs] for a list of strings. *)
Definition mem (x : string) (xs : list string) : bool :=
  existsb (String.eqb x) xs.

(** [sep.join(xs)] *)
Definition join (sep : string) (xs : list string) : string :=
  String.concat sep xs.

(** Truthiness of an [Optional[str]]: [None] and the empty string are
    falsy. *)
Definition truthy_str (s : option string) : bool :=
  match s with
  | Some (String _ _) => true
  | _ => false
  end.

(** Truthiness of an [Optional[List]]: [None] and [[]] are falsy. *)
Definition truthy_list {A : Type} (l : option (list A)) : bool :=
  match l with
  | Some (_ :: _) => true
  | _ => false
  end.

(** [l or []] *)
Definition or_empty {A : Type} (l : option (list A)) : list A :=
  match l with
  | Some xs => xs
  | None => []
  end.

(** The text of an optional string, empty when absent. *)
Definition or_blank (s : option string) : string :=
  match s with
  | Some x => x
  | None => EmptyString
  end.

(** [l[:limit]] for an arbitrary integer [limit]: a negative bound counts
    from the end. *)
Definition slice_to {A : Type} (l : list A) (limit : Z) : list A :=
  if 0 <=? limit then firstn (Z.to_nat limit) l
  else firstn (Z.to_nat (Z.of_nat (length l) + limit)) l.

(** [l[-n:]] for a positive literal [n]. *)
Definition slice_last {A : Type} (n : nat) (l : list A) : list A :=
  skipn (length l - n) l.

(** The regular expressions of the sources are alternations of literals. *)
Inductive regex : Type :=
| Lit (s : string)
| Alt (r1 r2 : regex).

(** [re.search(r, s)] as a truth value. *)
Fixpoint re_search (r : regex) (s : string) : bool :=
  match r with
  | Lit l => contains l s
  | Alt r1 r2 => re_search r1 s || re_search r2 s
  end.

(** [l.sort(key=..., reverse=True)] on (key, value) pairs: a stable sort
    into descending key order.  An element is inserted in front of the
    first element whose key is not larger, so that equal keys keep their
    original relative order. *)
Fixpoint insert_desc {A : Type} (x : Z * A) (l : list (Z * A)) : list (Z * A) :=
  match l with
  | [] => [x]
  | y :: rest =>
      if fst x <? fst y then y :: insert_desc x rest
      else x :: y :: rest
  end.

Fixpoint sort_desc {A : Type} (l : list (Z * A)) : list (Z * A) :=
  match l with
  | [] => []
  | x :: rest => insert_desc x (sort_desc rest)
  end.

(** [max(xs)] over a non-empty list given as head and tail. *)
Definition max_of (x : Z) (xs : list Z) : Z :=
  fold_left Z.max xs x.

End Py.

(* ================================================================== *)
(** * app/models.py *)
(* ================================================================== *)

Inductive PersonaType : Type :=
| SIDE_WORKER
| CHILD_RAISING_MOM
| BUSINESS_OWNER
| SELF_ACHIEVER
| UNKNOWN.

Inductive ConversationStatus : Type :=
| INITIAL
| HEARING
| SEMINAR_INVITED
| SEMINAR_APPLIED
| SEMINAR_ATTENDED
| CONSULTATION_INVITED
| CONSULTATION_SCHEDULED
| CONSULTATION_DONE.

(** The [.value] of the two string enumerations. *)
Definition persona_value (p : PersonaType) : string :=
  match p with
  | SIDE_WORKER => "副業ワーカー"
  | CHILD_RAISING_MOM => "子育てママ"
  | BUSINESS_OWNER => "ビジネスオーナー"
  | SELF_ACHIEVER => "自己実現チャレンジャー"
  | UNKNOWN => "未特定"
  end.

Definition status_value (s : ConversationStatus) : string :=
  match s with
  | INITIAL => "友だち追加直後"
  | HEARING => "ヒアリング中"
  | SEMINAR_INVITED => "勉強会案内済み"
  | SEMINAR_APPLIED => "勉強会申込済み"
  | SEMINAR_ATTENDED => "勉強会参加済み"
  | CONSULTATION_INVITED => "個別相談案内済み"
  | CONSULTATION_SCHEDULED => "個別相談予約済み"
  | CONSULTATION_DONE => "個別相談完了"
  end.

(** The names of the members. *)
Definition persona_name (p : PersonaType) : string :=
  match p with
  | SIDE_WORKER => "SIDE_WORKER"
  | CHILD_RAISING_MOM => "CHILD_RAISING_MOM"
  | BUSINESS_OWNER => "BUSINESS_OWNER"
  | SELF_ACHIEVER => "SELF_ACHIEVER"
  | UNKNOWN => "UNKNOWN"
  end.

Definition status_name (s : ConversationStatus) : string :=
  match s with
  | INITIAL => "INITIAL"
  | HEARING => "HEARING"
  | SEMINAR_INVITED => "SEMINAR_INVITED"
  | SEMINAR_APPLIED => "SEMINAR_APPLIED"
  | SEMINAR_ATTENDED => "SEMINAR_ATTENDED"
  | CONSULTATION_INVITED => "CONSULTATION_INVITED"
  | CONSULTATION_SCHEDULED => "CONSULTATION_SCHEDULED"
  | CONSULTATION_DONE => "CONSULTATION_DONE"
  end.

(** The two enumerations derive from [str] and [Customer] sets
    [use_enum_values]: a field declared with one of them holds a member (a
    default, which is not validated, or a member assigned later) or the
    value of a member as a plain [str] (a validated argument of the
    constructor, or a text assigned later).  The two forms are both
    instances of [str] and compare equal, to each other and to the value;
    they differ when formatted. *)
Inductive EnumRepr : Type :=
| AsMember
| AsValue.

Definition persona_eqb (p q : PersonaType) : bool :=
  match p, q with
  | SIDE_WORKER, SIDE_WORKER
  | CHILD_RAISING_MOM, CHILD_RAISING_MOM
  | BUSINESS_OWNER, BUSINESS_OWNER
  | SELF_ACHIEVER, SELF_ACHIEVER
  | UNKNOWN, UNKNOWN => true
  | _, _ => false
  end.

Module Customer.

(** [class Customer]; the two timestamps play no part in the functions
    below and are left out.  [persona] and [status] are the members the
    two enumeration fields stand for; [persona_repr] and [status_repr]
    say in which form the field holds them. *)
Record t : Type := mk {
  user_id : string;
  display_name : option string;
  occupation : option string;
  interest_genre : option (list string);
  challenges : option (list string);
  goals : option string;
  persona : PersonaType;
  status : ConversationStatus;
  source : option string;
  persona_repr : EnumRepr;
  status_repr : EnumRepr
}.

(** [Customer(user_id=u)]: every other field at its default. *)
Definition new (u : string) : t :=
  mk u None None (Some []) (Some []) None UNKNOWN INITIAL None
     AsMember AsMember.

(** Attribute assignments, [customer.f = v]. *)
Definition set_occupation (v : option string) (c : t) : t :=
  mk (user_id c) (display_name c) v (interest_genre c) (challenges c)
     (goals c) (persona c) (status c) (source c)
     (persona_repr c) (status_repr c).

Definition set_interest_genre (v : option (list string)) (c : t) : t :=
  mk (user_id c) (display_name c) (occupation c) v (challenges c)
     (goals c) (persona c) (status c) (source c)
     (persona_repr c) (status_repr c).

Definition set_challenges (v : option (list string)) (c : t) : t :=
  mk (user_id c) (display_name c) (occupation c) (interest_genre c) v
     (goals c) (persona c) (status c) (source c)
     (persona_repr c) (status_repr c).

(** [customer.persona = v] for a member [v]. *)
Definition set_persona (v : PersonaType) (c : t) : t :=
  mk (user_id c) (display_name c) (occupation c) (interest_genre c)
     (challenges c) (goals c) v (status c) (source c)
     AsMember (status_repr c).

(** [customer.persona = s] for the text [s] that is the value of [v]. *)
Definition set_persona_value (v : PersonaType) (c : t) : t :=
  mk (user_id c) (display_name c) (occupation c) (interest_genre c)
     (challenges c) (goals c) v (status c) (source c)
     AsValue (status_repr c).

Definition set_goals (v : option string) (c : t) : t :=
  mk (user_id c) (display_name c) (occupation c) (interest_genre c)
     (challenges c) v (persona c) (status c) (source c)
     (persona_repr c) (status_repr c).

Definition set_source (v : option string) (c : t) : t :=
  mk (user_id c) (display_name c) (occupation c) (interest_genre c)
     (challenges c) (goals c) (persona c) (status c) v
     (persona_repr c) (status_repr c).

End Customer.

Module Message.

Record t : Type := mk {
  id : option string;
  user_id : string;
  role : string;
  content : string
}.

End Message.

Module ConversationContext.

Record t : Type := mk {
  customer : Customer.t;
  messages : list Message.t;
  current_topic : option string;
  mentioned_cases : list string
}.

(** [context.customer = v] *)
Definition set_customer (v : Customer.t) (c : t) : t :=
  mk v (messages c) (current_topic c) (mentioned_cases c).

End ConversationContext.

Module SuccessCase.

Record t : Type := mk {
  id : string;
  title : string;
  customer_profile : string;
  genre : string;
  initial_situation : string;
  achievement : string;
  period : string;
  success_points : string;
  related_personas : list string;
  related_challenges : list string;
  keywords : list string
}.

End SuccessCase.

Module FAQ.

Record t : Type := mk {
  id : string;
  category : string;
  question : string;
  answer : string;
  related_personas : list string;
  keywords : list string
}.

End FAQ.

(* ================================================================== *)
(** * app/persona_analyzer.py *)
(* ================================================================== *)

Module PersonaAnalyzer.

(** One value of the [PERSONA_KEYWORDS] dictionary. *)
Module Keywords.

Record t : Type := mk {
  occupation : list string;
  keywords : list string;
  challenges : list string
}.

End Keywords.

(** Dictionaries are iterated in insertion order, which the tie-break of
    [_estimate_persona] depends on: they are association lists. *)
Definition PERSONA_KEYWORDS : list (PersonaType * Keywords.t) :=
  [ (SIDE_WORKER,
     Keywords.mk
       ["会社員"; "サラリーマン"; "OL"; "正社員"; "勤め"]
       ["副業"; "副収入"; "仕事終わり"; "通勤"; "平日"; "休日"; "本業"]
       ["時間が無い"; "仕事と両立"; "隙間時間"]);
    (CHILD_RAISING_MOM,
     Keywords.mk
       ["主婦"; "主夫"; "ママ"; "パート"; "専業"]
       ["育児"; "子ども"; "子供"; "赤ちゃん"; "保育園"; "幼稚園"; "在宅"; "家事"]
       ["育児と両立"; "在宅で"; "子どもがいて"]);
    (BUSINESS_OWNER,
     Keywords.mk
       ["経営"; "オーナー"; "社長"; "役員"; "自営"; "個人事業"; "店舗"]
       ["集客"; "売上"; "ビジネス"; "事業"; "店"; "サロン"; "会社"]
       ["集客を増やしたい"; "広告費"; "新規顧客"]);
    (SELF_ACHIEVER,
     Keywords.mk
       []
       ["自由"; "可能性"; "挑戦"; "夢"; "好きなこと"; "自分らしく"; "新しい"]
       ["自分を変えたい"; "何か始めたい"; "可能性を広げたい"]) ].

Definition GENRE_KEYWORDS : list (string * list string) :=
  [ ("料理", ["料理"; "レシピ"; "お弁当"; "食事"; "クッキング"; "ご飯"]);
    ("ダイエット", ["ダイエット"; "痩せ"; "体重"; "ボディメイク"; "筋トレ"]);
    ("美容", ["美容"; "コスメ"; "メイク"; "スキンケア"; "美肌"]);
    ("育児", ["育児"; "子育て"; "子ども"; "ママ"; "赤ちゃん"]);
    ("ビジネス", ["ビジネス"; "仕事"; "キャリア"; "自己啓発"; "投資"]);
    ("ハンドメイド", ["ハンドメイド"; "手作り"; "クラフト"; "アクセサリー"; "DIY"]);
    ("ライフスタイル", ["日常"; "暮らし"; "インテリア"; "旅行"; "カフェ"]) ].

Definition CHALLENGE_KEYWORDS : list string :=
  [ "時間が無い"; "時間がない"; "忙しい";
    "自己流の限界"; "伸び悩み"; "やり方がわからない";
    "稼ぎたい"; "収入"; "収益化";
    "初心者"; "未経験"; "始めたい";
    "不安"; "自信がない"; "できるか";
    "在宅"; "家で"; "リモート";
    "副業"; "本業以外";
    "両立"; "育児"; "仕事" ].

(** The [patterns] table of [_extract_occupation]. *)
Definition patterns : list (Py.regex * string) :=
  [ (Py.Lit "会社員", "会社員");
    (Py.Lit "サラリーマン", "会社員");
    (Py.Lit "OL", "会社員");
    (Py.Alt (Py.Lit "主婦") (Py.Lit "専業主婦"), "主婦");
    (Py.Lit "主夫", "主夫");
    (Py.Alt (Py.Lit "パート") (Py.Lit "アルバイト"), "パート・アルバイト");
    (Py.Alt (Py.Lit "経営者") (Py.Alt (Py.Lit "社長") (Py.Lit "オーナー")), "経営者");
    (Py.Lit "役員", "経営者・役員");
    (Py.Alt (Py.Lit "自営業") (Py.Lit "個人事業"), "自営業");
    (Py.Lit "フリーランス", "フリーランス");
    (Py.Lit "学生", "学生") ].

(** The loop of [_extract_occupation]: return at the first pattern found. *)
Fixpoint search_patterns (ps : list (Py.regex * string)) (message : string)
  : option string :=
  match ps with
  | [] => None
  | (pattern, occupation) :: rest =>
      if Py.re_search pattern message then Some occupation
      else search_patterns rest message
  end.

Definition _extract_occupation (message : string) : option string :=
  search_patterns patterns message.

Definition _extract_challenges (message : string) : list string :=
  fold_left
    (fun found_challenges challenge =>
       if Py.contains challenge message
       then found_challenges ++ [challenge]
       else found_challenges)
    CHALLENGE_KEYWORDS [].

(** The [scores] dictionary, in insertion order. *)
Definition scores_t : Type := list (PersonaType * Z).

(** [scores[persona] += n].  Every key used by the source is present; on an
    absent key (a [KeyError] in Python) the table is returned as it is. *)
Fixpoint add_score (persona : PersonaType) (n : Z) (scores : scores_t)
  : scores_t :=
  match scores with
  | [] => []
  | (q, s) :: rest =>
      if persona_eqb persona q then (q, s + n) :: rest
      else (q, s) :: add_score persona n rest
  end.

(** First loop of [_estimate_persona]: +5 once, at the first occupation
    term found ([break]). *)
Definition score_occupation (occupation : string) (scores : scores_t)
  : scores_t :=
  fold_left
    (fun scores '(persona, keywords) =>
       if existsb (fun occ_keyword => Py.contains occ_keyword occupation)
                  (Keywords.occupation keywords)
       then add_score persona 5 scores
       else scores)
    PERSONA_KEYWORDS scores.

(** Second loop: +2 for every keyword found in [genre_str]. *)
Definition score_genres (genre_str : string) (scores : scores_t) : scores_t :=
  fold_left
    (fun scores '(persona, keywords) =>
       fold_left
         (fun scores keyword =>
            if Py.contains keyword genre_str
            then add_score persona 2 scores
            else scores)
         (Keywords.keywords keywords) scores)
    PERSONA_KEYWORDS scores.

(** Third loop: +3 for every challenge phrase found in [challenge_str]. *)
Definition score_challenges (challenge_str : string) (scores : scores_t)
  : scores_t :=
  fold_left
    (fun scores '(persona, keywords) =>
       fold_left
         (fun scores challenge =>
            if Py.contains challenge challenge_str
            then add_score persona 3 scores
            else scores)
         (Keywords.challenges keywords) scores)
    PERSONA_KEYWORDS scores.

(** The score table at the end of the three loops. *)
Definition persona_scores (customer : Customer.t) : scores_t :=
  let scores : scores_t :=
    [ (SIDE_WORKER, 0); (CHILD_RAISING_MOM, 0);
      (BUSINESS_OWNER, 0); (SELF_ACHIEVER, 0) ] in
  let scores :=
    if Py.truthy_str (Customer.occupation customer)
    then score_occupation (Py.or_blank (Customer.occupation customer)) scores
    else scores in
  let scores :=
    if Py.truthy_list (Customer.interest_genre customer)
    then score_genres
           (Py.join " " (Py.or_empty (Customer.interest_genre customer)))
           scores
    else scores in
  let scores :=
    if Py.truthy_list (Customer.challenges customer)
    then score_challenges
           (Py.join " " (Py.or_empty (Customer.challenges customer)))
           scores
    else scores in
  scores.

(** The selection at the end of [_estimate_persona]. *)
Definition select_persona (scores : scores_t) : PersonaType :=
  match map snd scores with
  | [] => UNKNOWN
  | v :: vs =>
      let max_score := Py.max_of v vs in
      if 0 <? max_score then
        match find (fun '(_, score) => score =? max_score) scores with
        | Some (persona, _) => persona
        | None => UNKNOWN
        end
      else UNKNOWN
  end.

Definition _estimate_persona (customer : Customer.t) : PersonaType :=
  select_persona (persona_scores customer).

Section WithBuiltins.

Context {B : PyBuiltins}.

Definition _extract_genres (message : string) : list string :=
  let message_lower := str_lower message in
  fold_left
    (fun found_genres '(genre, keywords) =>
       if existsb
            (fun keyword =>
               Py.contains keyword message
               || Py.contains keyword message_lower)
            keywords
       then if Py.mem genre found_genres then found_genres
            else found_genres ++ [genre]
       else found_genres)
    GENRE_KEYWORDS [].

(** The three accretion steps of [analyze_message], one per field. *)
Definition update_occupation (message : string) (customer : Customer.t)
  : Customer.t :=
  let occupation := _extract_occupation message in
  if Py.truthy_str occupation
     && negb (Py.truthy_str (Customer.occupation customer))
  then Customer.set_occupation occupation customer
  else customer.

Definition update_genres (message : string) (customer : Customer.t)
  : Customer.t :=
  let genres := _extract_genres message in
  match genres with
  | [] => customer
  | _ :: _ =>
      let existing := Py.or_empty (Customer.interest_genre customer) in
      Customer.set_interest_genre
        (Some (set_union_list existing genres)) customer
  end.

Definition update_challenges (message : string) (customer : Customer.t)
  : Customer.t :=
  let challenges := _extract_challenges message in
  match challenges with
  | [] => customer
  | _ :: _ =>
      let existing := Py.or_empty (Customer.challenges customer) in
      Customer.set_challenges
        (Some (set_union_list existing challenges)) customer
  end.

Definition update_persona (customer : Customer.t) : Customer.t :=
  if persona_eqb (Customer.persona customer) UNKNOWN
  then Customer.set_persona (_estimate_persona customer) customer
  else customer.

Definition analyze_message (message : string) (customer : Customer.t)
  : Customer.t :=
  let customer := update_occupation message customer in
  let customer := update_genres message customer in
  let customer := update_challenges message customer in
  let customer := update_persona customer in
  customer.

(** Successive calls of [analyze_message], one per utterance. *)
Definition analyze_messages (messages : list string) (customer : Customer.t)
  : Customer.t :=
  fold_left (fun customer message => analyze_message message customer)
            messages customer.

End WithBuiltins.

End PersonaAnalyzer.

(* ================================================================== *)
(** * app/knowledge_base.py *)
(* ================================================================== *)

Module KnowledgeBase.

(** The two collections held by a [KnowledgeBase] object. *)
Record t : Type := mk {
  success_cases : list SuccessCase.t;
  faqs : list FAQ.t
}.

(** The records written by [_create_default_success_cases]. *)
Definition default_cases : list SuccessCase.t :=
  [
    SuccessCase.mk
      "case_001"
      "育児と両立！半年で月収20万円を達成した主婦Cさんの事例"
      "30代主婦、2児の母"
      "料理・お弁当レシピ"
      "フォロワー0、Instagram完全初心者。毎日の家事育児に追われながら、在宅でできる副収入を探していた"
      "フォロワー2万人、月収20万円達成、企業からのPR案件も獲得"
      "半年"
      "毎日作っていたお弁当をそのままコンテンツ化。講師のアドバイスで写真の撮り方と投稿時間を最適化。子どもが寝た後の1〜2時間を活用"
      ["子育てママ"; "副業ワーカー"]
      ["在宅で稼ぎたい"; "育児と両立したい"; "時間が無い"]
      ["在宅"; "育児"; "お弁当"; "料理"; "主婦"; "初心者"];
    SuccessCase.mk
      "case_002"
      "仕事と両立！隙間時間で半年で月収15万円を達成したBさんの事例"
      "40代会社員、男性"
      "ビジネス・自己啓発"
      "フォロワー500、自己流で1年間運用するも伸び悩み。平日は仕事で忙しく、時間の確保が課題だった"
      "フォロワー1.5万人、月収15万円達成。会社員を続けながら副収入を確立"
      "半年"
      "通勤時間（往復1時間）と昼休み（30分）を活用した効率的な投稿スケジュールを確立。週末にまとめて投稿を作成するバッチ作業スタイル"
      ["副業ワーカー"]
      ["時間が無い"; "自己流の限界"; "副業で稼ぎたい"]
      ["副業"; "会社員"; "時短"; "効率化"; "ビジネス"; "隙間時間"];
    SuccessCase.mk
      "case_003"
      "完全初心者から3ヶ月でフォロワー5000人！Dさんの急成長事例"
      "30代パート、女性"
      "ダイエット・美容"
      "Instagramのアカウントすら持っていなかった完全初心者。自分のダイエット記録を残したいという軽い気持ちでスタート"
      "3ヶ月でフォロワー5,000人達成。現在はアフィリエイト収入も発生"
      "3ヶ月"
      "自身のダイエット体験をリアルタイムで発信。Before/Afterの変化が共感を呼び、同じ悩みを持つフォロワーが急増"
      ["子育てママ"; "自己実現チャレンジャー"]
      ["初心者で不安"; "何から始めればいいかわからない"]
      ["初心者"; "ダイエット"; "美容"; "3ヶ月"; "急成長"];
    SuccessCase.mk
      "case_004"
      "店舗集客に成功！月間来店数2倍を達成したオーナーEさん"
      "40代エステサロンオーナー、女性"
      "美容・ビジネス"
      "地方でエステサロンを経営。広告費をかけてもなかなか新規顧客が増えず、Instagram活用を決意"
      "フォロワー8,000人、月間来店数が2倍に増加、広告費50%削減"
      "4ヶ月"
      "ビフォーアフターの施術事例を定期投稿。地域タグを活用した地元へのリーチ強化。ストーリーズでの日常発信でファン化を促進"
      ["ビジネスオーナー"]
      ["集客を増やしたい"; "広告費を抑えたい"; "事業に活用したい"]
      ["集客"; "店舗"; "サロン"; "ビジネス"; "経営者"];
    SuccessCase.mk
      "case_005"
      "好きなことを仕事に！趣味のハンドメイドで月収10万円達成のFさん"
      "30代主婦、ハンドメイド作家志望"
      "ハンドメイド・クラフト"
      "趣味でアクセサリーを作っていたが、販売方法がわからなかった。「私の作品なんて売れるのかな」と不安だった"
      "フォロワー1.2万人、月収10万円、ミンネでの販売も開始"
      "半年"
      "制作過程をリールで発信し、作品への愛着を伝える。講師のアドバイスで商品撮影と価格設定を最適化"
      ["子育てママ"; "自己実現チャレンジャー"]
      ["好きなことで稼ぎたい"; "自分に自信がない"]
      ["ハンドメイド"; "趣味"; "好きなこと"; "クラフト"; "販売"] ].

(** The records written by [_create_default_faqs]. *)
Definition default_faqs : list FAQ.t :=
  [
    FAQ.mk
      "faq_001"
      "サービス内容"
      "初心者でも大丈夫ですか？"
      "もちろんです！SnsClubの生徒さんの約8割は、Instagramをほとんど触ったことがない初心者の方からスタートされています。講師がマンツーマンでサポートしますので、「フォロワーの増やし方」「投稿の作り方」といった基本から、丁寧にお教えします。"
      ["全て"]
      ["初心者"; "未経験"; "不安"; "大丈夫"];
    FAQ.mk
      "faq_002"
      "料金・支払い"
      "料金はいくらですか？"
      "半年間のプログラムで54.8万円となっております。分割払いも可能ですので、ご安心ください。多くの生徒さんが半年以内に投資額を回収されています。詳細は個別相談で担当者が丁寧にご説明いたします。"
      ["全て"]
      ["料金"; "価格"; "費用"; "いくら"; "金額"];
    FAQ.mk
      "faq_003"
      "料金・支払い"
      "分割払いはできますか？"
      "はい、分割払いも可能です。詳細な支払いプランについては、個別相談で担当者がご相談に応じますので、お気軽にお問い合わせください。"
      ["全て"]
      ["分割"; "支払い"; "ローン"; "月々"];
    FAQ.mk
      "faq_004"
      "サポート体制"
      "どんなサポートがありますか？"
      "専任の講師によるマンツーマンサポートが基本です。週に1回のZoom面談、LINEでの質問対応（24時間以内に返信）、月1回のグループセミナーなど、手厚いサポート体制を整えています。一人で悩まず、いつでも相談できる環境があります。"
      ["全て"]
      ["サポート"; "講師"; "相談"; "質問"];
    FAQ.mk
      "faq_005"
      "時間・両立"
      "仕事や育児と両立できますか？"
      "多くの生徒さんが、仕事や育児と両立しながら成果を出されています。1日30分〜1時間の作業時間があれば十分に取り組めます。隙間時間の使い方や効率的な運用方法も、講師がしっかりアドバイスします。"
      ["副業ワーカー"; "子育てママ"]
      ["時間"; "両立"; "仕事"; "育児"; "忙しい"];
    FAQ.mk
      "faq_006"
      "成果・実績"
      "本当に稼げるようになりますか？"
      "個人差はありますが、カリキュラムに沿って継続的に取り組んでいただければ、多くの方が成果を出されています。重要なのは、正しい方法で継続すること。講師が一人ひとりの状況に合わせたアドバイスを行い、目標達成をサポートします。"
      ["全て"]
      ["稼げる"; "収益"; "成果"; "結果"; "本当"];
    FAQ.mk
      "faq_007"
      "サービス内容"
      "どんなジャンルでも大丈夫ですか？"
      "料理、ダイエット、美容、育児、ビジネス、ハンドメイドなど、様々なジャンルで成功されている生徒さんがいらっしゃいます。あなたの得意なこと、好きなことを活かしたジャンル選びから、講師がサポートします。"
      ["全て"]
      ["ジャンル"; "分野"; "テーマ"; "何でも"];
    FAQ.mk
      "faq_008"
      "勉強会"
      "勉強会はどんな内容ですか？"
      "無料の勉強会では、Instagram運用の基礎知識、フォロワーの増やし方、収益化の仕組みなどを約90分でお伝えしています。実際の成功事例も多数ご紹介しますので、「自分にもできそう」というイメージが湧くと好評です。"
      ["全て"]
      ["勉強会"; "セミナー"; "内容"; "何"];
    FAQ.mk
      "faq_009"
      "個別相談"
      "個別相談では何をしますか？"
      "個別相談では、あなたの現状や目標をヒアリングし、最適な運用戦略を一緒に考えます。また、SnsClubのサービス詳細やサポート体制についても詳しくご説明します。無理な勧誘は一切ありませんので、ご安心ください。"
      ["全て"]
      ["個別相談"; "面談"; "相談"; "何"];
    FAQ.mk
      "faq_010"
      "その他"
      "顔出しは必要ですか？"
      "顔出しなしでも全く問題ありません。実際に、顔出しせずにフォロワー数万人を達成している生徒さんも多くいらっしゃいます。イラストアイコンや、手元だけの写真など、様々な方法がありますので、ご安心ください。"
      ["全て"]
      ["顔出し"; "顔"; "身バレ"; "匿名"] ].

(** The state after [load] when no data file exists. *)
Definition default : t := mk default_cases default_faqs.

(** The search loops append [(score, record)] to [results] when the score
    is positive; [keep] is that last step of the loop body. *)
Definition keep {A : Type} (score : Z) (record : A) (results : list (Z * A))
  : list (Z * A) :=
  if 0 <? score then results ++ [(score, record)] else results.

(** The tail shared by both searches: sort by score, slice, drop scores. *)
Definition top {A : Type} (results : list (Z * A)) (limit : Z) : list A :=
  map snd (Py.slice_to (Py.sort_desc results) limit).

(** Score of one FAQ, the body of the loop of [search_faqs]. *)
Definition faq_score (keywords : option (list string))
  (category : option string) (faq : FAQ.t) : Z :=
  let score := 0 in
  let score :=
    if Py.truthy_str category
       && Py.contains (Py.or_blank category) (FAQ.category faq)
    then score + 2 else score in
  let score :=
    if Py.truthy_list keywords then
      fold_left
        (fun score keyword =>
           let score :=
             if Py.contains keyword (FAQ.question faq)
             then score + 3 else score in
           let score :=
             if Py.mem keyword (FAQ.keywords faq)
             then score + 2 else score in
           let score :=
             if Py.contains keyword (FAQ.answer faq)
             then score + 1 else score in
           score)
        (Py.or_empty keywords) score
    else score in
  score.

Definition search_faqs (self : t) (keywords : option (list string))
  (category : option string) (limit : Z) : list FAQ.t :=
  let results :=
    fold_left
      (fun results faq => keep (faq_score keywords category faq) faq results)
      (faqs self) [] in
  top results limit.

(** The loop of [get_case_by_id]: return the first case with the
    identifier. *)
Fixpoint find_case (cases : list SuccessCase.t) (case_id : string)
  : option SuccessCase.t :=
  match cases with
  | [] => None
  | case :: rest =>
      if String.eqb (SuccessCase.id case) case_id then Some case
      else find_case rest case_id
  end.

Definition get_case_by_id (self : t) (case_id : string)
  : option SuccessCase.t :=
  find_case (success_cases self) case_id.

Section WithBuiltins.

Context {B : PyBuiltins}.

(** Score of one success case, the body of the loop of
    [search_success_cases] after the exclusion test. *)
Definition case_score (persona : option string)
  (challenges : option (list string)) (genre : option string)
  (keywords : option (list string)) (case : SuccessCase.t) : Z :=
  let score := 0 in
  let score :=
    if Py.truthy_str persona
       && Py.mem (Py.or_blank persona) (SuccessCase.related_personas case)
    then score + 3 else score in
  let score :=
    if Py.truthy_list challenges then
      fold_left
        (fun score challenge =>
           if existsb (fun c => Py.contains challenge c)
                      (SuccessCase.related_challenges case)
           then score + 2 else score)
        (Py.or_empty challenges) score
    else score in
  let score :=
    if Py.truthy_str genre
       && Py.contains (str_lower (Py.or_blank genre))
                      (str_lower (SuccessCase.genre case))
    then score + 2 else score in
  let score :=
    if Py.truthy_list keywords then
      fold_left
        (fun score keyword =>
           if Py.mem keyword (SuccessCase.keywords case)
           then score + 1 else score)
        (Py.or_empty keywords) score
    else score in
  score.

Definition search_success_cases (self : t) (persona : option string)
  (challenges : option (list string)) (genre : option string)
  (keywords : option (list string)) (exclude_ids : option (list string))
  (limit : Z) : list SuccessCase.t :=
  let exclude_ids := Py.or_empty exclude_ids in
  let results :=
    fold_left
      (fun results case =>
         if Py.mem (SuccessCase.id case) exclude_ids then results
         else keep (case_score persona challenges genre keywords case)
                   case results)
      (success_cases self) [] in
  top results limit.

End WithBuiltins.

End KnowledgeBase.

(* ================================================================== *)
(** * app/ai_engine.py *)
(* ================================================================== *)

Module AIEngine.

(** The fields of an [AIEngine] read by the prompt builders. *)
Record t : Type := mk {
  model : string;
  system_prompt : string
}.

(** One entry of the list handed to the chat API,
    [{"role": ..., "content": ...}]. *)
Module ChatMessage.

Record t : Type := mk {
  role : string;
  content : string
}.

End ChatMessage.

(** [chr(10)] *)
Definition chr10 : string := String (ascii_of_nat 10) EmptyString.

(** [l.append(x)] guarded by a condition. *)
Definition append_if (cond : bool) (line : string) (l : list string)
  : list string :=
  if cond then l ++ [line] else l.

(** The labels of the summary lines. *)
Definition label_name : string := "お名前: ".
Definition label_occupation : string := "職業: ".
Definition label_genre : string := "興味ジャンル: ".
Definition label_challenges : string := "課題: ".
Definition label_goals : string := "目標: ".
Definition label_persona : string := "推定ペルソナ: ".
Definition label_status : string := "ステータス: ".

(** [f"{persona_value}"] and [f"{status_value}"].  The test
    [isinstance(customer.persona, str)] holds in both forms of the field,
    so that [persona_value] is the field itself, never the [.value] of
    the other branch; likewise [status_value].  The f-string formats what
    the field holds: a text as it is, a member as the interpreter formats
    it. *)
Definition format_persona {python : PyVersion} (customer : Customer.t)
  : string :=
  match Customer.persona_repr customer with
  | AsValue => persona_value (Customer.persona customer)
  | AsMember =>
      Py.format_member "PersonaType"
        (persona_name (Customer.persona customer))
        (persona_value (Customer.persona customer))
  end.

Definition format_status {python : PyVersion} (customer : Customer.t)
  : string :=
  match Customer.status_repr customer with
  | AsValue => status_value (Customer.status customer)
  | AsMember =>
      Py.format_member "ConversationStatus"
        (status_name (Customer.status customer))
        (status_value (Customer.status customer))
  end.

(** The list [customer_info] built by [_build_context_prompt].  The
    comparison [persona_value != "未特定"] is that of the texts, in both
    forms of the field. *)
Definition customer_info {python : PyVersion} (customer : Customer.t)
  : list string :=
  let customer_info : list string := [] in
  let customer_info :=
    append_if (Py.truthy_str (Customer.display_name customer))
      (label_name ++ Py.or_blank (Customer.display_name customer) ++ "さん")%string
      customer_info in
  let customer_info :=
    append_if (Py.truthy_str (Customer.occupation customer))
      (label_occupation ++ Py.or_blank (Customer.occupation customer))%string
      customer_info in
  let customer_info :=
    append_if (Py.truthy_list (Customer.interest_genre customer))
      (label_genre
       ++ Py.join ", " (Py.or_empty (Customer.interest_genre customer)))%string
      customer_info in
  let customer_info :=
    append_if (Py.truthy_list (Customer.challenges customer))
      (label_challenges
       ++ Py.join ", " (Py.or_empty (Customer.challenges customer)))%string
      customer_info in
  let customer_info :=
    append_if (Py.truthy_str (Customer.goals customer))
      (label_goals ++ Py.or_blank (Customer.goals customer))%string
      customer_info in
  let customer_info :=
    append_if
      (negb (String.eqb (persona_value (Customer.persona customer)) "未特定"))
      (label_persona ++ format_persona customer)%string
      customer_info in
  let customer_info :=
    customer_info ++ [(label_status ++ format_status customer)%string] in
  customer_info.

Definition _build_context_prompt {python : PyVersion}
  (context : ConversationContext.t) : string :=
  let customer := ConversationContext.customer context in
  let customer_info := customer_info customer in
  let mentioned := ConversationContext.mentioned_cases context in
  (chr10 ++ "## 現在の顧客情報" ++ chr10
   ++ match customer_info with
      | [] => "（まだヒアリング前です）"
      | _ :: _ => Py.join chr10 customer_info
      end
   ++ chr10 ++ chr10
   ++ "## 対話の指針" ++ chr10
   ++ "- この顧客に合わせた対話を心がけてください" ++ chr10
   ++ "- まだ情報が少ない場合は、自然な形でヒアリングを進めてください" ++ chr10
   ++ "- 既に言及した成功事例: "
   ++ match mentioned with
      | [] => "なし"
      | _ :: _ => Py.join ", " mentioned
      end
   ++ chr10)%string.

Definition _build_messages {python : PyVersion} (self : t)
  (context : ConversationContext.t) (user_message : string)
  (knowledge : string) : list ChatMessage.t :=
  let messages : list ChatMessage.t := [] in
  let full_system_prompt := system_prompt self in
  let full_system_prompt :=
    (full_system_prompt ++ chr10 ++ chr10
     ++ _build_context_prompt context)%string in
  let full_system_prompt :=
    match knowledge with
    | EmptyString => full_system_prompt
    | String _ _ =>
        (full_system_prompt ++ chr10 ++ chr10 ++ knowledge)%string
    end in
  let messages := messages ++ [ChatMessage.mk "system" full_system_prompt] in
  let messages :=
    fold_left
      (fun messages msg =>
         messages
         ++ [ChatMessage.mk (Message.role msg) (Message.content msg)])
      (Py.slice_last 10 (ConversationContext.messages context))
      messages in
  let messages := messages ++ [ChatMessage.mk "user" user_message] in
  messages.

(** The vocabulary of [_extract_keywords]. *)
Definition keyword_patterns : list string :=
  [ "初心者"; "料金"; "費用"; "時間"; "仕事"; "育児"; "副業";
    "稼"; "収益"; "フォロワー"; "ジャンル"; "サポート"; "講師";
    "勉強会"; "個別相談"; "料理"; "ダイエット"; "美容";
    "不安"; "大丈夫"; "できる"; "分割"; "支払い" ].

Definition _extract_keywords (message : string) : list string :=
  fold_left
    (fun keywords pattern =>
       if Py.contains pattern message then keywords ++ [pattern]
       else keywords)
    keyword_patterns [].

(** The test guarding the FAQ search in [_get_relevant_knowledge]. *)
Definition question_words : list string :=
  [ "ですか"; "ますか"; "どう"; "いくら"; "何" ].

Definition looks_like_question (user_message : string) : bool :=
  Py.contains "?" user_message
  || Py.contains "？" user_message
  || existsb (fun word => Py.contains word user_message) question_words.

(** The two f-strings of [_get_relevant_knowledge]. *)
Definition render_case (case : SuccessCase.t) : string :=
  (chr10 ++ "### " ++ SuccessCase.title case ++ chr10
   ++ "- プロフィール: " ++ SuccessCase.customer_profile case ++ chr10
   ++ "- ジャンル: " ++ SuccessCase.genre case ++ chr10
   ++ "- 開始時: " ++ SuccessCase.initial_situation case ++ chr10
   ++ "- 成果: " ++ SuccessCase.achievement case ++ chr10
   ++ "- 期間: " ++ SuccessCase.period case ++ chr10
   ++ "- ポイント: " ++ SuccessCase.success_points case ++ chr10)%string.

Definition render_faq (faq : FAQ.t) : string :=
  (chr10 ++ "Q: " ++ FAQ.question faq ++ chr10
   ++ "A: " ++ FAQ.answer faq ++ chr10)%string.

Definition cases_header : string := "## 参考にできる成功事例".
Definition faqs_header : string := "## 関連するFAQ".

(** The reply sent when the API call fails. *)
Definition apology : string :=
  "申し訳ありません、一時的に応答ができない状態です。少し時間をおいてから再度メッセージをお送りください🙏".

(** What the call of the chat API comes to: it raises, or it gives a
    completion whose content is a text or [None]. *)
Inductive completion : Type :=
| Raised
| Content (content : option string).

Section WithBuiltins.

Context {B : PyBuiltins} {python : PyVersion}.

(** The two searches of [_get_relevant_knowledge]; [knowledge_base] is the
    module-level instance, passed explicitly. *)
Definition relevant_cases (knowledge_base : KnowledgeBase.t)
  (context : ConversationContext.t) (user_message : string)
  : list SuccessCase.t :=
  let customer := ConversationContext.customer context in
  let keywords := _extract_keywords user_message in
  let persona_value := persona_value (Customer.persona customer) in
  KnowledgeBase.search_success_cases knowledge_base
    (if String.eqb persona_value "未特定" then None else Some persona_value)
    (Customer.challenges customer)
    None
    (Some keywords)
    (Some (ConversationContext.mentioned_cases context))
    2.

Definition relevant_faqs (knowledge_base : KnowledgeBase.t)
  (user_message : string) : list FAQ.t :=
  let keywords := _extract_keywords user_message in
  KnowledgeBase.search_faqs knowledge_base (Some keywords) None 2.

(** The list [knowledge_parts] at the end of [_get_relevant_knowledge]. *)
Definition knowledge_parts (knowledge_base : KnowledgeBase.t)
  (context : ConversationContext.t) (user_message : string) : list string :=
  let knowledge_parts : list string := [] in
  let cases := relevant_cases knowledge_base context user_message in
  let knowledge_parts :=
    match cases with
    | [] => knowledge_parts
    | _ :: _ =>
        fold_left
          (fun knowledge_parts case => knowledge_parts ++ [render_case case])
          cases (knowledge_parts ++ [cases_header])
    end in
  let knowledge_parts :=
    if looks_like_question user_message then
      let faqs := relevant_faqs knowledge_base user_message in
      match faqs with
      | [] => knowledge_parts
      | _ :: _ =>
          fold_left
            (fun knowledge_parts faq => knowledge_parts ++ [render_faq faq])
            faqs (knowledge_parts ++ [faqs_header])
      end
    else knowledge_parts in
  knowledge_parts.

Definition _get_relevant_knowledge (knowledge_base : KnowledgeBase.t)
  (context : ConversationContext.t) (user_message : string) : string :=
  let knowledge_parts :=
    knowledge_parts knowledge_base context user_message in
  match knowledge_parts with
  | [] => EmptyString
  | _ :: _ => Py.join chr10 knowledge_parts
  end.

(** The part of [generate_response] before the API call: the context with
    the updated profile and the message list of the request. *)
Definition prepare_request (self : t) (knowledge_base : KnowledgeBase.t)
  (context : ConversationContext.t) (user_message : string)
  : ConversationContext.t * list ChatMessage.t :=
  let context :=
    ConversationContext.set_customer
      (PersonaAnalyzer.analyze_message user_message
         (ConversationContext.customer context))
      context in
  let knowledge := _get_relevant_knowledge knowledge_base context user_message in
  let messages := _build_messages self context user_message knowledge in
  (context, messages).

(** [generate_response]; [create] stands for the call of the chat API on
    the message list (model, temperature and token limit are constants of
    the call).  The result is the context, whose customer the function
    replaces, and the value returned. *)
Definition generate_response (self : t) (knowledge_base : KnowledgeBase.t)
  (create : list ChatMessage.t -> completion)
  (context : ConversationContext.t) (user_message : string)
  : ConversationContext.t * option string :=
  let '(context, messages) :=
    prepare_request self knowledge_base context user_message in
  match create messages with
  | Content content => (context, content)
  | Raised => (context, Some apology)
  end.

End WithBuiltins.

End AIEngine.

(* ================================================================== *)
(** * app/models.py and app/database.py: the enumerations as columns *)
(* ================================================================== *)

Module Database.

(** [PersonaType(s)] and [ConversationStatus(s)]: the member with the
    value [s]; [None] stands for the [ValueError] raised when there is
    none. *)
Definition PersonaType_of (s : string) : option PersonaType :=
  find (fun p => String.eqb (persona_value p) s)
       [SIDE_WORKER; CHILD_RAISING_MOM; BUSINESS_OWNER; SELF_ACHIEVER; UNKNOWN].

Definition ConversationStatus_of (s : string) : option ConversationStatus :=
  find (fun p => String.eqb (status_value p) s)
       [INITIAL; HEARING; SEMINAR_INVITED; SEMINAR_APPLIED; SEMINAR_ATTENDED;
        CONSULTATION_INVITED; CONSULTATION_SCHEDULED; CONSULTATION_DONE].

(** The [persona] and [status] columns written by [save_customer]. *)
Definition persona_column (customer : Customer.t) : string :=
  persona_value (Customer.persona customer).

Definition status_column (customer : Customer.t) : string :=
  status_value (Customer.status customer).

(** The two fields as [get_customer] reads them from a row: a column that
    is NULL or empty gives the default, any other text goes through the
    enumeration. *)
Definition persona_of_row (column : option string) : option PersonaType :=
  if Py.truthy_str column then PersonaType_of (Py.or_blank column)
  else Some UNKNOWN.

Definition status_of_row (column : option string)
  : option ConversationStatus :=
  if Py.truthy_str column then ConversationStatus_of (Py.or_blank column)
  else Some INITIAL.

End Database.

(* ================================================================== *)
(** * app/lstep_client.py: LstepDataMapper *)
(* ================================================================== *)

Module LstepDataMapper.

Definition TAG_TO_PERSONA : list (string * string) :=
  [ ("会社員", "副業ワーカー");
    ("副業", "副業ワーカー");
    ("主婦", "子育てママ");
    ("育児", "子育てママ");
    ("ママ", "子育てママ");
    ("経営者", "ビジネスオーナー");
    ("オーナー", "ビジネスオーナー");
    ("店舗", "ビジネスオーナー") ].

Definition TAG_TO_GENRE : list (string * string) :=
  [ ("料理", "料理");
    ("レシピ", "料理");
    ("ダイエット", "ダイエット");
    ("美容", "美容");
    ("コスメ", "美容");
    ("育児", "育児");
    ("子育て", "育児");
    ("ビジネス", "ビジネス") ].

Definition source_keywords : list string :=
  [ "Instagram"; "X"; "Twitter"; "Meta"; "広告"; "紹介" ].

(** The inner loop of [extract_persona_from_tags]: the value of the first
    keyword of the table found in the tag. *)
Fixpoint scan_table (table : list (string * string)) (tag : string)
  : option string :=
  match table with
  | [] => None
  | (keyword, value) :: rest =>
      if Py.contains keyword tag then Some value
      else scan_table rest tag
  end.

Fixpoint scan_tags (table : list (string * string)) (tags : list string)
  : option string :=
  match tags with
  | [] => None
  | tag :: rest =>
      match scan_table table tag with
      | Some value => Some value
      | None => scan_tags table rest
      end
  end.

Definition extract_persona_from_tags (tags : list string) : option string :=
  scan_tags TAG_TO_PERSONA tags.

(** The two nested loops of [extract_genres_from_tags] over a table. *)
Definition collect_genres (table : list (string * string))
  (tags : list string) : list string :=
  fold_left
    (fun genres tag =>
       fold_left
         (fun genres '(keyword, genre) =>
            if Py.contains keyword tag && negb (Py.mem genre genres)
            then genres ++ [genre]
            else genres)
         table genres)
    tags [].

Definition extract_genres_from_tags (tags : list string) : list string :=
  collect_genres TAG_TO_GENRE tags.

Fixpoint extract_source_from_tags (tags : list string) : option string :=
  match tags with
  | [] => None
  | tag :: rest =>
      if existsb (fun keyword => Py.contains keyword tag) source_keywords
      then Some tag
      else extract_source_from_tags rest
  end.

End LstepDataMapper.

(* ================================================================== *)
(** * app/line_handler.py *)
(* ================================================================== *)

Module LineHandler.

(** What the two calls of the Lstep client made by the handler come to,
    for a user: the list of tags and the custom fields, or [None] when the
    call raises.  A custom field is a JSON text or null. *)
Module LstepClient.

Record t : Type := mk {
  get_friend_tags : string -> option (list string);
  get_custom_fields : string -> option (list (string * option string))
}.

End LstepClient.

(** [key in d] and [d[key]] for a dictionary given by its items, the keys
    being distinct. *)
Definition dict_get {V : Type} (key : string) (d : list (string * V))
  : option V :=
  match find (fun kv => String.eqb (fst kv) key) d with
  | Some (_, v) => Some v
  | None => None
  end.

Definition handoff_keywords : list string :=
  [ "人と話したい"; "担当者と話したい"; "スタッフと話したい";
    "人間と話したい"; "オペレーター"; "問い合わせ"; "クレーム";
    "返金"; "解約" ].

Definition _is_handoff_request (message : string) : bool :=
  existsb (fun keyword => Py.contains keyword message) handoff_keywords.

(** [customer.persona = persona] for a persona given by its label: the
    field then holds the text.  The model keeps the member with that
    value; a text that is the value of no member has no counterpart in
    it and leaves the customer as it is (the labels of [TAG_TO_PERSONA]
    are all values of members). *)
Definition assign_persona (persona : option string) (customer : Customer.t)
  : Customer.t :=
  match Database.PersonaType_of (Py.or_blank persona) with
  | Some p => Customer.set_persona_value p customer
  | None => customer
  end.

Section WithBuiltins.

Context {B : PyBuiltins}.

(** The body of [if tags:] in [_enrich_customer_from_lstep]. *)
Definition enrich_from_tags (tags : list string) (customer : Customer.t)
  : Customer.t :=
  let source := LstepDataMapper.extract_source_from_tags tags in
  let customer :=
    if Py.truthy_str source && negb (Py.truthy_str (Customer.source customer))
    then Customer.set_source source customer
    else customer in
  let persona := LstepDataMapper.extract_persona_from_tags tags in
  let customer :=
    if Py.truthy_str persona
       && persona_eqb (Customer.persona customer) UNKNOWN
    then assign_persona persona customer
    else customer in
  let genres := LstepDataMapper.extract_genres_from_tags tags in
  match genres with
  | [] => customer
  | _ :: _ =>
      let existing := Py.or_empty (Customer.interest_genre customer) in
      Customer.set_interest_genre
        (Some (set_union_list existing genres)) customer
  end.

(** The body of [if custom_fields:]. *)
Definition enrich_from_fields (custom_fields : list (string * option string))
  (customer : Customer.t) : Customer.t :=
  let customer :=
    match dict_get "occupation" custom_fields with
    | Some v =>
        if negb (Py.truthy_str (Customer.occupation customer))
        then Customer.set_occupation v customer
        else customer
    | None => customer
    end in
  let customer :=
    match dict_get "goals" custom_fields with
    | Some v =>
        if negb (Py.truthy_str (Customer.goals customer))
        then Customer.set_goals v customer
        else customer
    | None => customer
    end in
  customer.

(** [_enrich_customer_from_lstep]; [lstep_client] is the module-level
    client, [None] when Lstep is not configured.  An exception raised by
    a call is caught by the [try]: the customer is returned with the
    changes made so far. *)
Definition _enrich_customer_from_lstep (lstep_client : option LstepClient.t)
  (customer : Customer.t) : Customer.t :=
  match lstep_client with
  | None => customer
  | Some client =>
      match LstepClient.get_friend_tags client (Customer.user_id customer) with
      | None => customer
      | Some tags =>
          let customer :=
            match tags with
            | [] => customer
            | _ :: _ => enrich_from_tags tags customer
            end in
          match LstepClient.get_custom_fields client
                  (Customer.user_id customer) with
          | None => customer
          | Some custom_fields =>
              match custom_fields with
              | [] => customer
              | _ :: _ => enrich_from_fields custom_fields customer
              end
          end
      end
  end.

End WithBuiltins.

End LineHandler.

(* ================================================================== *)
(** * A reference implementation of the built-ins *)
(* ================================================================== *)

(** Used to run the functions on concrete inputs: lower-casing of the
    ASCII letters (on the fixture texts, whose other characters are
    caseless, this is [str.lower]) and a set listed in first-insertion
    order. *)
Module Reference.

Definition lower_ascii (c : ascii) : ascii :=
  let n := nat_of_ascii c in
  if ((65 <=? n) && (n <=? 90))%nat then ascii_of_nat (n + 32) else c.

Fixpoint lower (s : string) : string :=
  match s with
  | EmptyString => EmptyString
  | String c rest => String (lower_ascii c) (lower rest)
  end.

Definition union_list (a b : list string) : list string :=
  nodup string_dec (a ++ b).

Definition builtins : PyBuiltins :=
  {| str_lower := lower;
     set_union_list := union_list;
     set_union_list_In :=
       fun a b x =>
         iff_trans (nodup_In string_dec (a ++ b) x) (in_app_iff a b x);
     set_union_list_NoDup := fun a b => NoDup_nodup string_dec (a ++ b) |}.

End Reference.

(* ================================================================== *)
(** * Vocabulary of the properties *)
(* ================================================================== *)

(** The genre and challenge sets of a profile. *)
Definition genre_set (c : Customer.t) : list string :=
  Py.or_empty (Customer.interest_genre c).

Definition challenge_set (c : Customer.t) : list string :=
  Py.or_empty (Customer.challenges c).

(** The lexicon entry of a persona in [PERSONA_KEYWORDS]. *)
Definition lexicon (p : PersonaType) : PersonaAnalyzer.Keywords.t :=
  match find (fun '(q, _) => persona_eqb p q)
             PersonaAnalyzer.PERSONA_KEYWORDS with
  | Some (_, k) => k
  | None => PersonaAnalyzer.Keywords.mk [] [] []
  end.

(** How many of [terms] occur in [text]. *)
Definition count_found (terms : list string) (text : string) : Z :=
  Z.of_nat (length (filter (fun t => Py.contains t text) terms)).

(** The persona score in closed form: 5 once for the occupation, 2 per
    keyword found in the joined genre labels, 3 per challenge phrase found
    in the joined challenge strings. *)
Definition occupation_bonus (p : PersonaType) (c : Customer.t) : Z :=
  if existsb
       (fun t => Py.contains t (Py.or_blank (Customer.occupation c)))
       (PersonaAnalyzer.Keywords.occupation (lexicon p))
  then 5 else 0.

Definition persona_score (p : PersonaType) (c : Customer.t) : Z :=
  occupation_bonus p c
  + 2 * count_found (PersonaAnalyzer.Keywords.keywords (lexicon p))
                    (Py.join " " (genre_set c))
  + 3 * count_found (PersonaAnalyzer.Keywords.challenges (lexicon p))
                    (Py.join " " (challenge_set c)).

(** The largest of the four scores. *)
Definition top_score (c : Customer.t) : Z :=
  Z.max (persona_score SIDE_WORKER c)
    (Z.max (persona_score CHILD_RAISING_MOM c)
       (Z.max (persona_score BUSINESS_OWNER c)
          (persona_score SELF_ACHIEVER c))).

(** Position of a persona in the score table. *)
Definition table_index (p : PersonaType) : nat :=
  match p with
  | SIDE_WORKER => 0
  | CHILD_RAISING_MOM => 1
  | BUSINESS_OWNER => 2
  | SELF_ACHIEVER => 3
  | UNKNOWN => 4
  end.

(** [l1] is an initial segment of [l2]. *)
Definition prefix_of {A : Type} (l1 l2 : list A) : Prop :=
  exists rest, l2 = l1 ++ rest.

(** [l1] is a final segment of [l2]. *)
Definition suffix_of {A : Type} (l1 l2 : list A) : Prop :=
  exists front, l2 = front ++ l1.

(** What a ranked result is with respect to a score and a pool of
    candidates, listed in load order: only candidates of positive score,
    by descending score, and among those of one score an initial segment
    of the pool's records with that score, in the pool's order. *)
Definition ranked_by {A : Type} (score : A -> Z) (pool result : list A)
  : Prop :=
  Forall (fun r => 0 < score r /\ In r pool) result
  /\ StronglySorted (fun a b => score b <= score a) result
  /\ forall k : Z,
       prefix_of (filter (fun r => score r =? k) result)
                 (filter (fun r => score r =? k) pool).

(** The success cases whose identifier is not excluded. *)
Definition not_excluded (exclude_ids : option (list string))
  (cases : list SuccessCase.t) : list SuccessCase.t :=
  filter (fun c => negb (Py.mem (SuccessCase.id c) (Py.or_empty exclude_ids)))
         cases.

(** The FAQ score in closed form. *)
Definition b2z (b : bool) : Z := if b then 1 else 0.

Definition category_points (category : option string) (faq : FAQ.t) : Z :=
  match category with
  | Some (String _ _ as c) =>
      if Py.contains c (FAQ.category faq) then 2 else 0
  | _ => 0
  end.

Definition keyword_points (faq : FAQ.t) (keyword : string) : Z :=
  3 * b2z (Py.contains keyword (FAQ.question faq))
  + 2 * b2z (Py.mem keyword (FAQ.keywords faq))
  + 1 * b2z (Py.contains keyword (FAQ.answer faq)).

Definition sum_Z (l : list Z) : Z := fold_right Z.add 0 l.

(** A summary line carrying the given label is present. *)
Definition renders {python : PyVersion} (label : string) (c : Customer.t)
  : Prop :=
  exists line, In line (AIEngine.customer_info c) /\ prefix label line = true.

(** The profile on which [analyze_message] runs the persona inference:
    the customer after the three accretion steps. *)
Definition accreted {B : PyBuiltins} (message : string) (c : Customer.t)
  : Customer.t :=
  PersonaAnalyzer.update_challenges message
    (PersonaAnalyzer.update_genres message
       (PersonaAnalyzer.update_occupation message c)).

(** The score table of a profile is the closed form, and its persona was
    chosen by it: a persona reaching the maximum when the maximum is
    positive, Unknown when the maximum is 0. *)
Definition inferred_by_score (profile : Customer.t) : Prop :=
  PersonaAnalyzer.persona_scores profile
  = [ (SIDE_WORKER, persona_score SIDE_WORKER profile);
      (CHILD_RAISING_MOM, persona_score CHILD_RAISING_MOM profile);
      (BUSINESS_OWNER, persona_score BUSINESS_OWNER profile);
      (SELF_ACHIEVER, persona_score SELF_ACHIEVER profile) ]
  /\ 0 <= top_score profile
  /\ (0 < top_score profile ->
      Customer.persona profile <> UNKNOWN
      /\ persona_score (Customer.persona profile) profile = top_score profile)
  /\ (top_score profile = 0 -> Customer.persona profile = UNKNOWN).

(** [winner] is a determinable persona reaching the maximum score, and no
    persona reaching it stands before [winner] in the table. *)
Definition earliest_top_scorer (c : Customer.t) (winner : PersonaType) : Prop :=
  winner <> UNKNOWN
  /\ persona_score winner c = top_score c
  /\ forall p, p <> UNKNOWN ->
               persona_score p c = top_score c ->
               (table_index winner <= table_index p)%nat.

(** Order and key test on scored pairs. *)
Definition by_key_desc {A : Type} (p q : Z * A) : Prop := fst q <= fst p.

Definition has_key {A : Type} (k : Z) (p : Z * A) : bool := fst p =? k.

(** A record paired with its score, and the test of the search loops. *)
Definition tag {A : Type} (score : A -> Z) (r : A) : Z * A := (score r, r).

Definition positive {A : Type} (score : A -> Z) (r : A) : bool :=
  0 <? score r.

(** The contract of the two searches for one knowledge base, one query and
    one limit: each result is ranked, holds at most [limit] records, and
    depends on the knowledge base through the collection searched only. *)
Definition ranking_holds {B : PyBuiltins} (self : KnowledgeBase.t)
  (persona : option string) (challenges : option (list string))
  (genre : option string) (keywords exclude_ids : option (list string))
  (category : option string) (limit : Z) : Prop :=
  let cases :=
    KnowledgeBase.search_success_cases self persona challenges genre keywords
      exclude_ids limit in
  let faqs := KnowledgeBase.search_faqs self keywords category limit in
  ranked_by (KnowledgeBase.case_score persona challenges genre keywords)
    (not_excluded exclude_ids (KnowledgeBase.success_cases self)) cases
  /\ Z.of_nat (length cases) <= limit
  /\ ranked_by (KnowledgeBase.faq_score keywords category)
       (KnowledgeBase.faqs self) faqs
  /\ Z.of_nat (length faqs) <= limit
  /\ (forall other : KnowledgeBase.t,
        KnowledgeBase.success_cases other = KnowledgeBase.success_cases self ->
        KnowledgeBase.search_success_cases other persona challenges genre
          keywords exclude_ids limit = cases)
  /\ (forall other : KnowledgeBase.t,
        KnowledgeBase.faqs other = KnowledgeBase.faqs self ->
        KnowledgeBase.search_faqs other keywords category limit = faqs).

(** A text with no space in it. *)
Definition spaceless (s : string) : Prop := Py.contains " " s = false.

(** Two lists holding the same elements, in any order and number. *)
Definition same_members (l1 l2 : list string) : Prop :=
  forall x, In x l1 <-> In x l2.

(** Two profiles that differ at most in the order and repetition of their
    genre and challenge lists, as two listings of one Python set do. *)
Definition same_inputs (c1 c2 : Customer.t) : Prop :=
  Customer.occupation c1 = Customer.occupation c2
  /\ same_members (genre_set c1) (genre_set c2)
  /\ same_members (challenge_set c1) (challenge_set c2).

(** The test of one entry of [GENRE_KEYWORDS] against a message: one of
    the keywords occurs in the message or in its lower-cased form. *)
Definition genre_matches {B : PyBuiltins} (message : string)
  (entry : string * list string) : bool :=
  let '(genre, keywords) := entry in
  existsb
    (fun keyword =>
       Py.contains keyword message
       || Py.contains keyword (str_lower message))
    keywords.

(** The labels of the pattern table of [_extract_occupation]. *)
Definition occupation_labels : list string :=
  [ "会社員"; "主婦"; "主夫"; "パート・アルバイト"; "経営者";
    "経営者・役員"; "自営業"; "フリーランス"; "学生" ].

(** The fields no step of the extractor assigns. *)
Definition same_identity (c c' : Customer.t) : Prop :=
  Customer.user_id c' = Customer.user_id c
  /\ Customer.display_name c' = Customer.display_name c
  /\ Customer.goals c' = Customer.goals c
  /\ Customer.status c' = Customer.status c
  /\ Customer.source c' = Customer.source c.

(** The score of a success case in closed form. *)
Definition persona_points (persona : option string) (case : SuccessCase.t)
  : Z :=
  if Py.truthy_str persona
     && Py.mem (Py.or_blank persona) (SuccessCase.related_personas case)
  then 3 else 0.

Definition challenge_points (case : SuccessCase.t) (challenge : string) : Z :=
  2 * b2z (existsb (fun c => Py.contains challenge c)
                   (SuccessCase.related_challenges case)).

Definition genre_points {B : PyBuiltins} (genre : option string)
  (case : SuccessCase.t) : Z :=
  if Py.truthy_str genre
     && Py.contains (str_lower (Py.or_blank genre))
                    (str_lower (SuccessCase.genre case))
  then 2 else 0.

Definition case_keyword_points (case : SuccessCase.t) (keyword : string) : Z :=
  b2z (Py.mem keyword (SuccessCase.keywords case)).

(** What a search result is with respect to the candidates of positive
    score in a pool: it is made of candidates; its length is the limit or
    the number of candidates, whichever is smaller, and for a negative
    limit the number of candidates less the absolute value of the limit;
    it holds every candidate when the limit allows; it repeats no record
    unless the pool does. *)
Definition best_of {A : Type} (score : A -> Z) (pool : list A) (limit : Z)
  (result : list A) : Prop :=
  let candidates := filter (positive score) pool in
  incl result candidates
  /\ (0 <= limit ->
      length result = Nat.min (Z.to_nat limit) (length candidates))
  /\ (limit < 0 ->
      length result = (length candidates - Z.to_nat (- limit))%nat)
  /\ (Z.of_nat (length candidates) <= limit -> Permutation result candidates)
  /\ (NoDup pool -> NoDup result).

(** The two sections of the knowledge text. *)
Definition cases_section (cases : list SuccessCase.t) : list string :=
  match cases with
  | [] => []
  | _ :: _ => AIEngine.cases_header :: map AIEngine.render_case cases
  end.

Definition faqs_section (faqs : list FAQ.t) : list string :=
  match faqs with
  | [] => []
  | _ :: _ => AIEngine.faqs_header :: map AIEngine.render_faq faqs
  end.

(** A tag names a source: one of the source keywords occurs in it. *)
Definition names_source (tag : string) : bool :=
  existsb (fun keyword => Py.contains keyword tag)
          LstepDataMapper.source_keywords.

(** A value of a tag table is mentioned by a list of tags: one of its
    keywords occurs in one of the tags. *)
Definition mentions (table : list (string * string)) (tags : list string)
  (value : string) : Prop :=
  exists tag keyword,
    In tag tags /\ In (keyword, value) table
    /\ Py.contains keyword tag = true.

(** A field that is already filled in keeps its value. *)
Definition kept (before after : option string) : Prop :=
  Py.truthy_str before = true -> after = before.

(* ================================================================== *)
(** * Concrete inputs *)
(* ================================================================== *)

(** The inputs of the test-suite and a few more, on which the functions
    are run below. *)
Module Fixture.

Definition company_worker : string :=
  "私は会社員です。平日は仕事で忙しいです。".

Definition housewife : string :=
  "専業主婦をしています。子どもが2人います。".

Definition side_job : string :=
  "副業で稼ぎたいのですが、時間が無いのが悩みです。".

Definition fresh : Customer.t := Customer.new "test_user_001".

(** The profile of [test_estimate_persona_side_worker]. *)
Definition side_worker_profile : Customer.t :=
  Customer.set_challenges (Some ["時間が無い"; "副業で稼ぎたい"])
    (Customer.set_occupation (Some "会社員") fresh).

(** A profile whose occupation names two personas: a tie at 5. *)
Definition tied_profile : Customer.t :=
  Customer.set_occupation (Some "主婦・会社員") fresh.

(** A profile whose persona is already determined. *)
Definition decided_profile : Customer.t :=
  Customer.set_persona CHILD_RAISING_MOM fresh.

(** A profile stored with every optional field absent; the persona and
    the status, passed to the constructor, are held as values. *)
Definition blank_profile : Customer.t :=
  Customer.mk "test_user_002" None None None None None UNKNOWN HEARING None
    AsValue AsValue.

Definition history (n : nat) : list Message.t :=
  map (fun i => Message.mk None "test_user_001"
                  (if Nat.even i then "user" else "assistant")
                  (String (ascii_of_nat (65 + i)) EmptyString))
      (seq 0 n).

Definition engine : AIEngine.t := AIEngine.mk "gpt-4-turbo-preview" "SYSTEM".

End Fixture.

(** A configured Lstep client whose friend carries three tags and one
    custom field. *)
Module LstepFixture.

Definition tags : list string := [ "Instagram広告"; "主婦"; "料理好き" ].

Definition client : LineHandler.LstepClient.t :=
  LineHandler.LstepClient.mk
    (fun _ => Some tags)
    (fun _ => Some [("occupation", Some "主婦")]).

End LstepFixture.


(* ================================================================== *)
(** * Profile extractor: the score table *)
(* ================================================================== *)

Section ScoreTable.

Import PersonaAnalyzer.

Lemma add_score_zero (p : PersonaType) (scores : scores_t) :
  add_score p 0 scores = scores.
Proof.
  induction scores as [|[q s] rest IH]; simpl; [reflexivity|].
  destruct (persona_eqb p q).
  - now rewrite Z.add_0_r.
  - now rewrite IH.
Qed.

Lemma add_score_twice (p : PersonaType) (a b : Z) (scores : scores_t) :
  add_score p b (add_score p a scores) = add_score p (a + b) scores.
Proof.
  induction scores as [|[q s] rest IH]; simpl; [reflexivity|].
  destruct (persona_eqb p q) eqn:E; simpl; rewrite E.
  - now rewrite Z.add_assoc.
  - now rewrite IH.
Qed.

Lemma fold_left_pointwise {A X : Type} (f g : A -> X -> A) (l : list X)
  (a : A) :
  (forall a x, f a x = g a x) -> fold_left f l a = fold_left g l a.
Proof.
  intros H. revert a.
  induction l as [|x l IH]; intros a; cbn [fold_left]; [reflexivity|].
  now rewrite H, IH.
Qed.

(** An inner loop adding [n] per term found adds [n] times their number. *)
Lemma inner_loop_count (p : PersonaType) (n : Z) (text : string)
  (terms : list string) (scores : scores_t) :
  fold_left
    (fun scores term =>
       if Py.contains term text then add_score p n scores else scores)
    terms scores
  = add_score p (n * count_found terms text) scores.
Proof.
  revert scores.
  induction terms as [|t terms IH]; intros scores.
  - simpl. now rewrite Z.mul_0_r, add_score_zero.
  - cbn [fold_left]. rewrite IH. unfold count_found. cbn [filter].
    destruct (Py.contains t text).
    + rewrite add_score_twice. f_equal. cbn [length]. lia.
    + reflexivity.
Qed.

(** The three loops on a table holding the four personas in order. *)
Lemma score_occupation_table (c : Customer.t) (a b d e : Z) :
  score_occupation (Py.or_blank (Customer.occupation c))
    [(SIDE_WORKER, a); (CHILD_RAISING_MOM, b);
     (BUSINESS_OWNER, d); (SELF_ACHIEVER, e)]
  = [(SIDE_WORKER, a + occupation_bonus SIDE_WORKER c);
     (CHILD_RAISING_MOM, b + occupation_bonus CHILD_RAISING_MOM c);
     (BUSINESS_OWNER, d + occupation_bonus BUSINESS_OWNER c);
     (SELF_ACHIEVER, e + occupation_bonus SELF_ACHIEVER c)].
Proof.
  unfold score_occupation, occupation_bonus, lexicon, PERSONA_KEYWORDS.
  cbn [fold_left find persona_eqb Keywords.occupation].
  repeat match goal with
         | |- context [if existsb ?f ?l then _ else _] =>
             destruct (existsb f l)
         end;
    cbn [add_score persona_eqb]; rewrite ?Z.add_0_r; reflexivity.
Qed.

Lemma score_genres_table (text : string) (a b d e : Z) :
  score_genres text
    [(SIDE_WORKER, a); (CHILD_RAISING_MOM, b);
     (BUSINESS_OWNER, d); (SELF_ACHIEVER, e)]
  = [(SIDE_WORKER,
      a + 2 * count_found (Keywords.keywords (lexicon SIDE_WORKER)) text);
     (CHILD_RAISING_MOM,
      b + 2 * count_found (Keywords.keywords (lexicon CHILD_RAISING_MOM)) text);
     (BUSINESS_OWNER,
      d + 2 * count_found (Keywords.keywords (lexicon BUSINESS_OWNER)) text);
     (SELF_ACHIEVER,
      e + 2 * count_found (Keywords.keywords (lexicon SELF_ACHIEVER)) text)].
Proof.
  unfold score_genres.
  rewrite (fold_left_pointwise _
             (fun scores pk =>
                add_score (fst pk)
                  (2 * count_found (Keywords.keywords (snd pk)) text) scores))
    by (intros scores [p k]; apply inner_loop_count).
  unfold PERSONA_KEYWORDS.
  cbn [fold_left fst snd add_score persona_eqb]. reflexivity.
Qed.

Lemma score_challenges_table (text : string) (a b d e : Z) :
  score_challenges text
    [(SIDE_WORKER, a); (CHILD_RAISING_MOM, b);
     (BUSINESS_OWNER, d); (SELF_ACHIEVER, e)]
  = [(SIDE_WORKER,
      a + 3 * count_found (Keywords.challenges (lexicon SIDE_WORKER)) text);
     (CHILD_RAISING_MOM,
      b + 3 * count_found (Keywords.challenges (lexicon CHILD_RAISING_MOM)) text);
     (BUSINESS_OWNER,
      d + 3 * count_found (Keywords.challenges (lexicon BUSINESS_OWNER)) text);
     (SELF_ACHIEVER,
      e + 3 * count_found (Keywords.challenges (lexicon SELF_ACHIEVER)) text)].
Proof.
  unfold score_challenges.
  rewrite (fold_left_pointwise _
             (fun scores pk =>
                add_score (fst pk)
                  (3 * count_found (Keywords.challenges (snd pk)) text) scores))
    by (intros scores [p k]; apply inner_loop_count).
  unfold PERSONA_KEYWORDS.
  cbn [fold_left fst snd add_score persona_eqb]. reflexivity.
Qed.

(** The guards of the three loops skip them exactly when they would add
    nothing: no lexicon term is empty. *)
Lemma occupation_bonus_falsy (p : PersonaType) (c : Customer.t) :
  Py.truthy_str (Customer.occupation c) = false ->
  occupation_bonus p c = 0.
Proof.
  unfold occupation_bonus.
  destruct (Customer.occupation c) as [[|ch s]|]; cbn [Py.truthy_str];
    try discriminate; intros _; destruct p; reflexivity.
Qed.

Lemma count_keywords_blank (p : PersonaType) :
  count_found (Keywords.keywords (lexicon p)) EmptyString = 0.
Proof.
  destruct p; reflexivity.
Qed.

Lemma count_challenges_blank (p : PersonaType) :
  count_found (Keywords.challenges (lexicon p)) EmptyString = 0.
Proof.
  destruct p; reflexivity.
Qed.

Lemma join_falsy (l : option (list string)) :
  Py.truthy_list l = false -> Py.join " " (Py.or_empty l) = EmptyString.
Proof.
  destruct l as [[|x xs]|]; cbn [Py.truthy_list]; try discriminate;
    reflexivity.
Qed.

(** The score table computed by the loops, in closed form. *)
Lemma persona_scores_closed_form (c : Customer.t) :
  persona_scores c
  = [(SIDE_WORKER, persona_score SIDE_WORKER c);
     (CHILD_RAISING_MOM, persona_score CHILD_RAISING_MOM c);
     (BUSINESS_OWNER, persona_score BUSINESS_OWNER c);
     (SELF_ACHIEVER, persona_score SELF_ACHIEVER c)].
Proof.
  unfold persona_scores, persona_score, genre_set, challenge_set.
  destruct (Py.truthy_str (Customer.occupation c)) eqn:Eo;
    [rewrite score_occupation_table
    |rewrite !(occupation_bonus_falsy _ c Eo)];
  (destruct (Py.truthy_list (Customer.interest_genre c)) eqn:Eg;
    [rewrite score_genres_table
    |rewrite (join_falsy _ Eg)]);
  (destruct (Py.truthy_list (Customer.challenges c)) eqn:Ec;
    [rewrite score_challenges_table
    |rewrite (join_falsy _ Ec)]);
  rewrite ?count_keywords_blank, ?count_challenges_blank;
  repeat match goal with
         | |- _ :: _ = _ :: _ => f_equal
         | |- (_, _) = (_, _) => f_equal
         end; lia.
Qed.

Lemma count_found_nonneg (terms : list string) (text : string) :
  0 <= count_found terms text.
Proof.
  unfold count_found. lia.
Qed.

Lemma persona_score_nonneg (p : PersonaType) (c : Customer.t) :
  0 <= persona_score p c.
Proof.
  unfold persona_score, occupation_bonus.
  pose proof (count_found_nonneg (Keywords.keywords (lexicon p))
                (Py.join " " (genre_set c))).
  pose proof (count_found_nonneg (Keywords.challenges (lexicon p))
                (Py.join " " (challenge_set c))).
  destruct (existsb _ _); lia.
Qed.

(** The selection on a table of four entries: the first entry, in table
    order, that reaches the maximum, when the maximum is positive. *)
Lemma select_persona_table (a b d e : Z) :
  let m := Z.max a (Z.max b (Z.max d e)) in
  select_persona
    [(SIDE_WORKER, a); (CHILD_RAISING_MOM, b);
     (BUSINESS_OWNER, d); (SELF_ACHIEVER, e)]
  = if 0 <? m then
      if a =? m then SIDE_WORKER
      else if b =? m then CHILD_RAISING_MOM
      else if d =? m then BUSINESS_OWNER
      else SELF_ACHIEVER
    else UNKNOWN.
Proof.
  intros m. unfold select_persona. cbn [map snd Py.max_of fold_left].
  replace (Z.max (Z.max (Z.max a b) d) e) with m by (subst m; lia).
  destruct (0 <? m); [|reflexivity].
  cbn [find].
  destruct (Z.eqb_spec a m); [reflexivity|].
  destruct (Z.eqb_spec b m); [reflexivity|].
  destruct (Z.eqb_spec d m); [reflexivity|].
  destruct (Z.eqb_spec e m); [reflexivity|].
  subst m. lia.
Qed.

Lemma estimate_persona_closed_form (c : Customer.t) :
  _estimate_persona c
  = if 0 <? top_score c then
      if persona_score SIDE_WORKER c =? top_score c then SIDE_WORKER
      else if persona_score CHILD_RAISING_MOM c =? top_score c
           then CHILD_RAISING_MOM
      else if persona_score BUSINESS_OWNER c =? top_score c
           then BUSINESS_OWNER
      else SELF_ACHIEVER
    else UNKNOWN.
Proof.
  unfold _estimate_persona. rewrite persona_scores_closed_form.
  apply select_persona_table.
Qed.

End ScoreTable.

(* ================================================================== *)
(** * Substrings of joined texts *)
(* ================================================================== *)

Section Substrings.

Lemma append_assoc (a b c : string) :
  ((a ++ b) ++ c = a ++ (b ++ c))%string.
Proof.
  induction a as [|x a IH]; cbn [append]; [reflexivity|now rewrite IH].
Qed.

Lemma append_empty_r (a : string) : (a ++ EmptyString)%string = a.
Proof.
  induction a as [|x a IH]; cbn [append]; [reflexivity|now rewrite IH].
Qed.

Lemma prefix_iff (s t : string) :
  prefix s t = true <-> exists r, t = (s ++ r)%string.
Proof.
  revert s. induction t as [|y t IH]; intros [|x s]; cbn [prefix append].
  - split; [exists EmptyString; reflexivity|reflexivity].
  - split; [discriminate|intros (r & H); discriminate].
  - split; [intros _; eexists; reflexivity|reflexivity].
  - destruct (ascii_dec x y) as [->|Hne].
    + rewrite IH. split; intros (r & H); exists r; congruence.
    + split; [discriminate|]. intros (r & H). congruence.
Qed.

(** [needle in haystack] holds exactly when the haystack splits around the
    needle. *)
Lemma contains_iff (needle haystack : string) :
  Py.contains needle haystack = true
  <-> exists front back, haystack = (front ++ needle ++ back)%string.
Proof.
  induction haystack as [|y t IH].
  - cbn [Py.contains]. destruct (prefix needle EmptyString) eqn:E.
    + split; [intros _|reflexivity].
      apply prefix_iff in E. destruct E as (r & E).
      exists EmptyString, r. exact E.
    + split; [discriminate|]. intros (front & back & H).
      destruct front; [|discriminate].
      assert (prefix needle EmptyString = true)
        by (apply prefix_iff; exists back; exact H).
      congruence.
  - cbn [Py.contains]. destruct (prefix needle (String y t)) eqn:E.
    + split; [intros _|reflexivity].
      apply prefix_iff in E. destruct E as (r & E).
      exists EmptyString, r. exact E.
    + rewrite IH. split.
      * intros (front & back & ->). exists (String y front), back. reflexivity.
      * intros (front & back & H). destruct front as [|x front].
        -- assert (prefix needle (String y t) = true)
             by (apply prefix_iff; exists back; exact H).
           congruence.
        -- cbn [append] in H. injection H as _ ->. now exists front, back.
Qed.

(** Two ways of splitting one text overlap in a common middle part. *)
Lemma append_eq_append (x y a z : string) :
  (x ++ y = a ++ z)%string ->
  (exists m, a = (x ++ m)%string /\ y = (m ++ z)%string)
  \/ (exists m, x = (a ++ m)%string /\ z = (m ++ y)%string).
Proof.
  revert a. induction x as [|c x IH]; intros a H.
  - left. exists a. split; [reflexivity|exact H].
  - destruct a as [|d a].
    + right. exists (String c x). split; [reflexivity|]. now symmetry.
    + cbn [append] in H. injection H as -> H.
      destruct (IH a H) as [(m & -> & ->)|(m & -> & ->)].
      * left. now exists m.
      * right. now exists m.
Qed.

Lemma spaceless_no_split (s a b : string) :
  spaceless s -> s <> (a ++ " " ++ b)%string.
Proof.
  intros Hs ->. unfold spaceless in Hs.
  assert (Py.contains " " (a ++ " " ++ b) = true)
    by (apply contains_iff; now exists a, b).
  congruence.
Qed.

Lemma In_join_split (sep e : string) (l : list string) :
  In e l -> exists p q, Py.join sep l = (p ++ e ++ q)%string.
Proof.
  unfold Py.join. induction l as [|x l IH]; [intros []|].
  intros [->|Hin].
  - destruct l as [|x' l]; cbn [String.concat].
    + exists EmptyString, EmptyString. cbn [append]. now rewrite append_empty_r.
    + exists EmptyString. eexists. reflexivity.
  - destruct (IH Hin) as (p & q & E).
    destruct l as [|x' l]; [destruct Hin|].
    change (String.concat sep (x :: x' :: l))
      with (x ++ sep ++ String.concat sep (x' :: l))%string.
    rewrite E.
    exists (x ++ sep ++ p)%string, q. now rewrite !append_assoc.
Qed.

(** A spaceless term occurs in a space-separated join exactly when it
    occurs in one of the joined texts. *)
Lemma contains_join_space (term : string) (l : list string) :
  term <> EmptyString -> spaceless term ->
  Py.contains term (Py.join " " l) = existsb (Py.contains term) l.
Proof.
  intros Hne Hsp.
  apply eq_true_iff_eq. rewrite existsb_exists. split.
  - rewrite contains_iff. unfold Py.join.
    induction l as [|e l IH]; intros (front & back & H).
    + cbn [String.concat] in H. destruct front; [|discriminate].
      destruct term; [congruence|discriminate].
    + destruct l as [|e' l].
      { cbn [String.concat] in H. exists e. split; [now left|].
        apply contains_iff. now exists front, back. }
      change (String.concat " " (e :: e' :: l))
        with (e ++ " " ++ String.concat " " (e' :: l))%string in H.
      destruct (append_eq_append _ _ _ _ H) as [(m & -> & Hm)|(m & -> & Hm)].
      * destruct m as [|c m].
        -- cbn [append] in Hm. destruct term as [|c t]; [congruence|].
           cbn [append] in Hm. injection Hm as <- _.
           exfalso. now apply (spaceless_no_split _ EmptyString t Hsp).
        -- cbn [append] in Hm. injection Hm as _ Hm.
           destruct IH as (x & Hx & Hc); [now exists m, back|].
           exists x. split; [now right|exact Hc].
      * symmetry in Hm.
        destruct (append_eq_append _ _ _ _ Hm) as [(t & Ht & Hb)|(t & Ht & Hb)].
        -- destruct t as [|c t].
           ++ rewrite append_empty_r in Ht. subst m.
              exists (front ++ term)%string. split; [now left|].
              apply contains_iff. exists front, EmptyString.
              now rewrite append_empty_r.
           ++ cbn [append] in Hb. injection Hb as <- _.
              exfalso. now apply (spaceless_no_split term m t).
        -- subst m. exists (front ++ term ++ t)%string. split; [now left|].
           apply contains_iff. now exists front, t.
  - intros (e & Hin & Hc). apply contains_iff in Hc.
    destruct Hc as (front & back & ->).
    destruct (In_join_split " " _ _ Hin) as (p & q & E).
    apply contains_iff. rewrite E.
    exists (p ++ front)%string, (back ++ q)%string.
    now rewrite !append_assoc.
Qed.

Lemma existsb_same_members {X : Type} (f : X -> bool) (l1 l2 : list X) :
  (forall x, In x l1 <-> In x l2) -> existsb f l1 = existsb f l2.
Proof.
  intros H. apply eq_true_iff_eq. rewrite !existsb_exists.
  split; intros (x & Hx & Hf); exists x; split; try assumption; now apply H.
Qed.

End Substrings.

(* ================================================================== *)
(** * Profile extractor: what each step of [analyze_message] touches *)
(* ================================================================== *)

Section Extractor.

Import PersonaAnalyzer.

Context {B : PyBuiltins}.

Lemma update_occupation_spec (message : string) (c : Customer.t) :
  Customer.interest_genre (update_occupation message c)
  = Customer.interest_genre c
  /\ Customer.challenges (update_occupation message c) = Customer.challenges c
  /\ Customer.persona (update_occupation message c) = Customer.persona c
  /\ Customer.occupation (update_occupation message c)
     = if Py.truthy_str (_extract_occupation message)
          && negb (Py.truthy_str (Customer.occupation c))
       then _extract_occupation message
       else Customer.occupation c.
Proof.
  unfold update_occupation.
  destruct (Py.truthy_str (_extract_occupation message)
            && negb (Py.truthy_str (Customer.occupation c)));
    repeat split; reflexivity.
Qed.

Lemma update_genres_spec (message : string) (c : Customer.t) :
  Customer.occupation (update_genres message c) = Customer.occupation c
  /\ Customer.challenges (update_genres message c) = Customer.challenges c
  /\ Customer.persona (update_genres message c) = Customer.persona c
  /\ forall g, In g (genre_set (update_genres message c))
               <-> In g (genre_set c) \/ In g (_extract_genres message).
Proof.
  unfold update_genres, genre_set.
  destruct (_extract_genres message) as [|g0 gs].
  - repeat split; try reflexivity; intros; simpl in *; tauto.
  - repeat split; try reflexivity; cbn [Customer.set_interest_genre
      Customer.interest_genre Py.or_empty];
      apply set_union_list_In.
Qed.

Lemma update_challenges_spec (message : string) (c : Customer.t) :
  Customer.occupation (update_challenges message c) = Customer.occupation c
  /\ Customer.interest_genre (update_challenges message c)
     = Customer.interest_genre c
  /\ Customer.persona (update_challenges message c) = Customer.persona c
  /\ forall x, In x (challenge_set (update_challenges message c))
               <-> In x (challenge_set c) \/ In x (_extract_challenges message).
Proof.
  unfold update_challenges, challenge_set.
  destruct (_extract_challenges message) as [|x0 xs].
  - repeat split; try reflexivity; intros; simpl in *; tauto.
  - repeat split; try reflexivity; cbn [Customer.set_challenges
      Customer.challenges Py.or_empty];
      apply set_union_list_In.
Qed.

Lemma update_persona_spec (c : Customer.t) :
  Customer.occupation (update_persona c) = Customer.occupation c
  /\ Customer.interest_genre (update_persona c) = Customer.interest_genre c
  /\ Customer.challenges (update_persona c) = Customer.challenges c
  /\ Customer.persona (update_persona c)
     = if persona_eqb (Customer.persona c) UNKNOWN
       then _estimate_persona c
       else Customer.persona c.
Proof.
  unfold update_persona.
  destruct (persona_eqb (Customer.persona c) UNKNOWN);
    repeat split; reflexivity.
Qed.

Lemma analyze_message_steps (message : string) (c : Customer.t) :
  analyze_message message c = update_persona (accreted message c).
Proof.
  unfold analyze_message, accreted. reflexivity.
Qed.

(** Labels produced by the pattern table are not empty. *)
Lemma search_patterns_In (ps : list (Py.regex * string)) (message o : string) :
  search_patterns ps message = Some o -> In o (map snd ps).
Proof.
  induction ps as [|[r l] ps IH]; simpl; [discriminate|].
  destruct (Py.re_search r message).
  - intros [= ->]. now left.
  - intros H. right. now apply IH.
Qed.

Lemma extract_occupation_truthy (message : string) :
  Py.truthy_str (_extract_occupation message)
  = match _extract_occupation message with Some _ => true | None => false end.
Proof.
  unfold _extract_occupation.
  destruct (search_patterns patterns message) as [o|] eqn:E; [|reflexivity].
  apply search_patterns_In in E. cbn [patterns map snd In] in E.
  repeat (destruct E as [<-|E]; [reflexivity|]). destruct E.
Qed.

(** The loop of [_extract_occupation] stops at the first pattern found. *)
Lemma search_patterns_first (ps : list (Py.regex * string))
  (message o : string) :
  search_patterns ps message = Some o
  <-> exists before pattern after,
        ps = before ++ (pattern, o) :: after
        /\ Py.re_search pattern message = true
        /\ Forall (fun q => Py.re_search (fst q) message = false) before.
Proof.
  induction ps as [|[r l] ps IH]; simpl.
  - split; [discriminate|].
    intros (before & pattern & after & H & _). now destruct before.
  - destruct (Py.re_search r message) eqn:E.
    + split.
      * intros [= ->]. exists [], r, ps. repeat split; auto.
      * intros (before & pattern & after & H & Hm & Hb).
        destruct before as [|[r' l'] before]; simpl in H.
        -- now injection H as _ -> _.
        -- injection H as -> -> _. inversion Hb as [|? ? Hr _]; subst.
           simpl in Hr. congruence.
    + rewrite IH. split.
      * intros (before & pattern & after & -> & Hm & Hb).
        exists ((r, l) :: before), pattern, after. repeat split; auto.
      * intros (before & pattern & after & H & Hm & Hb).
        destruct before as [|[r' l'] before]; simpl in H.
        -- injection H as -> _ _. congruence.
        -- injection H as _ _ ->. inversion Hb; subst.
           exists before, pattern, after. repeat split; auto.
Qed.

(** The genres found depend on the built-ins through [str_lower] only. *)
Lemma extract_genres_lower (B1 B2 : PyBuiltins) (message : string) :
  (forall s, @str_lower B1 s = @str_lower B2 s) ->
  @_extract_genres B1 message = @_extract_genres B2 message.
Proof.
  intros H. unfold _extract_genres. cbv zeta. now rewrite H.
Qed.

(** From here on the steps are used through the lemmas above only. *)
Opaque update_occupation update_genres update_challenges update_persona.
Opaque analyze_message accreted.
Opaque _extract_occupation _extract_genres _extract_challenges.
Opaque _estimate_persona.

(** The three accretion steps in sequence, on named intermediate
    profiles. *)
Lemma accretion_chain (message : string) (c c1 c2 c3 : Customer.t) :
  c1 = update_occupation message c ->
  c2 = update_genres message c1 ->
  c3 = update_challenges message c2 ->
  Customer.persona c3 = Customer.persona c
  /\ Customer.occupation c3
     = (if Py.truthy_str (_extract_occupation message)
           && negb (Py.truthy_str (Customer.occupation c))
        then _extract_occupation message
        else Customer.occupation c)
  /\ (forall g, In g (genre_set c3)
                <-> In g (genre_set c) \/ In g (_extract_genres message))
  /\ (forall x, In x (challenge_set c3)
                <-> In x (challenge_set c)
                    \/ In x (_extract_challenges message)).
Proof.
  intros E1 E2 E3.
  pose proof (update_occupation_spec message c) as S1.
  rewrite <- E1 in S1.
  pose proof (update_genres_spec message c1) as S2.
  rewrite <- E2 in S2.
  pose proof (update_challenges_spec message c2) as S3.
  rewrite <- E3 in S3.
  clear E1 E2 E3.
  destruct S1 as (G1 & C1 & P1 & O1).
  destruct S2 as (O2 & C2 & P2 & G2).
  destruct S3 as (O3 & G3 & P3 & C3).
  split; [congruence|]. split; [congruence|]. split.
  - intros g. unfold genre_set in *.
    rewrite G3, <- G1. exact (G2 g).
  - intros x. unfold challenge_set in *.
    rewrite <- C1, <- C2. exact (C3 x).
Qed.

Lemma accreted_spec (message : string) (c : Customer.t) :
  Customer.persona (accreted message c) = Customer.persona c
  /\ Customer.occupation (accreted message c)
     = (if Py.truthy_str (_extract_occupation message)
           && negb (Py.truthy_str (Customer.occupation c))
        then _extract_occupation message
        else Customer.occupation c)
  /\ (forall g, In g (genre_set (accreted message c))
                <-> In g (genre_set c) \/ In g (_extract_genres message))
  /\ (forall x, In x (challenge_set (accreted message c))
                <-> In x (challenge_set c)
                    \/ In x (_extract_challenges message)).
Proof.
  exact (accretion_chain message c _ _ _ eq_refl eq_refl eq_refl).
Qed.

Lemma accreted_persona (message : string) (c : Customer.t) :
  Customer.persona (accreted message c) = Customer.persona c.
Proof.
  exact (proj1 (accreted_spec message c)).
Qed.

Lemma analyze_message_fields (message : string) (c : Customer.t) :
  Customer.occupation (analyze_message message c)
  = Customer.occupation (accreted message c)
  /\ Customer.interest_genre (analyze_message message c)
     = Customer.interest_genre (accreted message c)
  /\ Customer.challenges (analyze_message message c)
     = Customer.challenges (accreted message c)
  /\ Customer.persona (analyze_message message c)
     = if persona_eqb (Customer.persona c) UNKNOWN
       then _estimate_persona (accreted message c)
       else Customer.persona c.
Proof.
  rewrite analyze_message_steps.
  pose proof (accreted_persona message c) as Hp.
  pose proof (update_persona_spec (accreted message c)) as S.
  destruct S as (O & G & C & P).
  rewrite <- Hp.
  repeat split; assumption.
Qed.

Lemma analyze_message_occupation (message : string) (c : Customer.t) :
  Customer.occupation (analyze_message message c)
  = if Py.truthy_str (_extract_occupation message)
       && negb (Py.truthy_str (Customer.occupation c))
    then _extract_occupation message
    else Customer.occupation c.
Proof.
  destruct (analyze_message_fields message c) as (O & _).
  destruct (accreted_spec message c) as (_ & O' & _).
  now transitivity (Customer.occupation (accreted message c)).
Qed.

Lemma analyze_message_genres (message : string) (c : Customer.t) (g : string) :
  In g (genre_set (analyze_message message c))
  <-> In g (genre_set c) \/ In g (_extract_genres message).
Proof.
  destruct (analyze_message_fields message c) as (_ & G & _).
  destruct (accreted_spec message c) as (_ & _ & G' & _).
  specialize (G' g). unfold genre_set in *.
  rewrite G. exact G'.
Qed.

Lemma analyze_message_challenges (message : string) (c : Customer.t)
  (x : string) :
  In x (challenge_set (analyze_message message c))
  <-> In x (challenge_set c) \/ In x (_extract_challenges message).
Proof.
  destruct (analyze_message_fields message c) as (_ & _ & C & _).
  destruct (accreted_spec message c) as (_ & _ & _ & C').
  specialize (C' x). unfold challenge_set in *.
  rewrite C. exact C'.
Qed.

Lemma analyze_message_persona (message : string) (c : Customer.t) :
  Customer.persona (analyze_message message c)
  = if persona_eqb (Customer.persona c) UNKNOWN
    then _estimate_persona (accreted message c)
    else Customer.persona c.
Proof.
  exact (proj2 (proj2 (proj2 (analyze_message_fields message c)))).
Qed.

(** Scores read the occupation, genres and challenges only. *)
Lemma persona_score_ext (p : PersonaType) (c c' : Customer.t) :
  Customer.occupation c' = Customer.occupation c ->
  Customer.interest_genre c' = Customer.interest_genre c ->
  Customer.challenges c' = Customer.challenges c ->
  persona_score p c' = persona_score p c.
Proof.
  intros Ho Hg Hc.
  unfold persona_score, occupation_bonus, genre_set, challenge_set.
  now rewrite Ho, Hg, Hc.
Qed.

Lemma persona_score_analyze (p : PersonaType) (message : string)
  (c : Customer.t) :
  persona_score p (analyze_message message c)
  = persona_score p (accreted message c).
Proof.
  destruct (analyze_message_fields message c) as (Ho & Hg & Hc & _).
  now apply persona_score_ext.
Qed.

Lemma persona_eqb_eq (p q : PersonaType) : persona_eqb p q = true <-> p = q.
Proof.
  destruct p, q; simpl; split; intros H; try reflexivity; discriminate.
Qed.

(** Unfolding a sequence of calls by one call. *)
Lemma fold_left_step {A X : Type} (f : A -> X -> A) (x : X) (l : list X)
  (a : A) :
  fold_left f (x :: l) a = fold_left f l (f a x).
Proof.
  reflexivity.
Qed.

Lemma analyze_messages_cons (m : string) (ms : list string) (c : Customer.t) :
  analyze_messages (m :: ms) c = analyze_messages ms (analyze_message m c).
Proof.
  unfold analyze_messages.
  exact (fold_left_step (fun customer message => analyze_message message customer)
           m ms c).
Qed.

End Extractor.

(* ================================================================== *)
(** * Persona inference does not depend on the order of the sets *)
(* ================================================================== *)

Section OrderOfSets.

Import PersonaAnalyzer.

(** No term of the persona lexicon is empty or holds a space. *)
Lemma lexicon_terms_plain (p : PersonaType) :
  Forall (fun t => t <> EmptyString /\ spaceless t)
         (Keywords.keywords (lexicon p) ++ Keywords.challenges (lexicon p)).
Proof.
  destruct p; cbn [lexicon find PERSONA_KEYWORDS persona_eqb
    Keywords.keywords Keywords.challenges app];
    repeat constructor; discriminate.
Qed.

Lemma count_found_same_members (terms l1 l2 : list string) :
  Forall (fun t => t <> EmptyString /\ spaceless t) terms ->
  same_members l1 l2 ->
  count_found terms (Py.join " " l1) = count_found terms (Py.join " " l2).
Proof.
  intros Hterms Hsame. unfold count_found. do 2 f_equal.
  apply filter_ext_in. intros t Ht.
  rewrite Forall_forall in Hterms. destruct (Hterms t Ht) as [Hne Hsp].
  rewrite !contains_join_space by assumption.
  now apply existsb_same_members.
Qed.

Lemma persona_score_same_inputs (p : PersonaType) (c1 c2 : Customer.t) :
  same_inputs c1 c2 -> persona_score p c1 = persona_score p c2.
Proof.
  intros (Ho & Hg & Hc). unfold persona_score, occupation_bonus.
  pose proof (lexicon_terms_plain p) as Hplain.
  apply Forall_app in Hplain. destruct Hplain as [Hk Hch].
  rewrite Ho.
  rewrite (count_found_same_members _ _ _ Hk Hg).
  rewrite (count_found_same_members _ _ _ Hch Hc).
  reflexivity.
Qed.

Lemma estimate_persona_same_inputs (c1 c2 : Customer.t) :
  same_inputs c1 c2 -> _estimate_persona c1 = _estimate_persona c2.
Proof.
  intros H. rewrite !estimate_persona_closed_form. unfold top_score.
  now rewrite !(persona_score_same_inputs _ c1 c2 H).
Qed.

(** Two runs that list their sets in different orders infer the same
    persona from the same utterance and profile. *)
Lemma analyze_message_persona_any_order (B1 B2 : PyBuiltins)
  (message : string) (c : Customer.t) :
  (forall s, @str_lower B1 s = @str_lower B2 s) ->
  Customer.persona (@analyze_message B1 message c)
  = Customer.persona (@analyze_message B2 message c).
Proof.
  intros Hlower.
  rewrite !analyze_message_persona.
  destruct (persona_eqb (Customer.persona c) UNKNOWN); [|reflexivity].
  apply estimate_persona_same_inputs.
  destruct (@accreted_spec B1 message c) as (_ & O1 & G1 & C1).
  destruct (@accreted_spec B2 message c) as (_ & O2 & G2 & C2).
  split; [congruence|]. split.
  - intros g. rewrite (G1 g), (G2 g).
    now rewrite (extract_genres_lower B1 B2 message Hlower).
  - intros x. now rewrite (C1 x), (C2 x).
Qed.

End OrderOfSets.

(* ================================================================== *)
(** * Profile extractor: properties *)
(* ================================================================== *)

Section ExtractorProperties.

Import PersonaAnalyzer.

Context {B : PyBuiltins}.

(** C1.  For a profile whose persona is Unknown, the score table that
    [analyze_message] builds holds, for each of the four determinable
    personas, 5 if the occupation contains one of the persona's occupation
    terms (once), plus 2 per persona keyword occurring in the space-joined
    genre labels, plus 3 per persona challenge phrase occurring in the
    space-joined challenge strings; the persona assigned has the maximum
    score when that maximum is positive, and stays Unknown when it is 0.
    The scores are those of the profile after the accretion steps of the
    same call. *)
Theorem persona_inference_by_score (message : string) (customer : Customer.t) :
  Customer.persona customer = UNKNOWN ->
  inferred_by_score (analyze_message message customer).
Proof.
  intros Hu. unfold inferred_by_score.
  set (profile := analyze_message message customer).
  assert (Hs : forall p, persona_score p profile
                         = persona_score p (accreted message customer))
    by (intros p; apply persona_score_analyze).
  assert (Ht : top_score profile = top_score (accreted message customer))
    by (unfold top_score; now rewrite !Hs).
  assert (Hp : Customer.persona profile
               = _estimate_persona (accreted message customer)).
  { unfold profile. rewrite analyze_message_persona, Hu. reflexivity. }
  split; [apply persona_scores_closed_form|].
  rewrite Hp, Ht, estimate_persona_closed_form.
  pose proof (persona_score_nonneg SIDE_WORKER (accreted message customer)).
  pose proof (persona_score_nonneg CHILD_RAISING_MOM (accreted message customer)).
  pose proof (persona_score_nonneg BUSINESS_OWNER (accreted message customer)).
  pose proof (persona_score_nonneg SELF_ACHIEVER (accreted message customer)).
  set (m := top_score (accreted message customer)) in *.
  assert (Hm : m = Z.max (persona_score SIDE_WORKER (accreted message customer))
                 (Z.max (persona_score CHILD_RAISING_MOM (accreted message customer))
                    (Z.max (persona_score BUSINESS_OWNER (accreted message customer))
                       (persona_score SELF_ACHIEVER (accreted message customer)))))
    by reflexivity.
  split; [lia|]. split.
  - intros Hpos. destruct (Z.ltb_spec 0 m); [|lia].
    destruct (Z.eqb_spec (persona_score SIDE_WORKER (accreted message customer)) m);
      [split; [discriminate|now rewrite Hs]|].
    destruct (Z.eqb_spec (persona_score CHILD_RAISING_MOM (accreted message customer)) m);
      [split; [discriminate|now rewrite Hs]|].
    destruct (Z.eqb_spec (persona_score BUSINESS_OWNER (accreted message customer)) m);
      [split; [discriminate|now rewrite Hs]|].
    split; [discriminate|]. rewrite Hs. lia.
  - intros Hz. destruct (Z.ltb_spec 0 m); [lia|reflexivity].
Qed.

(** C2.  A profile whose persona is determined keeps it through
    [analyze_message], whatever the utterance, and so through any sequence
    of calls. *)
Theorem persona_stability (customer : Customer.t) :
  Customer.persona customer <> UNKNOWN ->
  (forall message,
      Customer.persona (analyze_message message customer)
      = Customer.persona customer)
  /\ (forall messages,
         Customer.persona (analyze_messages messages customer)
         = Customer.persona customer).
Proof.
  intros Hd.
  assert (Hone : forall c message,
             Customer.persona c <> UNKNOWN ->
             Customer.persona (analyze_message message c) = Customer.persona c).
  { intros c message Hc. rewrite analyze_message_persona.
    destruct (persona_eqb (Customer.persona c) UNKNOWN) eqn:E; [|reflexivity].
    apply persona_eqb_eq in E. contradiction. }
  split; [intros message; now apply Hone|].
  intros messages. revert customer Hd.
  induction messages as [|m ms IH]; intros customer Hd; [reflexivity|].
  rewrite analyze_messages_cons.
  rewrite IH; [now apply Hone|].
  now rewrite Hone.
Qed.

(** C3.  Along any sequence of utterances, each call of [analyze_message]
    leaves the genre set and the challenge set equal to the union of the
    set before the call and what the utterance yields; hence each set
    after a call includes the set before it, and the sets after the whole
    sequence include the initial ones. *)
Theorem genres_and_challenges_grow (messages : list string) (message : string)
  (customer : Customer.t) :
  let before := analyze_messages messages customer in
  let after := analyze_message message before in
  (forall g, In g (genre_set after)
             <-> In g (genre_set before) \/ In g (_extract_genres message))
  /\ (forall x, In x (challenge_set after)
                <-> In x (challenge_set before)
                    \/ In x (_extract_challenges message))
  /\ incl (genre_set before) (genre_set after)
  /\ incl (challenge_set before) (challenge_set after)
  /\ incl (genre_set customer) (genre_set before)
  /\ incl (challenge_set customer) (challenge_set before).
Proof.
  cbv zeta.
  assert (Hstep : forall c m,
             incl (genre_set c) (genre_set (analyze_message m c))
             /\ incl (challenge_set c) (challenge_set (analyze_message m c))).
  { intros c m. split; intros x Hx.
    - apply (proj2 (analyze_message_genres m c x)). now left.
    - apply (proj2 (analyze_message_challenges m c x)). now left. }
  split; [exact (analyze_message_genres message _)|].
  split; [exact (analyze_message_challenges message _)|].
  split; [exact (proj1 (Hstep _ message))|].
  split; [exact (proj2 (Hstep _ message))|].
  revert customer.
  induction messages as [|m ms IH]; intros customer.
  - split; apply incl_refl.
  - rewrite analyze_messages_cons.
    destruct (IH (analyze_message m customer)) as [Hg Hc].
    destruct (Hstep customer m) as [Hg0 Hc0].
    split; eapply incl_tran; eassumption.
Qed.

(** C7.  Applying [analyze_message] twice with the same utterance gives
    the occupation that applying it once gives.  The occupation is written
    only when the profile has none, with the label of the first pattern of
    the table found in the utterance. *)
Theorem occupation_idempotent (message : string) (customer : Customer.t) :
  let once := analyze_message message customer in
  let twice := analyze_message message once in
  Customer.occupation twice = Customer.occupation once
  /\ Customer.occupation once
     = (if Py.truthy_str (Customer.occupation customer)
        then Customer.occupation customer
        else match _extract_occupation message with
             | Some label => Some label
             | None => Customer.occupation customer
             end)
  /\ forall label,
       _extract_occupation message = Some label
       <-> exists before pattern after,
             patterns = before ++ (pattern, label) :: after
             /\ Py.re_search pattern message = true
             /\ Forall (fun q => Py.re_search (fst q) message = false) before.
Proof.
  intros once twice. subst twice once.
  rewrite !analyze_message_occupation, extract_occupation_truthy.
  split; [|split].
  - destruct (_extract_occupation message) as [label|] eqn:E;
      cbn [andb]; [|reflexivity].
    destruct (Py.truthy_str (Customer.occupation customer)) eqn:Ec;
      cbn [negb]; [now rewrite Ec|].
    rewrite <- E at 1. rewrite extract_occupation_truthy, E. reflexivity.
  - destruct (_extract_occupation message) as [label|];
      destruct (Py.truthy_str (Customer.occupation customer)); reflexivity.
  - intros label. apply search_patterns_first.
Qed.

End ExtractorProperties.

(** C10.  When the maximum score is positive, [_estimate_persona] returns
    a persona that reaches it, and no persona reaching it comes earlier in
    the table order SideWorker, ChildRaisingMom, BusinessOwner,
    SelfAchiever: among tied personas the earliest one is returned.  The
    choice is the same from one run to the next: it does not change when
    the genre and challenge lists of the profile, which come out of Python
    sets, are listed in another order. *)
Theorem tie_break_in_table_order (customer : Customer.t) :
  0 < top_score customer ->
  earliest_top_scorer customer (PersonaAnalyzer._estimate_persona customer)
  /\ forall other,
       same_inputs customer other ->
       PersonaAnalyzer._estimate_persona other
       = PersonaAnalyzer._estimate_persona customer.
Proof.
  intros Hpos. split.
  2: { intros other H. symmetry. now apply estimate_persona_same_inputs. }
  unfold earliest_top_scorer.
  rewrite estimate_persona_closed_form.
  destruct (Z.ltb_spec 0 (top_score customer)); [|lia].
  destruct (Z.eqb_spec (persona_score SIDE_WORKER customer) (top_score customer)).
  { repeat split; [discriminate|assumption|]. intros p _ _. simpl. lia. }
  destruct (Z.eqb_spec (persona_score CHILD_RAISING_MOM customer) (top_score customer)).
  { repeat split; [discriminate|assumption|].
    intros [] Hp Hs; simpl; try lia; congruence. }
  destruct (Z.eqb_spec (persona_score BUSINESS_OWNER customer) (top_score customer)).
  { repeat split; [discriminate|assumption|].
    intros [] Hp Hs; simpl; try lia; congruence. }
  assert (persona_score SELF_ACHIEVER customer = top_score customer)
    by (unfold top_score in *; lia).
  repeat split; [discriminate|assumption|].
  intros [] Hp Hs; simpl; try lia; congruence.
Qed.

(* ================================================================== *)
(** * Sorting and slicing *)
(* ================================================================== *)

Section Sorting.

Context {A : Type}.

Lemma insert_desc_perm (x : Z * A) (l : list (Z * A)) :
  Permutation (Py.insert_desc x l) (x :: l).
Proof.
  induction l as [|y l IH]; cbn [Py.insert_desc]; [reflexivity|].
  destruct (fst x <? fst y); [|reflexivity].
  rewrite IH. apply perm_swap.
Qed.

Lemma sort_desc_perm (l : list (Z * A)) : Permutation (Py.sort_desc l) l.
Proof.
  induction l as [|x l IH]; cbn [Py.sort_desc]; [reflexivity|].
  rewrite insert_desc_perm. now constructor.
Qed.

Lemma insert_desc_sorted (x : Z * A) (l : list (Z * A)) :
  StronglySorted by_key_desc l ->
  StronglySorted by_key_desc (Py.insert_desc x l).
Proof.
  induction 1 as [|y l Hs IH Hy]; cbn [Py.insert_desc].
  - repeat constructor.
  - destruct (Z.ltb_spec (fst x) (fst y)) as [Hlt|Hge].
    + constructor; [assumption|].
      apply (Permutation_Forall (Permutation_sym (insert_desc_perm x l))).
      constructor; [unfold by_key_desc; lia|assumption].
    + constructor; [now constructor|].
      constructor; [exact Hge|].
      eapply Forall_impl; [|exact Hy].
      unfold by_key_desc. intros q Hq. lia.
Qed.

Lemma sort_desc_sorted (l : list (Z * A)) :
  StronglySorted by_key_desc (Py.sort_desc l).
Proof.
  induction l as [|x l IH]; cbn [Py.sort_desc]; [constructor|].
  now apply insert_desc_sorted.
Qed.

(** Stability: the elements of one key keep their order. *)
Lemma insert_desc_stable (k : Z) (x : Z * A) (l : list (Z * A)) :
  filter (has_key k) (Py.insert_desc x l) = filter (has_key k) (x :: l).
Proof.
  induction l as [|y l IH]; cbn [Py.insert_desc]; [reflexivity|].
  destruct (Z.ltb_spec (fst x) (fst y)) as [Hlt|Hge]; [|reflexivity].
  cbn [filter] in *. rewrite IH. unfold has_key.
  destruct (Z.eqb_spec (fst x) k), (Z.eqb_spec (fst y) k);
    try reflexivity; lia.
Qed.

Lemma sort_desc_stable (k : Z) (l : list (Z * A)) :
  filter (has_key k) (Py.sort_desc l) = filter (has_key k) l.
Proof.
  induction l as [|x l IH]; cbn [Py.sort_desc]; [reflexivity|].
  rewrite insert_desc_stable. cbn [filter]. now rewrite IH.
Qed.

(** A list sorted by descending key with a given order inside each key is
    unique: every stable sort computes [Py.sort_desc]. *)
Lemma stable_sort_unique (l1 l2 : list (Z * A)) :
  StronglySorted by_key_desc l1 ->
  StronglySorted by_key_desc l2 ->
  (forall k, filter (has_key k) l1 = filter (has_key k) l2) ->
  l1 = l2.
Proof.
  intros S1. revert l2.
  induction S1 as [|x r1 S1 IH H1]; intros l2 S2 Hf.
  - destruct l2 as [|y r2]; [reflexivity|].
    specialize (Hf (fst y)). cbn [filter] in Hf. unfold has_key in Hf.
    rewrite Z.eqb_refl in Hf. discriminate.
  - destruct l2 as [|y r2].
    { specialize (Hf (fst x)). cbn [filter] in Hf. unfold has_key in Hf.
      rewrite Z.eqb_refl in Hf. discriminate. }
    inversion S2 as [|? ? S2' H2]; subst.
    assert (Hyx : fst y <= fst x).
    { assert (Hin : In y (filter (has_key (fst y)) (x :: r1))).
      { rewrite Hf. cbn [filter]. unfold has_key at 1.
        rewrite Z.eqb_refl. now left. }
      apply filter_In in Hin. destruct Hin as [[->|Hin] _]; [lia|].
      rewrite Forall_forall in H1. exact (H1 _ Hin). }
    assert (Hxy : fst x <= fst y).
    { assert (Hin : In x (filter (has_key (fst x)) (y :: r2))).
      { rewrite <- Hf. cbn [filter]. unfold has_key at 1.
        rewrite Z.eqb_refl. now left. }
      apply filter_In in Hin. destruct Hin as [[->|Hin] _]; [lia|].
      rewrite Forall_forall in H2. exact (H2 _ Hin). }
    assert (Hk : fst x = fst y) by lia.
    pose proof (Hf (fst x)) as Hhead. cbn [filter] in Hhead.
    assert (E1 : has_key (fst x) x = true)
      by (unfold has_key; apply Z.eqb_refl).
    assert (E2 : has_key (fst x) y = true)
      by (unfold has_key; rewrite Hk; apply Z.eqb_refl).
    rewrite E1, E2 in Hhead.
    injection Hhead as -> Htail.
    f_equal. apply IH; [assumption|].
    intros k. specialize (Hf k). cbn [filter] in Hf.
    destruct (has_key k y); [now injection Hf|assumption].
Qed.

End Sorting.

Section Slicing.

Context {A : Type}.

Lemma slice_to_firstn (l : list A) (limit : Z) :
  exists n, Py.slice_to l limit = firstn n l.
Proof.
  unfold Py.slice_to. destruct (0 <=? limit); eexists; reflexivity.
Qed.

Lemma slice_to_length (l : list A) (limit : Z) :
  0 <= limit -> Z.of_nat (length (Py.slice_to l limit)) <= limit.
Proof.
  intros H. unfold Py.slice_to.
  destruct (Z.leb_spec 0 limit); [|lia].
  pose proof (firstn_le_length (Z.to_nat limit) l). lia.
Qed.

Lemma filter_firstn_prefix (f : A -> bool) (n : nat) (l : list A) :
  prefix_of (filter f (firstn n l)) (filter f l).
Proof.
  exists (filter f (skipn n l)).
  rewrite <- filter_app. now rewrite firstn_skipn.
Qed.

Lemma firstn_StronglySorted (R : A -> A -> Prop) (n : nat) (l : list A) :
  StronglySorted R l -> StronglySorted R (firstn n l).
Proof.
  intros H. revert n.
  induction H as [|x l Hs IH Hx]; intros [|n]; cbn [firstn];
    try constructor.
  - apply IH.
  - rewrite Forall_forall in *. intros y Hy. apply Hx.
    rewrite <- (firstn_skipn n l). apply in_or_app. now left.
Qed.

Lemma In_firstn (n : nat) (l : list A) (x : A) :
  In x (firstn n l) -> In x l.
Proof.
  intros H. rewrite <- (firstn_skipn n l). apply in_or_app. now left.
Qed.

Lemma slice_last_suffix (n : nat) (l : list A) :
  suffix_of (Py.slice_last n l) l.
Proof.
  exists (firstn (length l - n) l). unfold Py.slice_last.
  now rewrite firstn_skipn.
Qed.

Lemma slice_last_length (n : nat) (l : list A) :
  length (Py.slice_last n l) = Nat.min n (length l).
Proof.
  unfold Py.slice_last. rewrite length_skipn. lia.
Qed.

End Slicing.

(* ================================================================== *)
(** * Knowledge ranker *)
(* ================================================================== *)

Section Ranking.

Context {A : Type}.
Variable score : A -> Z.

(** The loop collecting the candidates of positive score. *)
Lemma collect_loop (skip : A -> bool) (l : list A) (acc : list (Z * A)) :
  fold_left
    (fun results r =>
       if skip r then results else KnowledgeBase.keep (score r) r results)
    l acc
  = acc ++ map (tag score) (filter (positive score) (filter (fun r => negb (skip r)) l)).
Proof.
  revert acc.
  induction l as [|r l IH]; intros acc; cbn [fold_left filter].
  - cbn [map]. now rewrite app_nil_r.
  - rewrite IH. destruct (skip r); cbn [negb]; [reflexivity|].
    unfold KnowledgeBase.keep. cbn [filter]. unfold positive at 2.
    destruct (0 <? score r); [|reflexivity].
    cbn [map]. now rewrite <- app_assoc.
Qed.

Lemma map_snd_tag (l : list A) : map snd (map (tag score) l) = l.
Proof.
  rewrite map_map. cbn [tag snd]. apply map_id.
Qed.

Lemma tagged_keys (l : list A) (s : list (Z * A)) :
  Permutation s (map (tag score) l) ->
  Forall (fun p => fst p = score (snd p)) s.
Proof.
  intros H. apply (Permutation_Forall (Permutation_sym H)).
  rewrite Forall_forall. intros p Hp.
  apply in_map_iff in Hp. destruct Hp as (r & <- & _). reflexivity.
Qed.

Lemma filter_map_snd (k : Z) (s : list (Z * A)) :
  Forall (fun p => fst p = score (snd p)) s ->
  filter (fun r => score r =? k) (map snd s)
  = map snd (filter (has_key k) s).
Proof.
  induction 1 as [|p s Hp Hs IH]; cbn [map filter]; [reflexivity|].
  unfold has_key at 1. rewrite Hp, IH.
  now destruct (score (snd p) =? k).
Qed.

Lemma filter_tag (k : Z) (l : list A) :
  filter (has_key k) (map (tag score) l) = map (tag score) (filter (fun r => score r =? k) l).
Proof.
  induction l as [|r l IH]; cbn [map filter]; [reflexivity|].
  unfold has_key at 1. cbn [tag fst]. rewrite IH.
  now destruct (score r =? k).
Qed.

Lemma sorted_map_snd (s : list (Z * A)) :
  Forall (fun p => fst p = score (snd p)) s ->
  StronglySorted by_key_desc s ->
  StronglySorted (fun a b => score b <= score a) (map snd s).
Proof.
  intros Hk Hs.
  induction Hs as [|p s Hs IH Hp]; cbn [map]; [constructor|].
  inversion Hk as [|? ? Hkp Hks]; subst.
  constructor; [now apply IH|].
  rewrite Forall_forall in *. intros b Hb.
  apply in_map_iff in Hb. destruct Hb as (q & <- & Hq).
  specialize (Hp q Hq). unfold by_key_desc in Hp.
  rewrite <- Hkp, <- (Hks q Hq). exact Hp.
Qed.

Lemma filter_positive_key (k : Z) (l : list A) :
  filter (fun r => score r =? k) (filter (positive score) l)
  = if 0 <? k then filter (fun r => score r =? k) l else [].
Proof.
  induction l as [|r l IH]; cbn [filter].
  - now destruct (0 <? k).
  - unfold positive at 1.
    destruct (Z.ltb_spec 0 (score r)), (Z.eqb_spec (score r) k);
      cbn [filter]; rewrite IH;
      destruct (Z.ltb_spec 0 k);
      try (destruct (Z.eqb_spec (score r) k)); try reflexivity; lia.
Qed.

(** The result of a search over [pool]: the candidates of positive score,
    sorted and sliced. *)
Lemma top_is_ranked (pool : list A) (limit : Z) :
  ranked_by score pool
    (KnowledgeBase.top (map (tag score) (filter (positive score) pool)) limit).
Proof.
  unfold KnowledgeBase.top.
  destruct (slice_to_firstn (Py.sort_desc (map (tag score) (filter (positive score) pool)))
              limit) as [n ->].
  set (S := Py.sort_desc (map (tag score) (filter (positive score) pool))).
  assert (HP : Permutation S (map (tag score) (filter (positive score) pool)))
    by apply sort_desc_perm.
  assert (HK : Forall (fun p => fst p = score (snd p)) S)
    by (eapply tagged_keys; exact HP).
  assert (HS : StronglySorted by_key_desc S) by apply sort_desc_sorted.
  rewrite <- firstn_map.
  split; [|split].
  - rewrite Forall_forall. intros r Hr.
    apply In_firstn in Hr.
    assert (Hin : In r (filter (positive score) pool)).
    { rewrite <- (map_snd_tag (filter (positive score) pool)).
      eapply Permutation_in; [apply Permutation_map; exact HP|exact Hr]. }
    apply filter_In in Hin. destruct Hin as [Hin Hpos].
    unfold positive in Hpos. split; [lia|assumption].
  - apply firstn_StronglySorted. now apply sorted_map_snd.
  - intros k.
    destruct (filter_firstn_prefix (fun r => score r =? k) n (map snd S))
      as [rest Hrest].
    rewrite (filter_map_snd k S HK) in Hrest.
    unfold S in Hrest at 1.
    rewrite sort_desc_stable, filter_tag, map_snd_tag,
      filter_positive_key in Hrest.
    destruct (0 <? k).
    + exists rest. exact Hrest.
    + symmetry in Hrest. apply app_eq_nil in Hrest.
      destruct Hrest as [-> _]. exists (filter (fun r => score r =? k) pool).
      reflexivity.
Qed.

End Ranking.

Section KnowledgeRanker.

Import KnowledgeBase.

Context {B : PyBuiltins}.

Lemma mem_In (x : string) (xs : list string) :
  Py.mem x xs = true <-> In x xs.
Proof.
  unfold Py.mem. rewrite existsb_exists. split.
  - intros (y & Hy & E). apply String.eqb_eq in E. now subst.
  - intros H. exists x. split; [assumption|apply String.eqb_refl].
Qed.

Lemma filter_all {A : Type} (f : A -> bool) (l : list A) :
  (forall x, f x = true) -> filter f l = l.
Proof.
  intros H. induction l as [|x l IH]; cbn [filter]; [reflexivity|].
  now rewrite H, IH.
Qed.

Lemma not_excluded_None (cases : list SuccessCase.t) :
  not_excluded None cases = cases.
Proof.
  unfold not_excluded. apply filter_all. reflexivity.
Qed.

(** The two searches as ranking pipelines. *)
Lemma search_success_cases_pipeline (self : t) (persona : option string)
  (challenges : option (list string)) (genre : option string)
  (keywords exclude_ids : option (list string)) (limit : Z) :
  search_success_cases self persona challenges genre keywords exclude_ids limit
  = top (map (tag (case_score persona challenges genre keywords))
           (filter (positive (case_score persona challenges genre keywords))
              (not_excluded exclude_ids (success_cases self))))
        limit.
Proof.
  unfold search_success_cases. cbv zeta.
  rewrite (collect_loop (case_score persona challenges genre keywords)
             (fun case => Py.mem (SuccessCase.id case)
                                 (Py.or_empty exclude_ids))).
  reflexivity.
Qed.

Lemma search_faqs_pipeline (self : t) (keywords : option (list string))
  (category : option string) (limit : Z) :
  search_faqs self keywords category limit
  = top (map (tag (faq_score keywords category))
           (filter (positive (faq_score keywords category)) (faqs self)))
        limit.
Proof.
  unfold search_faqs. cbv zeta.
  pose proof (collect_loop (faq_score keywords category) (fun _ => false)
                (faqs self) []) as H.
  cbv beta iota in H.
  rewrite (filter_all (fun _ : FAQ.t => negb false)) in H by reflexivity.
  rewrite H. reflexivity.
Qed.

Lemma top_length {A : Type} (results : list (Z * A)) (limit : Z) :
  0 <= limit -> Z.of_nat (length (top results limit)) <= limit.
Proof.
  intros H. unfold top. rewrite length_map. now apply slice_to_length.
Qed.

(** C4, as amended.  For a limit that is not negative, both searches
    return only records of positive score, by descending score, records of
    equal score in the load order of the knowledge base, at most [limit]
    of them; and the result is a function of the collection searched and
    of the arguments.  (With a negative limit the slice drops records from
    the end instead, and the bound on the length fails.) *)
Theorem ranking_contract (self : t) (persona : option string)
  (challenges : option (list string)) (genre : option string)
  (keywords exclude_ids : option (list string)) (category : option string)
  (limit : Z) :
  0 <= limit ->
  ranking_holds self persona challenges genre keywords exclude_ids category
    limit.
Proof.
  intros Hlimit. unfold ranking_holds.
  rewrite search_success_cases_pipeline, search_faqs_pipeline.
  split; [apply top_is_ranked|].
  split; [now apply top_length|].
  split; [apply top_is_ranked|].
  split; [now apply top_length|].
  split.
  - intros other H. rewrite search_success_cases_pipeline, H. reflexivity.
  - intros other H. rewrite search_faqs_pipeline, H. reflexivity.
Qed.

(** C5.  No record whose identifier is in [exclude_ids] is in the result
    of [search_success_cases]; the result is the one obtained from a
    knowledge base from which those records were removed beforehand. *)
Theorem excluded_ids_never_ranked (self : t) (persona : option string)
  (challenges : option (list string)) (genre : option string)
  (keywords exclude_ids : option (list string)) (limit : Z) :
  Forall (fun case => ~ In (SuccessCase.id case) (Py.or_empty exclude_ids))
    (search_success_cases self persona challenges genre keywords exclude_ids
       limit)
  /\ search_success_cases self persona challenges genre keywords exclude_ids
       limit
     = search_success_cases
         (mk (not_excluded exclude_ids (success_cases self)) (faqs self))
         persona challenges genre keywords None limit.
Proof.
  split.
  - rewrite search_success_cases_pipeline.
    destruct (top_is_ranked (case_score persona challenges genre keywords)
                (not_excluded exclude_ids (success_cases self)) limit)
      as (H & _).
    eapply Forall_impl; [|exact H].
    intros case (_ & Hin) Hex.
    unfold not_excluded in Hin. apply filter_In in Hin.
    destruct Hin as [_ Hn]. apply mem_In in Hex.
    rewrite Hex in Hn. discriminate.
  - rewrite !search_success_cases_pipeline.
    cbn [success_cases]. now rewrite not_excluded_None.
Qed.

Lemma sum_Z_cons (x : Z) (l : list Z) : sum_Z (x :: l) = x + sum_Z l.
Proof.
  reflexivity.
Qed.

Lemma keyword_loop (faq : FAQ.t) (keywords : list string) (score : Z) :
  fold_left
    (fun score keyword =>
       let score :=
         if Py.contains keyword (FAQ.question faq)
         then score + 3 else score in
       let score :=
         if Py.mem keyword (FAQ.keywords faq)
         then score + 2 else score in
       let score :=
         if Py.contains keyword (FAQ.answer faq)
         then score + 1 else score in
       score)
    keywords score
  = score + sum_Z (map (keyword_points faq) keywords).
Proof.
  revert score.
  induction keywords as [|k ks IH]; intros score; cbn [fold_left map].
  - unfold sum_Z. cbn [fold_right]. lia.
  - rewrite IH, sum_Z_cons. unfold keyword_points at 2, b2z. cbv zeta.
    destruct (Py.contains k (FAQ.question faq)),
      (Py.mem k (FAQ.keywords faq)), (Py.contains k (FAQ.answer faq)); lia.
Qed.

(** C6.  The score of an FAQ record is 2 if a category is supplied (not
    absent, not empty) and occurs in the record's category, plus, for each
    supplied keyword, 3 if it occurs in the question, 2 if it is one of the
    record's keywords and 1 if it occurs in the answer, all three adding
    up for one keyword. *)
Theorem faq_score_closed_form (keywords : option (list string))
  (category : option string) (faq : FAQ.t) :
  faq_score keywords category faq
  = category_points category faq
    + sum_Z (map (keyword_points faq) (Py.or_empty keywords)).
Proof.
  unfold faq_score. cbv zeta.
  assert (Hc : (if Py.truthy_str category
                   && Py.contains (Py.or_blank category) (FAQ.category faq)
                then 0 + 2 else 0) = category_points category faq).
  { unfold category_points.
    destruct category as [[|ch s]|]; reflexivity. }
  rewrite Hc.
  destruct keywords as [[|k ks]|]; cbn [Py.truthy_list Py.or_empty].
  - unfold sum_Z. cbn [map fold_right]. lia.
  - apply keyword_loop.
  - unfold sum_Z. cbn [map fold_right]. lia.
Qed.

End KnowledgeRanker.

(* ================================================================== *)
(** * Context assembler *)
(* ================================================================== *)

Section Assembler.

Import AIEngine.

Context {python : PyVersion}.

Lemma In_append_if (cond : bool) (line x : string) (l : list string) :
  In x (append_if cond line l) <-> In x l \/ (cond = true /\ x = line).
Proof.
  unfold append_if. destruct cond.
  - rewrite in_app_iff. cbn [In]. intuition congruence.
  - intuition congruence.
Qed.

(** The lines of the summary, one by one. *)
Lemma customer_info_In (c : Customer.t) (x : string) :
  In x (customer_info c)
  <-> (Py.truthy_str (Customer.display_name c) = true
       /\ x = (label_name ++ Py.or_blank (Customer.display_name c)
               ++ "さん")%string)
      \/ (Py.truthy_str (Customer.occupation c) = true
          /\ x = (label_occupation
                  ++ Py.or_blank (Customer.occupation c))%string)
      \/ (Py.truthy_list (Customer.interest_genre c) = true
          /\ x = (label_genre
                  ++ Py.join ", " (Py.or_empty (Customer.interest_genre c)))%string)
      \/ (Py.truthy_list (Customer.challenges c) = true
          /\ x = (label_challenges
                  ++ Py.join ", " (Py.or_empty (Customer.challenges c)))%string)
      \/ (Py.truthy_str (Customer.goals c) = true
          /\ x = (label_goals ++ Py.or_blank (Customer.goals c))%string)
      \/ (Customer.persona c <> UNKNOWN
          /\ x = (label_persona ++ format_persona c)%string)
      \/ x = (label_status ++ format_status c)%string.
Proof.
  unfold customer_info. cbv zeta.
  rewrite in_app_iff, !In_append_if. cbn [In].
  assert (Hp : negb (persona_value (Customer.persona c) =? "未特定")%string
               = true <-> Customer.persona c <> UNKNOWN).
  { destruct (Customer.persona c); cbn; split; intros H;
      try reflexivity; try discriminate; congruence. }
  rewrite Hp. intuition congruence.
Qed.

(** A line starts with its own label and with no other. *)
Lemma prefix_own (label rest : string) : prefix label (label ++ rest) = true.
Proof.
  induction label as [|a label IH]; cbn [append prefix].
  - now destruct rest.
  - destruct (ascii_dec a a); [exact IH|congruence].
Qed.

(** Python's [in] finds a string inside any text built around it. *)
Lemma contains_here (s rest : string) : Py.contains s (s ++ rest) = true.
Proof.
  pose proof (prefix_own s rest) as H.
  destruct (s ++ rest)%string; cbn [Py.contains]; now rewrite H.
Qed.

Lemma contains_after (s front text : string) :
  Py.contains s text = true -> Py.contains s (front ++ text) = true.
Proof.
  intros H. induction front as [|a front IH]; cbn [append]; [exact H|].
  cbn [Py.contains]. rewrite IH. now destruct (prefix s (String a (front ++ text))).
Qed.

Ltac other_label :=
  match goal with
  | H : prefix _ (_ ++ _)%string = true |- _ =>
      unfold label_name, label_occupation, label_genre, label_challenges,
        label_goals, label_persona, label_status in H;
      cbn in H; discriminate H
  end.

Ltac by_label c :=
  unfold renders; split;
  [ intros (line & Hin & Hpre);
    apply (customer_info_In c) in Hin;
    destruct Hin as [[Ht ->]|[[Ht ->]|[[Ht ->]|[[Ht ->]|[[Ht ->]|[[Ht ->]| ->]]]]]];
    first [exact Ht | other_label]
  | intros Ht; refine (ex_intro _ _ (conj _ (prefix_own _ _)));
    apply (customer_info_In c); eauto 10 ].

(** What the f-string prints for the two enumeration fields: the value,
    when the field holds the text or the interpreter is older than 3.11;
    the name of the class and of the member, when the field holds the
    member and the interpreter is 3.11 or later. *)
Lemma format_persona_cases (c : Customer.t) :
  (Customer.persona_repr c = AsValue \/ python = Before_3_11 ->
   format_persona c = persona_value (Customer.persona c))
  /\ (Customer.persona_repr c = AsMember -> python = Since_3_11 ->
      format_persona c
      = ("PersonaType." ++ persona_name (Customer.persona c))%string).
Proof.
  unfold format_persona, Py.format_member. split.
  - intros [->| ->]; [reflexivity|].
    now destruct (Customer.persona_repr c).
  - intros -> ->. reflexivity.
Qed.

Lemma format_status_cases (c : Customer.t) :
  (Customer.status_repr c = AsValue \/ python = Before_3_11 ->
   format_status c = status_value (Customer.status c))
  /\ (Customer.status_repr c = AsMember -> python = Since_3_11 ->
      format_status c
      = ("ConversationStatus." ++ status_name (Customer.status c))%string).
Proof.
  unfold format_status, Py.format_member. split.
  - intros [->| ->]; [reflexivity|].
    now destruct (Customer.status_repr c).
  - intros -> ->. reflexivity.
Qed.

(** C8, as amended.  In the profile summary the name, occupation, genres,
    challenges and goals are rendered exactly when populated; the persona
    line is rendered exactly when the persona is determined, and is left
    out, with no placeholder, when it is Unknown; the status line is
    always rendered.  The two lines carry what the f-string prints for
    the field: the value of the enumeration member when the field holds
    the text or the interpreter is older than 3.11, and the name of the
    class and of the member when the field holds the member and the
    interpreter is 3.11 or later. *)
Theorem summary_renders_populated_fields (context : ConversationContext.t) :
  let c := ConversationContext.customer context in
  Py.contains (Py.join chr10 (customer_info c))
              (_build_context_prompt context) = true
  /\ (renders label_name c <-> Py.truthy_str (Customer.display_name c) = true)
  /\ (renders label_occupation c
      <-> Py.truthy_str (Customer.occupation c) = true)
  /\ (renders label_genre c
      <-> Py.truthy_list (Customer.interest_genre c) = true)
  /\ (renders label_challenges c
      <-> Py.truthy_list (Customer.challenges c) = true)
  /\ (renders label_goals c <-> Py.truthy_str (Customer.goals c) = true)
  /\ (renders label_persona c <-> Customer.persona c <> UNKNOWN)
  /\ In (label_status ++ format_status c)%string (customer_info c)
  /\ (forall line,
         In line (customer_info c) -> prefix label_persona line = true ->
         line = (label_persona ++ format_persona c)%string
         /\ Customer.persona c <> UNKNOWN)
  /\ (forall line,
         In line (customer_info c) -> prefix label_status line = true ->
         line = (label_status ++ format_status c)%string)
  /\ (Customer.persona_repr c = AsValue \/ python = Before_3_11 ->
      format_persona c = persona_value (Customer.persona c))
  /\ (Customer.persona_repr c = AsMember -> python = Since_3_11 ->
      format_persona c
      = ("PersonaType." ++ persona_name (Customer.persona c))%string)
  /\ (Customer.status_repr c = AsValue \/ python = Before_3_11 ->
      format_status c = status_value (Customer.status c))
  /\ (Customer.status_repr c = AsMember -> python = Since_3_11 ->
      format_status c
      = ("ConversationStatus." ++ status_name (Customer.status c))%string).
Proof.
  intros c.
  repeat match goal with |- _ /\ _ => split end.
  - unfold _build_context_prompt. cbv zeta. fold c.
    destruct (customer_info c) as [|l0 ls] eqn:E.
    + assert (Hs : In (label_status ++ format_status c)%string
                      (customer_info c))
        by (apply (customer_info_In c); eauto 10).
      rewrite E in Hs. destruct Hs.
    + do 3 apply contains_after. apply contains_here.
  - by_label c.
  - by_label c.
  - by_label c.
  - by_label c.
  - by_label c.
  - by_label c.
  - apply (customer_info_In c). eauto 10.
  - intros line Hin Hpre.
    apply (customer_info_In c) in Hin.
    destruct Hin as [[Ht ->]|[[Ht ->]|[[Ht ->]|[[Ht ->]|[[Ht ->]|[[Ht ->]| ->]]]]]];
      first [now split | other_label].
  - intros line Hin Hpre.
    apply (customer_info_In c) in Hin.
    destruct Hin as [[Ht ->]|[[Ht ->]|[[Ht ->]|[[Ht ->]|[[Ht ->]|[[Ht ->]| ->]]]]]];
      first [reflexivity | other_label].
  - exact (proj1 (format_persona_cases c)).
  - exact (proj2 (format_persona_cases c)).
  - exact (proj1 (format_status_cases c)).
  - exact (proj2 (format_status_cases c)).
Qed.

Lemma append_loop {X Y : Type} (g : X -> Y) (l : list X) (acc : list Y) :
  fold_left (fun acc x => acc ++ [g x]) l acc = acc ++ map g l.
Proof.
  revert acc.
  induction l as [|x l IH]; intros acc; cbn [fold_left map].
  - now rewrite app_nil_r.
  - rewrite IH, <- app_assoc. reflexivity.
Qed.

(** C9.  The message list handed to the chat API is the system entry, then
    the last ten messages of the history (all of them when there are fewer)
    in their original order, then the current user message. *)
Theorem history_bounded_chronological (self : AIEngine.t)
  (context : ConversationContext.t) (user_message knowledge : string) :
  let history := ConversationContext.messages context in
  let included := Py.slice_last 10 history in
  exists system_prompt,
    _build_messages self context user_message knowledge
    = ChatMessage.mk "system" system_prompt
      :: map (fun msg => ChatMessage.mk (Message.role msg) (Message.content msg))
           included
      ++ [ChatMessage.mk "user" user_message]
    /\ suffix_of included history
    /\ length included = Nat.min 10 (length history)
    /\ (length included <= 10)%nat.
Proof.
  cbv zeta. unfold _build_messages. cbv zeta.
  rewrite append_loop. cbn [app].
  eexists. split; [reflexivity|].
  split; [apply slice_last_suffix|].
  rewrite slice_last_length. split; [reflexivity|lia].
Qed.

End Assembler.

(* ================================================================== *)
(** * The functions on concrete inputs *)
(* ================================================================== *)

Transparent PersonaAnalyzer.update_occupation PersonaAnalyzer.update_genres
  PersonaAnalyzer.update_challenges PersonaAnalyzer.update_persona.
Transparent PersonaAnalyzer.analyze_message accreted.
Transparent PersonaAnalyzer._extract_occupation
  PersonaAnalyzer._extract_genres PersonaAnalyzer._extract_challenges.
Transparent PersonaAnalyzer._estimate_persona.

Section Runs.

Import PersonaAnalyzer KnowledgeBase AIEngine Fixture.

#[local] Existing Instance Reference.builtins.
#[local] Existing Instance Since_3_11.

(** [test_extract_occupation_company_worker] *)
Example run_company_worker :
  let c := analyze_message company_worker fresh in
  Customer.occupation c = Some "会社員"
  /\ Customer.interest_genre c = Some ["ビジネス"]
  /\ Customer.challenges c = Some ["忙しい"; "仕事"]
  /\ persona_scores c
     = [(SIDE_WORKER, 5); (CHILD_RAISING_MOM, 0);
        (BUSINESS_OWNER, 2); (SELF_ACHIEVER, 0)]
  /\ Customer.persona c = SIDE_WORKER.
Proof.
  vm_compute. repeat split; reflexivity.
Qed.

(** [test_extract_occupation_housewife] *)
Example run_housewife :
  let c := analyze_message housewife fresh in
  Customer.occupation c = Some "主婦"
  /\ Customer.persona c = CHILD_RAISING_MOM.
Proof.
  vm_compute. split; reflexivity.
Qed.

(** [test_estimate_persona_side_worker] *)
Example run_side_worker_profile :
  _estimate_persona side_worker_profile = SIDE_WORKER
  /\ persona_scores side_worker_profile
     = [(SIDE_WORKER, 8); (CHILD_RAISING_MOM, 0);
        (BUSINESS_OWNER, 0); (SELF_ACHIEVER, 0)].
Proof.
  vm_compute. split; reflexivity.
Qed.

(** [test_extract_challenges] and [test_extract_genres] *)
Example run_side_job :
  Customer.challenges (analyze_message side_job fresh)
  = Some ["時間が無い"; "稼ぎたい"; "副業"]
  /\ Customer.interest_genre
       (analyze_message "料理が好きで、毎日お弁当を作っています。ダイエットにも興味があります。"
          fresh)
     = Some ["料理"; "ダイエット"].
Proof.
  vm_compute. split; reflexivity.
Qed.

(** A profile stored without lists: they stay absent until something is
    found, and the summary is the status line. *)
Example run_blank_profile :
  Customer.interest_genre (analyze_message "こんにちは" blank_profile) = None
  /\ Customer.challenges (analyze_message side_job blank_profile)
     = Some ["時間が無い"; "稼ぎたい"; "副業"]
  /\ customer_info blank_profile = ["ステータス: ヒアリング中"].
Proof.
  vm_compute. repeat split; reflexivity.
Qed.

(** A tie between the first two personas goes to the first. *)
Example run_tied_profile :
  persona_scores tied_profile
  = [(SIDE_WORKER, 5); (CHILD_RAISING_MOM, 5);
     (BUSINESS_OWNER, 0); (SELF_ACHIEVER, 0)]
  /\ _estimate_persona tied_profile = SIDE_WORKER.
Proof.
  vm_compute. split; reflexivity.
Qed.

(** The occupation is written once. *)
Example run_occupation_kept :
  Customer.occupation
    (analyze_message housewife (analyze_message company_worker fresh))
  = Some "会社員".
Proof.
  vm_compute. reflexivity.
Qed.

(** Ranking the default success cases for a persona and a challenge. *)
Example run_search_success_cases :
  map SuccessCase.id
    (search_success_cases default (Some "子育てママ") (Some ["時間が無い"])
       None None None 2)
  = ["case_001"; "case_003"]
  /\ map (case_score (Some "子育てママ") (Some ["時間が無い"]) None None)
       default_cases
     = [5; 2; 3; 0; 3]
  /\ map SuccessCase.id
       (search_success_cases default (Some "子育てママ") (Some ["時間が無い"])
          None None (Some ["case_001"]) 2)
     = ["case_003"; "case_005"].
Proof.
  vm_compute. repeat split; reflexivity.
Qed.

(** A negative limit drops records from the end of the ranking. *)
Example run_negative_limit :
  map SuccessCase.id
    (search_success_cases default (Some "子育てママ") (Some ["時間が無い"])
       None None None (-1))
  = ["case_001"; "case_003"; "case_005"].
Proof.
  vm_compute. reflexivity.
Qed.

(** [test_search_faqs_by_price] and [test_search_faqs_by_keyword] *)
Example run_search_faqs :
  map FAQ.id (search_faqs default (Some ["料金"]) None 3) = ["faq_002"]
  /\ map (faq_score (Some ["初心者"]) None) default_faqs
     = [6; 0; 0; 0; 0; 0; 0; 0; 0; 0]
  /\ map FAQ.id (search_faqs default (Some ["相談"]) None 3)
     = ["faq_009"; "faq_004"; "faq_002"]
  /\ map (faq_score (Some ["相談"]) None) default_faqs
     = [0; 1; 1; 3; 0; 0; 0; 0; 6; 0].
Proof.
  vm_compute. repeat split; reflexivity.
Qed.

(** An empty category counts as no category. *)
Example run_empty_category :
  map (faq_score None (Some EmptyString)) default_faqs
  = [0; 0; 0; 0; 0; 0; 0; 0; 0; 0]
  /\ map (faq_score None (Some "料金")) default_faqs
     = [0; 2; 2; 0; 0; 0; 0; 0; 0; 0].
Proof.
  vm_compute. split; reflexivity.
Qed.

(** The summary of a new profile is its status line alone.  A new
    profile holds its status, and after the analysis its persona, as
    members: from Python 3.11 on the two lines show their names. *)
Example run_summary_fresh :
  customer_info fresh = ["ステータス: ConversationStatus.INITIAL"]
  /\ customer_info (analyze_message company_worker fresh)
     = ["職業: 会社員"; "興味ジャンル: ビジネス"; "課題: 忙しい, 仕事";
        "推定ペルソナ: PersonaType.SIDE_WORKER";
        "ステータス: ConversationStatus.INITIAL"].
Proof.
  vm_compute. split; reflexivity.
Qed.

(** The same before Python 3.11, and on any version for a persona given
    by a tag, which is held as a text. *)
Example run_summary_values :
  @customer_info Before_3_11 (analyze_message company_worker fresh)
  = ["職業: 会社員"; "興味ジャンル: ビジネス"; "課題: 忙しい, 仕事";
     "推定ペルソナ: 副業ワーカー"; "ステータス: 友だち追加直後"]
  /\ customer_info
       (LineHandler._enrich_customer_from_lstep (Some LstepFixture.client)
          blank_profile)
     = ["職業: 主婦"; "興味ジャンル: 料理"; "推定ペルソナ: 子育てママ";
        "ステータス: ヒアリング中"].
Proof.
  vm_compute. split; reflexivity.
Qed.

(** Twelve messages of history: the last ten are sent, oldest first. *)
Example run_build_messages :
  map ChatMessage.content
    (_build_messages engine
       (ConversationContext.mk fresh (history 12) None []) "Q" EmptyString)
  = [ ChatMessage.content
        (hd (ChatMessage.mk EmptyString EmptyString)
            (_build_messages engine
               (ConversationContext.mk fresh (history 12) None []) "Q" EmptyString));
      "C"; "D"; "E"; "F"; "G"; "H"; "I"; "J"; "K"; "L"; "Q" ].
Proof.
  vm_compute. reflexivity.
Qed.

(** The knowledge text of a question about the price: no success case,
    one FAQ; the text is the header of the FAQ section and the block of
    the FAQ. *)
Example run_relevant_knowledge :
  let context := ConversationContext.mk fresh [] None [] in
  let question := "料金はいくらですか？" in
  relevant_cases default context question = []
  /\ map FAQ.id (relevant_faqs default question) = ["faq_002"]
  /\ _get_relevant_knowledge default context question
     = Py.join chr10
         (faqs_header :: map render_faq (relevant_faqs default question))
  /\ prefix faqs_header (_get_relevant_knowledge default context question)
     = true
  /\ map SuccessCase.id (relevant_cases default context "副業で稼ぎたい")
     = ["case_002"]
  /\ prefix cases_header
       (_get_relevant_knowledge default context "副業で稼ぎたい")
     = true.
Proof.
  vm_compute. repeat split; reflexivity.
Qed.

End Runs.

(* ================================================================== *)
(** * Instances of the theorems, and inputs on which two claims fail *)
(* ================================================================== *)

Lemma persona_inference_by_score_witness :
  Customer.persona Fixture.fresh = UNKNOWN
  /\ inferred_by_score
       (@PersonaAnalyzer.analyze_message Reference.builtins
          Fixture.company_worker Fixture.fresh).
Proof.
  split; [reflexivity|].
  apply persona_inference_by_score. reflexivity.
Defined.

Lemma persona_stability_witness :
  Customer.persona Fixture.decided_profile <> UNKNOWN
  /\ (forall message,
         Customer.persona
           (@PersonaAnalyzer.analyze_message Reference.builtins message
              Fixture.decided_profile)
         = Customer.persona Fixture.decided_profile)
  /\ (forall messages,
         Customer.persona
           (@PersonaAnalyzer.analyze_messages Reference.builtins messages
              Fixture.decided_profile)
         = Customer.persona Fixture.decided_profile).
Proof.
  split; [discriminate|].
  apply persona_stability. discriminate.
Defined.

Lemma tie_break_in_table_order_witness :
  0 < top_score Fixture.tied_profile
  /\ earliest_top_scorer Fixture.tied_profile
       (PersonaAnalyzer._estimate_persona Fixture.tied_profile)
  /\ forall other,
       same_inputs Fixture.tied_profile other ->
       PersonaAnalyzer._estimate_persona other
       = PersonaAnalyzer._estimate_persona Fixture.tied_profile.
Proof.
  split; [reflexivity|].
  apply tie_break_in_table_order. reflexivity.
Defined.

Lemma ranking_contract_witness :
  0 <= 2
  /\ @ranking_holds Reference.builtins KnowledgeBase.default
       (Some "子育てママ") (Some ["時間が無い"]) None None
       (Some ["case_002"]) None 2.
Proof.
  split; [lia|].
  apply ranking_contract. lia.
Defined.

(** The bound of C4 does not extend to negative limits: the default
    knowledge base has four success cases of positive score for this
    query, and with limit -1 three of them are returned. *)
Lemma ranking_contract_fails_negative_limit :
  ~ @ranking_holds Reference.builtins KnowledgeBase.default
      (Some "子育てママ") (Some ["時間が無い"]) None None None None (-1).
Proof.
  intros (_ & Hlen & _).
  vm_compute in Hlen. apply Hlen. reflexivity.
Qed.

(** The persona is not always rendered (C8): the summary of a new
    profile has no persona line at all. *)
Lemma persona_line_absent_when_unknown :
  ~ @renders Before_3_11 AIEngine.label_persona Fixture.fresh
  /\ ~ @renders Since_3_11 AIEngine.label_persona Fixture.fresh.
Proof.
  split; intros (line & Hin & Hpre);
    vm_compute in Hin; destruct Hin as [<-|[]];
    vm_compute in Hpre; discriminate Hpre.
Qed.

(* ================================================================== *)
(** * Further properties: the lexicon scans *)
(* ================================================================== *)

Section Scans.

Import PersonaAnalyzer.

(** A loop appending the elements that pass a test is a filter. *)
Lemma collect_matching {X : Type} (f : X -> bool) (l acc : list X) :
  fold_left (fun acc x => if f x then acc ++ [x] else acc) l acc
  = acc ++ filter f l.
Proof.
  revert acc.
  induction l as [|x l IH]; intros acc; cbn [fold_left filter].
  - now rewrite app_nil_r.
  - rewrite IH. destruct (f x); [|reflexivity].
    now rewrite <- app_assoc.
Qed.

(** The same loop over a table, keeping the keys and skipping a key that
    was already found: with distinct keys nothing is skipped. *)
Lemma collect_keys {V : Type} (f : string -> V -> bool)
  (table : list (string * V)) (acc : list string) :
  NoDup (map fst table) ->
  (forall k, In k acc -> ~ In k (map fst table)) ->
  fold_left
    (fun found '(k, v) =>
       if f k v then if Py.mem k found then found else found ++ [k]
       else found)
    table acc
  = acc ++ map fst (filter (fun '(k, v) => f k v) table).
Proof.
  revert acc.
  induction table as [|[k v] table IH]; intros acc Hnd Hacc;
    cbn [fold_left filter map].
  - now rewrite app_nil_r.
  - cbn [map fst] in Hnd. inversion Hnd as [|? ? Hk Hnd']; subst.
    destruct (f k v).
    + destruct (Py.mem k acc) eqn:E.
      * apply mem_In in E. exfalso. apply (Hacc k E). now left.
      * rewrite IH; [cbn [map fst]; now rewrite <- app_assoc|assumption|].
        intros k' Hin Hk'. apply in_app_or in Hin.
        destruct Hin as [Hin|[<-|[]]]; [|contradiction].
        apply (Hacc k' Hin). now right.
    + apply IH; [assumption|].
      intros k' Hin Hk'. apply (Hacc k' Hin). now right.
Qed.

Lemma NoDup_by_nodup (l : list string) :
  nodup string_dec l = l -> NoDup l.
Proof.
  intros <-. apply NoDup_nodup.
Qed.

(** Python's [in] is kept when text is added around the haystack. *)
Lemma contains_inside (s front text back : string) :
  Py.contains s text = true ->
  Py.contains s (front ++ text ++ back) = true.
Proof.
  intros H. apply contains_iff in H. destruct H as (a & b & ->).
  apply contains_iff. exists (front ++ a)%string, (b ++ back)%string.
  now rewrite !append_assoc.
Qed.

Lemma extract_challenges_filter (message : string) :
  _extract_challenges message
  = filter (fun challenge => Py.contains challenge message)
           CHALLENGE_KEYWORDS.
Proof.
  unfold _extract_challenges. rewrite collect_matching. apply app_nil_l.
Qed.

Lemma extract_keywords_filter (message : string) :
  AIEngine._extract_keywords message
  = filter (fun pattern => Py.contains pattern message)
           AIEngine.keyword_patterns.
Proof.
  unfold AIEngine._extract_keywords. rewrite collect_matching.
  apply app_nil_l.
Qed.

Lemma filter_contains_grows (terms : list string)
  (front message back x : string) :
  In x (filter (fun t => Py.contains t message) terms) ->
  In x (filter (fun t => Py.contains t (front ++ message ++ back)) terms).
Proof.
  rewrite !filter_In. intros [Hin Hc]. split; [assumption|].
  now apply contains_inside.
Qed.

(** X1.  [_extract_challenges] returns exactly the challenge keywords that
    occur in the message, each once, in the order of the table; adding text
    before or after the message loses none of them. *)
Theorem challenges_found_exactly (message : string) :
  _extract_challenges message
  = filter (fun challenge => Py.contains challenge message)
           CHALLENGE_KEYWORDS
  /\ NoDup (_extract_challenges message)
  /\ (forall x, In x (_extract_challenges message)
                <-> In x CHALLENGE_KEYWORDS /\ Py.contains x message = true)
  /\ forall front back x,
       In x (_extract_challenges message) ->
       In x (_extract_challenges (front ++ message ++ back)).
Proof.
  split; [apply extract_challenges_filter|].
  split; [|split].
  - rewrite extract_challenges_filter. apply NoDup_filter.
    apply NoDup_by_nodup. vm_compute. reflexivity.
  - intros x. rewrite extract_challenges_filter.
    exact (filter_In (fun challenge => Py.contains challenge message) x
             CHALLENGE_KEYWORDS).
  - intros front back x. rewrite !extract_challenges_filter.
    apply filter_contains_grows.
Qed.

(** X2.  [_extract_keywords] returns exactly the terms of its vocabulary
    that occur in the message, each once, in the order of the vocabulary;
    adding text before or after the message loses none of them. *)
Theorem keywords_found_exactly (message : string) :
  AIEngine._extract_keywords message
  = filter (fun pattern => Py.contains pattern message)
           AIEngine.keyword_patterns
  /\ NoDup (AIEngine._extract_keywords message)
  /\ (forall x, In x (AIEngine._extract_keywords message)
                <-> In x AIEngine.keyword_patterns
                    /\ Py.contains x message = true)
  /\ forall front back x,
       In x (AIEngine._extract_keywords message) ->
       In x (AIEngine._extract_keywords (front ++ message ++ back)).
Proof.
  split; [apply extract_keywords_filter|].
  split; [|split].
  - rewrite extract_keywords_filter. apply NoDup_filter.
    apply NoDup_by_nodup. vm_compute. reflexivity.
  - intros x. rewrite extract_keywords_filter.
    exact (filter_In (fun pattern => Py.contains pattern message) x
             AIEngine.keyword_patterns).
  - intros front back x. rewrite !extract_keywords_filter.
    apply filter_contains_grows.
Qed.

Section Genres.

Context {B : PyBuiltins}.

Lemma extract_genres_filter (message : string) :
  _extract_genres message
  = map fst (filter (genre_matches message) GENRE_KEYWORDS).
Proof.
  unfold _extract_genres. cbv zeta.
  rewrite (collect_keys
             (fun (genre : string) (keywords : list string) =>
                existsb
                  (fun keyword =>
                     Py.contains keyword message
                     || Py.contains keyword (str_lower message))
                  keywords)).
  - apply app_nil_l.
  - apply NoDup_by_nodup. vm_compute. reflexivity.
  - intros k [].
Qed.

(** X3.  [_extract_genres] returns exactly the genres one of whose
    keywords occurs in the message or in its lower-cased form, each once,
    in the order of the table: the test for a genre already found never
    fires. *)
Theorem genres_found_exactly (message : string) :
  _extract_genres message
  = map fst (filter (genre_matches message) GENRE_KEYWORDS)
  /\ NoDup (_extract_genres message)
  /\ (forall genre,
         In genre (_extract_genres message)
         <-> exists keywords keyword,
               In (genre, keywords) GENRE_KEYWORDS
               /\ In keyword keywords
               /\ (Py.contains keyword message = true
                   \/ Py.contains keyword (str_lower message) = true)).
Proof.
  split; [apply extract_genres_filter|].
  rewrite extract_genres_filter. split.
  - assert (Hk : NoDup (map fst GENRE_KEYWORDS))
      by (apply NoDup_by_nodup; vm_compute; reflexivity).
    revert Hk. generalize GENRE_KEYWORDS.
    induction l as [|[g ks] l IH]; cbn [map filter fst]; intros Hk;
      [constructor|].
    inversion Hk as [|? ? Hg Hl]; subst.
    destruct (genre_matches message (g, ks)); cbn [map fst]; [|now apply IH].
    constructor; [|now apply IH].
    intros Hin. apply Hg. apply in_map_iff in Hin.
    destruct Hin as ([g' ks'] & <- & Hin). apply filter_In in Hin.
    apply in_map_iff. exists (g', ks'). split; [reflexivity|apply Hin].
  - intros genre. rewrite in_map_iff. split.
    + intros ([g ks] & <- & Hin). apply filter_In in Hin.
      destruct Hin as [Hin Hm]. unfold genre_matches in Hm.
      apply existsb_exists in Hm. destruct Hm as (kw & Hkw & Hc).
      apply orb_true_iff in Hc. now exists ks, kw.
    + intros (ks & kw & Hin & Hkw & Hc). exists (genre, ks).
      split; [reflexivity|]. apply filter_In. split; [assumption|].
      unfold genre_matches. apply existsb_exists. exists kw.
      split; [assumption|]. now apply orb_true_iff.
Qed.

End Genres.

End Scans.

(* ================================================================== *)
(** * Further properties: the profile extractor *)
(* ================================================================== *)

Section ExtractorMore.

Import PersonaAnalyzer.

Context {B : PyBuiltins}.

Lemma same_identity_refl (c : Customer.t) : same_identity c c.
Proof.
  repeat split.
Qed.

Lemma same_identity_trans (c1 c2 c3 : Customer.t) :
  same_identity c1 c2 -> same_identity c2 c3 -> same_identity c1 c3.
Proof.
  unfold same_identity. intuition congruence.
Qed.

Lemma update_occupation_identity (message : string) (c : Customer.t) :
  same_identity c (update_occupation message c).
Proof.
  unfold update_occupation.
  destruct (Py.truthy_str (_extract_occupation message)
            && negb (Py.truthy_str (Customer.occupation c)));
    repeat split.
Qed.

Lemma update_genres_identity (message : string) (c : Customer.t) :
  same_identity c (update_genres message c).
Proof.
  unfold update_genres.
  destruct (_extract_genres message); repeat split.
Qed.

Lemma update_challenges_identity (message : string) (c : Customer.t) :
  same_identity c (update_challenges message c).
Proof.
  unfold update_challenges.
  destruct (_extract_challenges message); repeat split.
Qed.

Lemma update_persona_identity (c : Customer.t) :
  same_identity c (update_persona c).
Proof.
  unfold update_persona.
  destruct (persona_eqb (Customer.persona c) UNKNOWN); repeat split.
Qed.

Opaque update_occupation update_genres update_challenges update_persona.
Opaque analyze_message accreted.
Opaque _extract_occupation _extract_genres _extract_challenges.
Opaque _estimate_persona.

Lemma analyze_message_identity (message : string) (c : Customer.t) :
  same_identity c (analyze_message message c).
Proof.
  rewrite analyze_message_steps.
  eapply same_identity_trans; [|apply update_persona_identity].
  assert (H : forall c1 c2 c3,
             c1 = update_occupation message c ->
             c2 = update_genres message c1 ->
             c3 = update_challenges message c2 ->
             same_identity c c3).
  { intros c1 c2 c3 E1 E2 E3.
    pose proof (update_occupation_identity message c) as S1.
    rewrite <- E1 in S1.
    pose proof (update_genres_identity message c1) as S2.
    rewrite <- E2 in S2.
    pose proof (update_challenges_identity message c2) as S3.
    rewrite <- E3 in S3.
    eapply same_identity_trans; [exact S1|].
    eapply same_identity_trans; [exact S2|exact S3]. }
  exact (H _ _ _ eq_refl eq_refl eq_refl).
Qed.

Lemma analyze_messages_nil (c : Customer.t) : analyze_messages [] c = c.
Proof.
  reflexivity.
Qed.

(** X4.  After any sequence of calls of [analyze_message] the genre set
    holds the genres of the initial profile and those found in each
    utterance, and nothing else; likewise the challenge set.  So the two
    sets do not depend on the order in which the utterances arrive. *)
Theorem sets_after_sequence (messages : list string) (customer : Customer.t) :
  (forall g,
      In g (genre_set (analyze_messages messages customer))
      <-> In g (genre_set customer)
          \/ exists m, In m messages /\ In g (_extract_genres m))
  /\ (forall x,
         In x (challenge_set (analyze_messages messages customer))
         <-> In x (challenge_set customer)
             \/ exists m, In m messages /\ In x (_extract_challenges m))
  /\ forall messages',
       Permutation messages messages' ->
       same_members (genre_set (analyze_messages messages customer))
                    (genre_set (analyze_messages messages' customer))
       /\ same_members (challenge_set (analyze_messages messages customer))
                       (challenge_set (analyze_messages messages' customer)).
Proof.
  assert (Hg : forall ms c g,
             In g (genre_set (analyze_messages ms c))
             <-> In g (genre_set c)
                 \/ exists m, In m ms /\ In g (_extract_genres m)).
  { induction ms as [|m ms IH]; intros c g.
    - rewrite analyze_messages_nil. split; [now left|].
      intros [H|(m & [] & _)]. exact H.
    - rewrite analyze_messages_cons.
      pose proof (IH (analyze_message m c) g) as H1.
      pose proof (analyze_message_genres m c g) as H2.
      split.
      + intros H. apply H1 in H. destruct H as [H|(m' & Hm' & H)].
        * apply H2 in H. destruct H as [H|H]; [now left|].
          right. exists m. split; [now left|exact H].
        * right. exists m'. split; [now right|exact H].
      + intros [H|(m' & [<-|Hm'] & H)]; apply H1.
        * left. apply H2. now left.
        * left. apply H2. now right.
        * right. now exists m'. }
  assert (Hc : forall ms c x,
             In x (challenge_set (analyze_messages ms c))
             <-> In x (challenge_set c)
                 \/ exists m, In m ms /\ In x (_extract_challenges m)).
  { induction ms as [|m ms IH]; intros c x.
    - rewrite analyze_messages_nil. split; [now left|].
      intros [H|(m & [] & _)]. exact H.
    - rewrite analyze_messages_cons.
      pose proof (IH (analyze_message m c) x) as H1.
      pose proof (analyze_message_challenges m c x) as H2.
      split.
      + intros H. apply H1 in H. destruct H as [H|(m' & Hm' & H)].
        * apply H2 in H. destruct H as [H|H]; [now left|].
          right. exists m. split; [now left|exact H].
        * right. exists m'. split; [now right|exact H].
      + intros [H|(m' & [<-|Hm'] & H)]; apply H1.
        * left. apply H2. now left.
        * left. apply H2. now right.
        * right. now exists m'. }
  split; [exact (Hg messages customer)|].
  split; [exact (Hc messages customer)|].
  intros messages' HP. split; intros x.
  - pose proof (Hg messages customer x) as H1.
    pose proof (Hg messages' customer x) as H2.
    split; intros H.
    + apply H2. apply H1 in H. destruct H as [H|(m & Hm & H)]; [now left|].
      right. exists m. split; [|exact H]. eapply Permutation_in; eassumption.
    + apply H1. apply H2 in H. destruct H as [H|(m & Hm & H)]; [now left|].
      right. exists m. split; [|exact H].
      eapply Permutation_in; [apply Permutation_sym|]; eassumption.
  - pose proof (Hc messages customer x) as H1.
    pose proof (Hc messages' customer x) as H2.
    split; intros H.
    + apply H2. apply H1 in H. destruct H as [H|(m & Hm & H)]; [now left|].
      right. exists m. split; [|exact H]. eapply Permutation_in; eassumption.
    + apply H1. apply H2 in H. destruct H as [H|(m & Hm & H)]; [now left|].
      right. exists m. split; [|exact H].
      eapply Permutation_in; [apply Permutation_sym|]; eassumption.
Qed.

Lemma occupation_settles (message : string) (c : Customer.t) :
  Customer.occupation (analyze_message message (analyze_message message c))
  = Customer.occupation (analyze_message message c).
Proof.
  rewrite !analyze_message_occupation, extract_occupation_truthy.
  destruct (_extract_occupation message) as [label|] eqn:E;
    cbn [andb]; [|reflexivity].
  destruct (Py.truthy_str (Customer.occupation c)) eqn:Ec;
    cbn [negb]; [now rewrite Ec|].
  rewrite <- E at 1. rewrite extract_occupation_truthy, E. reflexivity.
Qed.

(** X5.  A second call of [analyze_message] with the same utterance
    changes nothing that matters: the persona and the occupation are those
    of the first call, and the genre and challenge lists hold the same
    elements (their order is that of a Python set and may differ). *)
Theorem analyze_message_idempotent (message : string) (customer : Customer.t) :
  let once := analyze_message message customer in
  let twice := analyze_message message once in
  Customer.persona twice = Customer.persona once
  /\ Customer.occupation twice = Customer.occupation once
  /\ same_members (genre_set twice) (genre_set once)
  /\ same_members (challenge_set twice) (challenge_set once)
  /\ same_identity once twice.
Proof.
  cbv zeta.
  assert (Hgen : same_members
                   (genre_set (analyze_message message
                                 (analyze_message message customer)))
                   (genre_set (analyze_message message customer))).
  { intros g.
    pose proof (analyze_message_genres message
                  (analyze_message message customer) g) as H2.
    pose proof (analyze_message_genres message customer g) as H1.
    tauto. }
  assert (Hch : same_members
                  (challenge_set (analyze_message message
                                    (analyze_message message customer)))
                  (challenge_set (analyze_message message customer))).
  { intros x.
    pose proof (analyze_message_challenges message
                  (analyze_message message customer) x) as H2.
    pose proof (analyze_message_challenges message customer x) as H1.
    tauto. }
  split; [|split; [apply occupation_settles|split; [exact Hgen|split;
    [exact Hch|apply analyze_message_identity]]]].
  pose proof (analyze_message_fields message customer) as (O1 & G1 & C1 & P1).
  pose proof (analyze_message_fields message
                (analyze_message message customer)) as (O2 & G2 & C2 & P2).
  rewrite P2.
  destruct (persona_eqb (Customer.persona (analyze_message message customer))
              UNKNOWN) eqn:E; [|reflexivity].
  apply persona_eqb_eq in E. rewrite E.
  rewrite P1 in E.
  destruct (persona_eqb (Customer.persona customer) UNKNOWN) eqn:E0.
  - rewrite <- E. apply estimate_persona_same_inputs.
    split; [|split].
    + rewrite <- O2, <- O1. apply occupation_settles.
    + intros g. unfold genre_set in *. rewrite <- G2, <- G1. apply Hgen.
    + intros x. unfold challenge_set in *. rewrite <- C2, <- C1. apply Hch.
  - apply persona_eqb_eq in E. rewrite E in E0. discriminate.
Qed.

(** X6.  [analyze_message] never assigns the user id, the display name,
    the goals, the status or the source of a profile, however many
    utterances are processed. *)
Theorem extraction_keeps_identity (messages : list string)
  (customer : Customer.t) :
  same_identity customer (analyze_messages messages customer).
Proof.
  revert customer.
  induction messages as [|m ms IH]; intros customer.
  - rewrite analyze_messages_nil. apply same_identity_refl.
  - rewrite analyze_messages_cons.
    eapply same_identity_trans; [apply analyze_message_identity|apply IH].
Qed.

End ExtractorMore.

Section OccupationAndScores.

Import PersonaAnalyzer.

Transparent _extract_occupation.

Lemma extract_occupation_labels (message label : string) :
  _extract_occupation message = Some label ->
  In label occupation_labels.
Proof.
  unfold _extract_occupation. intros H.
  apply search_patterns_In in H. cbn [patterns map snd In] in H.
  unfold occupation_labels. cbn [In].
  repeat (destruct H as [<-|H]; [tauto|]). destruct H.
Qed.

Opaque _extract_occupation.

(** X7.  The occupation that [_extract_occupation] finds is one of nine
    labels, and in the persona inference such an occupation gives the
    occupation bonus to at most one persona: never to two, and to none for
    a freelancer or a student. *)
Theorem extracted_occupation_one_persona (message label : string)
  (customer : Customer.t) :
  _extract_occupation message = Some label ->
  Customer.occupation customer = Some label ->
  In label occupation_labels
  /\ (forall p q,
         occupation_bonus p customer = 5 ->
         occupation_bonus q customer = 5 -> p = q)
  /\ (label = "フリーランス" \/ label = "学生" ->
      forall p, occupation_bonus p customer = 0).
Proof.
  intros Hm Ho.
  pose proof (extract_occupation_labels message label Hm) as Hl.
  split; [exact Hl|].
  unfold occupation_bonus. rewrite Ho. cbn [Py.or_blank].
  unfold occupation_labels in Hl. cbn [In] in Hl.
  split.
  - intros p q.
    repeat (destruct Hl as [<-|Hl];
            [destruct p, q; vm_compute; intros Hp Hq;
             first [reflexivity | discriminate Hp | discriminate Hq]|]).
    destruct Hl.
  - intros [-> | ->] p; destruct p; reflexivity.
Qed.

Lemma count_found_le (terms : list string) (text : string) :
  count_found terms text <= Z.of_nat (length terms).
Proof.
  unfold count_found. apply inj_le. apply filter_length_le.
Qed.

(** X8.  Every persona score lies between 0 and 30, and so does the
    maximum on which the choice of the persona rests. *)
Theorem persona_score_bounds (p : PersonaType) (customer : Customer.t) :
  0 <= persona_score p customer <= 30
  /\ 0 <= top_score customer <= 30.
Proof.
  assert (H : forall q, 0 <= persona_score q customer <= 30).
  { intros q. split; [apply persona_score_nonneg|].
    unfold persona_score, occupation_bonus.
    pose proof (count_found_le (Keywords.keywords (lexicon q))
                  (Py.join " " (genre_set customer))) as Hk.
    pose proof (count_found_le (Keywords.challenges (lexicon q))
                  (Py.join " " (challenge_set customer))) as Hc.
    assert (Hlk : (length (Keywords.keywords (lexicon q)) <= 8)%nat)
      by (destruct q; vm_compute; lia).
    assert (Hlc : (length (Keywords.challenges (lexicon q)) <= 3)%nat)
      by (destruct q; vm_compute; lia).
    destruct (existsb _ _); lia. }
  split; [apply H|].
  unfold top_score.
  pose proof (H SIDE_WORKER). pose proof (H CHILD_RAISING_MOM).
  pose proof (H BUSINESS_OWNER). pose proof (H SELF_ACHIEVER). lia.
Qed.

End OccupationAndScores.

(* ================================================================== *)
(** * Further properties: the knowledge base *)
(* ================================================================== *)

Section KnowledgeMore.

Import KnowledgeBase.

Lemma find_case_Some (cases : list SuccessCase.t) (case_id : string)
  (case : SuccessCase.t) :
  find_case cases case_id = Some case ->
  In case cases /\ SuccessCase.id case = case_id.
Proof.
  induction cases as [|c cases IH]; cbn [find_case]; [discriminate|].
  destruct (String.eqb_spec (SuccessCase.id c) case_id) as [E|E].
  - intros [= <-]. split; [now left|exact E].
  - intros H. destruct (IH H) as [Hin Hid]. split; [now right|exact Hid].
Qed.

Lemma find_case_None (cases : list SuccessCase.t) (case_id : string) :
  find_case cases case_id = None
  <-> forall case, In case cases -> SuccessCase.id case <> case_id.
Proof.
  induction cases as [|c cases IH]; cbn [find_case].
  - split; [intros _ case []|reflexivity].
  - destruct (String.eqb_spec (SuccessCase.id c) case_id) as [E|E].
    + split; [discriminate|]. intros H. exfalso. apply (H c); [now left|exact E].
    + rewrite IH. split.
      * intros H case [<-|Hin]; [exact E|now apply H].
      * intros H case Hin. apply H. now right.
Qed.

Lemma find_case_member (cases : list SuccessCase.t) (case : SuccessCase.t) :
  NoDup (map SuccessCase.id cases) -> In case cases ->
  find_case cases (SuccessCase.id case) = Some case.
Proof.
  induction cases as [|c cases IH]; cbn [find_case map]; [intros _ []|].
  intros Hnd [<-|Hin].
  - now rewrite String.eqb_refl.
  - inversion Hnd as [|? ? Hc Hnd']; subst.
    destruct (String.eqb_spec (SuccessCase.id c) (SuccessCase.id case)) as [E|E].
    + exfalso. apply Hc. rewrite E. now apply in_map.
    + now apply IH.
Qed.

(** X9.  [get_case_by_id] returns a case of the collection that carries
    the identifier asked for, the first one in load order; it returns
    [None] exactly when no case carries it; and when identifiers are
    distinct, looking up the identifier of a stored case returns that
    case. *)
Theorem get_case_by_id_lookup (self : t) (case_id : string) :
  (forall case,
      get_case_by_id self case_id = Some case ->
      In case (success_cases self) /\ SuccessCase.id case = case_id)
  /\ (get_case_by_id self case_id = None
      <-> forall case,
            In case (success_cases self) -> SuccessCase.id case <> case_id)
  /\ (forall before case after,
         success_cases self = before ++ case :: after ->
         SuccessCase.id case = case_id ->
         (forall c, In c before -> SuccessCase.id c <> case_id) ->
         get_case_by_id self case_id = Some case)
  /\ (NoDup (map SuccessCase.id (success_cases self)) ->
      forall case,
        In case (success_cases self) ->
        get_case_by_id self (SuccessCase.id case) = Some case).
Proof.
  unfold get_case_by_id.
  split; [intros case; apply find_case_Some|].
  split; [apply find_case_None|].
  split; [|intros Hnd case; now apply find_case_member].
  intros before case after -> Hid Hb.
  induction before as [|c before IH]; cbn [app find_case].
  - apply String.eqb_eq in Hid. now rewrite Hid.
  - destruct (String.eqb_spec (SuccessCase.id c) case_id) as [E|E].
    + exfalso. apply (Hb c); [now left|exact E].
    + apply IH. intros c' Hc'. apply Hb. now right.
Qed.

(** A loop adding [n] for each element that passes a test. *)
Lemma counting_loop {X : Type} (f : X -> bool) (n : Z) (l : list X)
  (score : Z) :
  fold_left (fun score x => if f x then score + n else score) l score
  = score + sum_Z (map (fun x => n * b2z (f x)) l).
Proof.
  revert score.
  induction l as [|x l IH]; intros score; cbn [fold_left map].
  - unfold sum_Z. cbn [fold_right]. lia.
  - rewrite IH, sum_Z_cons. unfold b2z at 2. destruct (f x); lia.
Qed.

Lemma sum_Z_bounds (g : string -> Z) (n : Z) (l : list string) :
  (forall x, 0 <= g x <= n) ->
  0 <= sum_Z (map g l) <= n * Z.of_nat (length l).
Proof.
  intros H. induction l as [|x l IH]; cbn [map length].
  - unfold sum_Z. cbn [fold_right]. lia.
  - rewrite sum_Z_cons. specialize (H x). lia.
Qed.

Lemma filter_none {X : Type} (f : X -> bool) (l : list X) :
  (forall x, f x = false) -> filter f l = [].
Proof.
  intros H. induction l as [|x l IH]; cbn [filter]; [reflexivity|].
  now rewrite H.
Qed.

Lemma top_nil {X : Type} (limit : Z) : top (@nil (Z * X)) limit = [].
Proof.
  unfold top, Py.slice_to. cbn [Py.sort_desc length].
  destruct (0 <=? limit); now rewrite firstn_nil.
Qed.

Section WithBuiltins.

Context {B : PyBuiltins}.

Lemma case_score_closed_form (persona : option string)
  (challenges : option (list string)) (genre : option string)
  (keywords : option (list string)) (case : SuccessCase.t) :
  case_score persona challenges genre keywords case
  = persona_points persona case
    + sum_Z (map (challenge_points case) (Py.or_empty challenges))
    + genre_points genre case
    + sum_Z (map (case_keyword_points case) (Py.or_empty keywords)).
Proof.
  unfold case_score, persona_points, genre_points. cbv zeta.
  set (p := Py.truthy_str persona
            && Py.mem (Py.or_blank persona)
                      (SuccessCase.related_personas case)).
  set (g := Py.truthy_str genre
            && Py.contains (str_lower (Py.or_blank genre))
                           (str_lower (SuccessCase.genre case))).
  assert (Hc : forall s,
             (if Py.truthy_list challenges
              then fold_left
                     (fun score challenge =>
                        if existsb (fun c => Py.contains challenge c)
                                   (SuccessCase.related_challenges case)
                        then score + 2 else score)
                     (Py.or_empty challenges) s
              else s)
             = s + sum_Z (map (challenge_points case)
                            (Py.or_empty challenges))).
  { intros s. destruct challenges as [[|c cs]|];
      cbn [Py.truthy_list Py.or_empty];
      try (unfold sum_Z; cbn [map fold_right]; lia).
    apply counting_loop. }
  assert (Hk : forall s,
             (if Py.truthy_list keywords
              then fold_left
                     (fun score keyword =>
                        if Py.mem keyword (SuccessCase.keywords case)
                        then score + 1 else score)
                     (Py.or_empty keywords) s
              else s)
             = s + sum_Z (map (case_keyword_points case)
                            (Py.or_empty keywords))).
  { intros s. destruct keywords as [[|k ks]|];
      cbn [Py.truthy_list Py.or_empty];
      try (unfold sum_Z; cbn [map fold_right]; lia).
    rewrite counting_loop. unfold case_keyword_points. f_equal. f_equal.
    apply map_ext. intros a. lia. }
  rewrite Hk.
  destruct g; rewrite Hc; destruct p; lia.
Qed.

(** X10.  The score of a success case is 3 if a persona is supplied and
    is one of the case's personas, plus 2 for each supplied challenge that
    occurs in one of the case's challenges, plus 2 if a genre is supplied
    and its lower-cased form occurs in the lower-cased genre of the case,
    plus 1 for each supplied keyword that is one of the case's keywords.
    It lies between 0 and 5 + 2 * (number of challenges) + (number of
    keywords); the score of an FAQ lies between 0 and 2 + 6 * (number of
    keywords). *)
Theorem case_score_formula_and_bounds (persona : option string)
  (challenges : option (list string)) (genre : option string)
  (keywords : option (list string)) (category : option string)
  (case : SuccessCase.t) (faq : FAQ.t) :
  case_score persona challenges genre keywords case
  = persona_points persona case
    + sum_Z (map (challenge_points case) (Py.or_empty challenges))
    + genre_points genre case
    + sum_Z (map (case_keyword_points case) (Py.or_empty keywords))
  /\ 0 <= case_score persona challenges genre keywords case
       <= 5 + 2 * Z.of_nat (length (Py.or_empty challenges))
          + Z.of_nat (length (Py.or_empty keywords))
  /\ 0 <= faq_score keywords category faq
       <= 2 + 6 * Z.of_nat (length (Py.or_empty keywords)).
Proof.
  split; [apply case_score_closed_form|]. split.
  - rewrite case_score_closed_form.
    pose proof (sum_Z_bounds (challenge_points case) 2
                  (Py.or_empty challenges)) as Hc.
    pose proof (sum_Z_bounds (case_keyword_points case) 1
                  (Py.or_empty keywords)) as Hk.
    assert (H1 : forall x, 0 <= challenge_points case x <= 2)
      by (intros x; unfold challenge_points, b2z; destruct (existsb _ _); lia).
    assert (H2 : forall x, 0 <= case_keyword_points case x <= 1)
      by (intros x; unfold case_keyword_points, b2z; destruct (Py.mem _ _); lia).
    specialize (Hc H1). specialize (Hk H2).
    unfold persona_points, genre_points.
    destruct (_ && _), (_ && _); lia.
  - assert (E : faq_score keywords category faq
                = category_points category faq
                  + sum_Z (map (keyword_points faq) (Py.or_empty keywords))).
    { unfold faq_score. cbv zeta.
      assert (Hc : (if Py.truthy_str category
                       && Py.contains (Py.or_blank category) (FAQ.category faq)
                    then 0 + 2 else 0) = category_points category faq)
        by (unfold category_points; destruct category as [[|ch s]|];
            reflexivity).
      rewrite Hc.
      destruct keywords as [[|k ks]|]; cbn [Py.truthy_list Py.or_empty].
      - unfold sum_Z. cbn [map fold_right]. lia.
      - apply keyword_loop.
      - unfold sum_Z. cbn [map fold_right]. lia. }
    rewrite E.
    pose proof (sum_Z_bounds (keyword_points faq) 6 (Py.or_empty keywords))
      as Hk.
    assert (H1 : forall x, 0 <= keyword_points faq x <= 6).
    { intros x. unfold keyword_points, b2z.
      destruct (Py.contains x (FAQ.question faq)),
        (Py.mem x (FAQ.keywords faq)), (Py.contains x (FAQ.answer faq)); lia. }
    specialize (Hk H1).
    unfold category_points.
    destruct category as [[|ch s]|]; try lia.
    destruct (Py.contains _ _); lia.
Qed.

(** X11.  A search given no criterion returns nothing: when the persona
    and the genre are absent or empty and the challenges and keywords are
    absent or empty, every score is 0, whatever the knowledge base, the
    excluded identifiers and the limit; likewise for the FAQ search with
    no keyword and no category. *)
Theorem search_without_criteria (self : t) (persona genre category : option string)
  (challenges keywords exclude_ids : option (list string)) (limit : Z) :
  Py.truthy_str persona = false ->
  Py.truthy_str genre = false ->
  Py.truthy_str category = false ->
  Py.truthy_list challenges = false ->
  Py.truthy_list keywords = false ->
  search_success_cases self persona challenges genre keywords exclude_ids limit
  = []
  /\ search_faqs self keywords category limit = [].
Proof.
  intros Hp Hg Hcat Hc Hk. split.
  - rewrite search_success_cases_pipeline.
    rewrite (filter_none (positive (case_score persona challenges genre
                                      keywords))).
    + apply top_nil.
    + intros case. unfold positive, case_score. cbv zeta.
      rewrite Hp, Hg, Hc, Hk. reflexivity.
  - rewrite search_faqs_pipeline.
    rewrite (filter_none (positive (faq_score keywords category))).
    + apply top_nil.
    + intros faq. unfold positive, faq_score. cbv zeta.
      rewrite Hcat, Hk. reflexivity.
Qed.

End WithBuiltins.

End KnowledgeMore.

Section RankingMore.

Import KnowledgeBase.

Lemma sort_desc_length {A : Type} (l : list (Z * A)) :
  length (Py.sort_desc l) = length l.
Proof.
  apply Permutation_length, sort_desc_perm.
Qed.

Lemma firstn_NoDup {A : Type} (n : nat) (l : list A) :
  NoDup l -> NoDup (firstn n l).
Proof.
  intros H. rewrite <- (firstn_skipn n l) in H.
  now apply NoDup_app_remove_r in H.
Qed.

Lemma ranking_perm {A : Type} (score : A -> Z) (pool : list A) :
  Permutation (map snd (Py.sort_desc (map (tag score) pool))) pool.
Proof.
  rewrite <- (map_snd_tag score pool) at 2.
  apply Permutation_map, sort_desc_perm.
Qed.

(** The result of a search over a pool and the candidates of the pool. *)
Lemma top_best {A : Type} (score : A -> Z) (pool : list A) (limit : Z) :
  best_of score pool limit
    (top (map (tag score) (filter (positive score) pool)) limit).
Proof.
  unfold best_of, top. cbv zeta.
  set (F := filter (positive score) pool).
  set (S := Py.sort_desc (map (tag score) F)).
  assert (HP : Permutation (map snd S) F) by apply ranking_perm.
  assert (HL : length S = length F)
    by (unfold S; now rewrite sort_desc_length, length_map).
  split; [|split; [|split; [|split]]].
  - intros r Hr. destruct (slice_to_firstn S limit) as [n E].
    rewrite E, <- firstn_map in Hr. apply In_firstn in Hr.
    eapply Permutation_in; eassumption.
  - intros H. unfold Py.slice_to.
    destruct (Z.leb_spec 0 limit); [|lia].
    rewrite length_map, length_firstn, HL. reflexivity.
  - intros H. unfold Py.slice_to.
    destruct (Z.leb_spec 0 limit); [lia|].
    rewrite length_map, length_firstn, HL. lia.
  - intros H. unfold Py.slice_to.
    destruct (Z.leb_spec 0 limit); [|lia].
    rewrite firstn_all2 by lia. exact HP.
  - intros H. destruct (slice_to_firstn S limit) as [n E].
    rewrite E, <- firstn_map. apply firstn_NoDup.
    apply (Permutation_NoDup (Permutation_sym HP)).
    unfold F. now apply NoDup_filter.
Qed.

Lemma top_prefix {A : Type} (results : list (Z * A)) (small large : Z) :
  0 <= small <= large ->
  top results small = firstn (Z.to_nat small) (top results large).
Proof.
  intros H. unfold top, Py.slice_to.
  destruct (Z.leb_spec 0 small); [|lia].
  destruct (Z.leb_spec 0 large); [|lia].
  rewrite <- firstn_map, <- firstn_map, firstn_firstn.
  replace (Nat.min (Z.to_nat small) (Z.to_nat large)) with (Z.to_nat small)
    by lia.
  reflexivity.
Qed.

(** Filtering commutes with the stable sort. *)
Lemma filter_StronglySorted {A : Type} (R : A -> A -> Prop) (f : A -> bool)
  (l : list A) :
  StronglySorted R l -> StronglySorted R (filter f l).
Proof.
  induction 1 as [|x l Hs IH Hx]; cbn [filter]; [constructor|].
  destruct (f x); [|exact IH].
  constructor; [exact IH|].
  rewrite Forall_forall in *. intros y Hy. apply filter_In in Hy.
  now apply Hx.
Qed.

Lemma filter_comm {A : Type} (f g : A -> bool) (l : list A) :
  filter f (filter g l) = filter g (filter f l).
Proof.
  induction l as [|x l IH]; cbn [filter]; [reflexivity|].
  destruct (f x) eqn:Ef, (g x) eqn:Eg; cbn [filter];
    rewrite ?Ef, ?Eg, IH; reflexivity.
Qed.

Lemma sort_desc_filter {A : Type} (g : Z * A -> bool) (l : list (Z * A)) :
  Py.sort_desc (filter g l) = filter g (Py.sort_desc l).
Proof.
  apply stable_sort_unique.
  - apply sort_desc_sorted.
  - apply filter_StronglySorted, sort_desc_sorted.
  - intros k. rewrite sort_desc_stable.
    rewrite (filter_comm (has_key k) g (Py.sort_desc l)), sort_desc_stable.
    apply filter_comm.
Qed.

Lemma filter_map_tag {A : Type} (score : A -> Z) (g : A -> bool)
  (l : list A) :
  filter (fun p => g (snd p)) (map (tag score) l)
  = map (tag score) (filter g l).
Proof.
  induction l as [|x l IH]; cbn [map filter]; [reflexivity|].
  cbn [tag snd]. rewrite IH. now destruct (g x).
Qed.

Lemma filter_map_snd_any {A : Type} (g : A -> bool) (s : list (Z * A)) :
  filter g (map snd s) = map snd (filter (fun p => g (snd p)) s).
Proof.
  induction s as [|p s IH]; cbn [map filter]; [reflexivity|].
  rewrite IH. now destruct (g (snd p)).
Qed.

Section WithBuiltins.

Context {B : PyBuiltins}.

(** X12.  For both searches: every record returned is a record of the
    collection (not excluded) with a positive score; for a limit that is
    not negative the number of records returned is the limit or the number
    of such records, whichever is smaller, so that nothing is lost but by
    truncation; for a negative limit it is that number less the absolute
    value of the limit; and no record is returned twice unless the
    collection holds it twice. *)
Theorem search_returns_best (self : t) (persona : option string)
  (challenges : option (list string)) (genre : option string)
  (keywords exclude_ids : option (list string)) (category : option string)
  (limit : Z) :
  best_of (case_score persona challenges genre keywords)
    (not_excluded exclude_ids (success_cases self)) limit
    (search_success_cases self persona challenges genre keywords exclude_ids
       limit)
  /\ best_of (faq_score keywords category) (faqs self) limit
       (search_faqs self keywords category limit).
Proof.
  rewrite search_success_cases_pipeline, search_faqs_pipeline.
  split; apply top_best.
Qed.

(** X13.  Lowering the limit only shortens the result: for limits
    0 <= small <= large, the result with the smaller limit is the first
    [small] records of the result with the larger one, for both
    searches. *)
Theorem smaller_limit_is_prefix (self : t) (persona : option string)
  (challenges : option (list string)) (genre : option string)
  (keywords exclude_ids : option (list string)) (category : option string)
  (small large : Z) :
  0 <= small <= large ->
  search_success_cases self persona challenges genre keywords exclude_ids
    small
  = firstn (Z.to_nat small)
      (search_success_cases self persona challenges genre keywords
         exclude_ids large)
  /\ search_faqs self keywords category small
     = firstn (Z.to_nat small) (search_faqs self keywords category large).
Proof.
  intros H.
  rewrite !search_success_cases_pipeline, !search_faqs_pipeline.
  split; now apply top_prefix.
Qed.

(** X14.  Excluding identifiers does not reorder the other cases: for a
    limit that is not negative, the result of a search with excluded
    identifiers is the untruncated ranking of the same query without
    exclusion, with the excluded cases removed, cut at the limit. *)
Theorem exclusion_keeps_order (self : t) (persona : option string)
  (challenges : option (list string)) (genre : option string)
  (keywords exclude_ids : option (list string)) (limit large : Z) :
  0 <= limit ->
  Z.of_nat (length (success_cases self)) <= large ->
  search_success_cases self persona challenges genre keywords exclude_ids
    limit
  = firstn (Z.to_nat limit)
      (not_excluded exclude_ids
         (search_success_cases self persona challenges genre keywords None
            large)).
Proof.
  intros Hlimit Hlarge.
  rewrite !search_success_cases_pipeline, not_excluded_None.
  set (score := case_score persona challenges genre keywords).
  unfold top, Py.slice_to.
  destruct (Z.leb_spec 0 limit); [|lia].
  destruct (Z.leb_spec 0 large); [|lia].
  rewrite (firstn_all2 (n := Z.to_nat large)).
  2: { rewrite sort_desc_length, length_map.
       pose proof (filter_length_le (positive score) (success_cases self)).
       lia. }
  rewrite <- firstn_map. f_equal.
  unfold not_excluded.
  rewrite filter_map_snd_any, <- sort_desc_filter.
  rewrite (filter_map_tag score
             (fun c => negb (Py.mem (SuccessCase.id c)
                                    (Py.or_empty exclude_ids)))).
  now rewrite filter_comm.
Qed.

End WithBuiltins.

End RankingMore.

(* ================================================================== *)
(** * Further properties: the context assembler *)
(* ================================================================== *)

Section AssemblerMore.

Import AIEngine.

Context {python : PyVersion}.

Opaque PersonaAnalyzer.analyze_message.

Lemma join_cons_not_empty (sep : string) (c : ascii) (h : string)
  (rest : list string) :
  Py.join sep (String c h :: rest) <> EmptyString.
Proof.
  unfold Py.join. destruct rest; cbn [String.concat append]; discriminate.
Qed.

Lemma summary_in_context_prompt (context : ConversationContext.t) :
  Py.contains
    (Py.join chr10 (customer_info (ConversationContext.customer context)))
    (_build_context_prompt context) = true.
Proof.
  unfold _build_context_prompt. cbv zeta.
  set (c := ConversationContext.customer context).
  destruct (customer_info c) as [|l0 ls] eqn:E.
  - assert (Hs : In (label_status ++ format_status c)%string
                    (customer_info c))
      by (apply (customer_info_In c); do 6 right; reflexivity).
    rewrite E in Hs. destruct Hs.
  - do 3 apply contains_after. apply contains_here.
Qed.

Lemma join_contains (sep x : string) (l : list string) :
  In x l -> Py.contains x (Py.join sep l) = true.
Proof.
  intros H. destruct (In_join_split sep x l H) as (p & q & ->).
  apply contains_iff. now exists p, q.
Qed.

Lemma join_prefix (sep h : string) (rest : list string) :
  prefix h (Py.join sep (h :: rest)) = true.
Proof.
  unfold Py.join. destruct rest as [|r rest]; cbn [String.concat].
  - rewrite <- (append_empty_r h) at 2. apply prefix_own.
  - apply prefix_own.
Qed.

Lemma contains_before (s text back : string) :
  Py.contains s text = true -> Py.contains s (text ++ back) = true.
Proof.
  intros H. apply (contains_inside s EmptyString text back H).
Qed.

Lemma contains_here_all (s : string) : Py.contains s s = true.
Proof.
  apply contains_iff. exists EmptyString, EmptyString. cbn [append].
  now rewrite append_empty_r.
Qed.

Lemma contains_empty (text : string) : Py.contains EmptyString text = true.
Proof.
  apply contains_iff. now exists EmptyString, text.
Qed.

(** The entries of [_build_messages]: the system entry, whose content is
    the system prompt, the context prompt and, when there is one, the
    knowledge text; the history; the user's message. *)
Lemma build_messages_entries (self : AIEngine.t)
  (context : ConversationContext.t) (user_message knowledge : string) :
  exists system,
    _build_messages self context user_message knowledge
    = ChatMessage.mk "system" system
      :: map (fun msg =>
                ChatMessage.mk (Message.role msg) (Message.content msg))
             (Py.slice_last 10 (ConversationContext.messages context))
      ++ [ChatMessage.mk "user" user_message]
    /\ prefix (system_prompt self) system = true
    /\ Py.contains (_build_context_prompt context) system = true
    /\ Py.contains knowledge system = true.
Proof.
  unfold _build_messages. cbv zeta. rewrite append_loop. cbn [app].
  eexists. split; [reflexivity|].
  destruct knowledge as [|k ks].
  - split; [apply prefix_own|]. split; [|apply contains_empty].
    do 3 apply contains_after. apply contains_here_all.
  - split; [rewrite append_assoc; apply prefix_own|]. split.
    + apply contains_before. do 3 apply contains_after.
      apply contains_here_all.
    + do 3 apply contains_after. apply contains_here_all.
Qed.

Section WithBuiltins.

Context {B : PyBuiltins}.

Lemma search_skips_excluded (self : KnowledgeBase.t)
  (persona : option string) (challenges : option (list string))
  (genre : option string) (keywords exclude_ids : option (list string))
  (limit : Z) :
  Forall (fun case => ~ In (SuccessCase.id case) (Py.or_empty exclude_ids))
    (KnowledgeBase.search_success_cases self persona challenges genre
       keywords exclude_ids limit).
Proof.
  rewrite search_success_cases_pipeline.
  destruct (top_is_ranked
              (KnowledgeBase.case_score persona challenges genre keywords)
              (not_excluded exclude_ids (KnowledgeBase.success_cases self))
              limit) as (H & _).
  eapply Forall_impl; [|exact H].
  intros case (_ & Hin) Hex.
  unfold not_excluded in Hin. apply filter_In in Hin.
  destruct Hin as [_ Hn]. apply mem_In in Hex.
  rewrite Hex in Hn. discriminate.
Qed.

Lemma knowledge_parts_sections (knowledge_base : KnowledgeBase.t)
  (context : ConversationContext.t) (user_message : string) :
  knowledge_parts knowledge_base context user_message
  = cases_section (relevant_cases knowledge_base context user_message)
    ++ faqs_section
         (if looks_like_question user_message
          then relevant_faqs knowledge_base user_message else []).
Proof.
  unfold knowledge_parts. cbv zeta.
  set (cases := relevant_cases knowledge_base context user_message).
  set (faqs := relevant_faqs knowledge_base user_message).
  assert (Hc : match cases with
               | [] => []
               | _ :: _ =>
                   fold_left
                     (fun parts case => parts ++ [render_case case])
                     cases ([] ++ [cases_header])
               end = cases_section cases).
  { unfold cases_section. destruct cases as [|c cs]; [reflexivity|].
    now rewrite append_loop. }
  rewrite Hc.
  destruct (looks_like_question user_message);
    [|cbn [faqs_section]; now rewrite app_nil_r].
  unfold faqs_section. destruct faqs as [|f fs];
    [now rewrite app_nil_r|].
  rewrite append_loop. now rewrite <- app_assoc.
Qed.

(** X15.  The knowledge text is the section of success cases, when the
    search finds some, followed by the section of FAQs, when the message
    looks like a question and the search finds some, joined by line
    breaks; each section is its header followed by one block per record.
    The text is empty exactly when both sections are; it starts with the
    header of its first section and contains the header and every block
    of each section present.  At most two cases and two FAQs are shown,
    and no case already mentioned in the conversation is. *)
Theorem relevant_knowledge_sections (knowledge_base : KnowledgeBase.t)
  (context : ConversationContext.t) (user_message : string) :
  let cases := relevant_cases knowledge_base context user_message in
  let faqs :=
    if looks_like_question user_message
    then relevant_faqs knowledge_base user_message else [] in
  let text := _get_relevant_knowledge knowledge_base context user_message in
  text
  = match cases_section cases ++ faqs_section faqs with
    | [] => EmptyString
    | _ :: _ => Py.join chr10 (cases_section cases ++ faqs_section faqs)
    end
  /\ (text = EmptyString <-> cases = [] /\ faqs = [])
  /\ (cases <> [] ->
      prefix cases_header text = true
      /\ forall case,
           In case cases -> Py.contains (render_case case) text = true)
  /\ (faqs <> [] ->
      Py.contains faqs_header text = true
      /\ (cases = [] -> prefix faqs_header text = true)
      /\ forall faq, In faq faqs -> Py.contains (render_faq faq) text = true)
  /\ (length cases <= 2)%nat
  /\ (length faqs <= 2)%nat
  /\ Forall (fun case =>
               ~ In (SuccessCase.id case)
                    (ConversationContext.mentioned_cases context))
            cases
  /\ (In faqs_header (knowledge_parts knowledge_base context user_message)
      <-> faqs <> []).
Proof.
  cbv zeta.
  set (cases := relevant_cases knowledge_base context user_message).
  set (faqs := if looks_like_question user_message
               then relevant_faqs knowledge_base user_message else []).
  assert (Hparts : knowledge_parts knowledge_base context user_message
                   = cases_section cases ++ faqs_section faqs)
    by apply knowledge_parts_sections.
  assert (Htext : _get_relevant_knowledge knowledge_base context user_message
                  = match cases_section cases ++ faqs_section faqs with
                    | [] => EmptyString
                    | _ :: _ =>
                        Py.join chr10
                          (cases_section cases ++ faqs_section faqs)
                    end).
  { unfold _get_relevant_knowledge. cbv zeta. now rewrite Hparts. }
  split; [exact Htext|]. rewrite Htext.
  split; [|split; [|split; [|split; [|split; [|split]]]]].
  - destruct cases as [|c cs].
    + destruct faqs as [|f fs]; cbn [cases_section faqs_section app].
      * split; [now split|reflexivity].
      * split; [|intros [_ H]; discriminate H].
        intros H. exfalso. revert H. apply join_cons_not_empty.
    + cbn [cases_section app].
      split; [|intros [H _]; discriminate H].
      intros H. exfalso. revert H. apply join_cons_not_empty.
  - intros Hne. destruct cases as [|c cs]; [congruence|].
    cbn [cases_section app]. split; [apply join_prefix|].
    intros case Hin. apply join_contains. right.
    apply in_or_app. left. now apply in_map.
  - intros Hne. destruct faqs as [|f fs]; [congruence|].
    assert (Hin : forall x,
               In x (faqs_section (f :: fs)) ->
               Py.contains x
                 match (cases_section cases ++ faqs_section (f :: fs))%list
                 with
                 | [] => EmptyString
                 | _ :: _ =>
                     Py.join chr10
                       (cases_section cases ++ faqs_section (f :: fs))
                 end = true).
    { intros x Hx.
      destruct (cases_section cases ++ faqs_section (f :: fs))
        as [|p ps] eqn:E.
      - apply app_eq_nil in E. destruct E as [_ E]. discriminate E.
      - rewrite <- E. apply join_contains, in_or_app. now right. }
    split; [apply Hin; now left|]. split.
    + intros ->. cbn [cases_section faqs_section app]. apply join_prefix.
    + intros faq Hf. apply Hin. right. now apply in_map.
  - unfold cases, relevant_cases. cbv zeta.
    rewrite search_success_cases_pipeline.
    pose proof (top_length
                  (map (tag (KnowledgeBase.case_score
                               (if (persona_value
                                      (Customer.persona
                                         (ConversationContext.customer context))
                                    =? "未特定")%string
                                then None
                                else Some (persona_value
                                             (Customer.persona
                                                (ConversationContext.customer
                                                   context))))
                               (Customer.challenges
                                  (ConversationContext.customer context))
                               None (Some (_extract_keywords user_message))))
                     (filter
                        (positive
                           (KnowledgeBase.case_score
                              (if (persona_value
                                     (Customer.persona
                                        (ConversationContext.customer context))
                                   =? "未特定")%string
                               then None
                               else Some (persona_value
                                            (Customer.persona
                                               (ConversationContext.customer
                                                  context))))
                              (Customer.challenges
                                 (ConversationContext.customer context))
                              None (Some (_extract_keywords user_message))))
                        (not_excluded
                           (Some (ConversationContext.mentioned_cases context))
                           (KnowledgeBase.success_cases knowledge_base))))
                  2 ltac:(lia)) as H.
    lia.
  - unfold faqs. destruct (looks_like_question user_message);
      [|cbn [length]; lia].
    unfold relevant_faqs. cbv zeta. rewrite search_faqs_pipeline.
    pose proof (top_length
                  (map (tag (KnowledgeBase.faq_score
                               (Some (_extract_keywords user_message)) None))
                     (filter
                        (positive
                           (KnowledgeBase.faq_score
                              (Some (_extract_keywords user_message)) None))
                        (KnowledgeBase.faqs knowledge_base)))
                  2 ltac:(lia)) as H.
    lia.
  - unfold cases, relevant_cases. cbv zeta.
    apply (search_skips_excluded knowledge_base _ _ None _
             (Some (ConversationContext.mentioned_cases context)) 2).
  - rewrite Hparts, in_app_iff. split.
    + intros [H|H].
      * exfalso. unfold cases_section in H. destruct cases as [|c cs];
          [destruct H|].
        destruct H as [H|H]; [discriminate H|].
        apply in_map_iff in H. destruct H as (x & H & _). discriminate H.
      * intros E. rewrite E in H. destruct H.
    + intros H. right. unfold faqs_section.
      destruct faqs as [|f fs]; [congruence|]. now left.
Qed.

(** X16.  [generate_response] always leaves in the context the profile
    updated by [analyze_message], also when the API call fails, in which
    case it returns the fixed apology; otherwise it returns the content
    of the completion.  The request it sends is a system entry, the last
    ten messages of the history in their order, and the user's message;
    the system entry begins with the engine's system prompt and contains
    the summary of the updated profile, as [_build_context_prompt]
    renders it, and the knowledge text found for the updated profile. *)
Theorem response_request_and_fallback (self : AIEngine.t)
  (knowledge_base : KnowledgeBase.t)
  (create : list ChatMessage.t -> completion)
  (context : ConversationContext.t) (user_message : string) :
  let updated :=
    PersonaAnalyzer.analyze_message user_message
      (ConversationContext.customer context) in
  let context' := ConversationContext.set_customer updated context in
  let request :=
    snd (prepare_request self knowledge_base context user_message) in
  fst (generate_response self knowledge_base create context user_message)
  = context'
  /\ (create request = Raised ->
      snd (generate_response self knowledge_base create context user_message)
      = Some apology)
  /\ (forall content,
         create request = Content content ->
         snd (generate_response self knowledge_base create context
                user_message)
         = content)
  /\ exists system,
       request
       = ChatMessage.mk "system" system
         :: map (fun msg =>
                   ChatMessage.mk (Message.role msg) (Message.content msg))
              (Py.slice_last 10 (ConversationContext.messages context))
         ++ [ChatMessage.mk "user" user_message]
       /\ prefix (system_prompt self) system = true
       /\ Py.contains (_build_context_prompt context') system = true
       /\ Py.contains (Py.join chr10 (customer_info updated)) system = true
       /\ Py.contains
            (_get_relevant_knowledge knowledge_base context' user_message)
            system = true.
Proof.
  cbv zeta. unfold generate_response, prepare_request.
  cbv beta iota zeta. cbn [fst snd].
  set (updated := PersonaAnalyzer.analyze_message user_message
                    (ConversationContext.customer context)).
  set (context' := ConversationContext.set_customer updated context).
  set (knowledge := _get_relevant_knowledge knowledge_base context'
                      user_message).
  split; [now destruct (create _)|].
  split; [intros ->; reflexivity|].
  split; [intros content ->; reflexivity|].
  destruct (build_messages_entries self context' user_message knowledge)
    as (system & E & Hp & Hc & Hk).
  exists system. split; [exact E|].
  split; [exact Hp|]. split; [exact Hc|]. split; [|exact Hk].
  apply contains_iff in Hc. destruct Hc as (front & back & ->).
  apply contains_inside.
  exact (summary_in_context_prompt context').
Qed.

End WithBuiltins.

End AssemblerMore.

(* ================================================================== *)
(** * Further properties: the Lstep tags and the stored enumerations *)
(* ================================================================== *)

Section Tags.

Import LstepDataMapper.

Lemma scan_table_Some (table : list (string * string)) (tag value : string) :
  scan_table table tag = Some value ->
  exists keyword, In (keyword, value) table
                  /\ Py.contains keyword tag = true.
Proof.
  induction table as [|[k v] rest IH]; cbn [scan_table]; [discriminate|].
  destruct (Py.contains k tag) eqn:E.
  - intros [= <-]. exists k. split; [now left|assumption].
  - intros H. destruct (IH H) as (kw & Hin & Hc).
    exists kw. split; [now right|assumption].
Qed.

Lemma scan_table_None (table : list (string * string)) (tag : string) :
  scan_table table tag = None <->
  forall keyword value,
    In (keyword, value) table -> Py.contains keyword tag = false.
Proof.
  induction table as [|[k v] rest IH]; cbn [scan_table].
  - split; [intros _ ? ? []|reflexivity].
  - destruct (Py.contains k tag) eqn:E.
    + split; [discriminate|]. intros H.
      rewrite (H k v (or_introl eq_refl)) in E. discriminate.
    + rewrite IH. split.
      * intros H kw val [[= <- <-]|Hin]; [assumption|eauto].
      * intros H kw val Hin. apply (H kw val). now right.
Qed.

Lemma scan_tags_Some (table : list (string * string)) (tags : list string)
  (value : string) :
  scan_tags table tags = Some value -> mentions table tags value.
Proof.
  induction tags as [|tag rest IH]; cbn [scan_tags]; [discriminate|].
  destruct (scan_table table tag) as [v|] eqn:E.
  - intros [= <-]. destruct (scan_table_Some _ _ _ E) as (kw & Hin & Hc).
    exists tag, kw. split; [now left|]. now split.
  - intros H. destruct (IH H) as (t & kw & Ht & Hin & Hc).
    exists t, kw. split; [now right|]. now split.
Qed.

Lemma scan_tags_None (table : list (string * string)) (tags : list string) :
  scan_tags table tags = None <-> forall value, ~ mentions table tags value.
Proof.
  induction tags as [|tag rest IH]; cbn [scan_tags].
  - split; [|reflexivity]. intros _ value (t & _ & [] & _).
  - destruct (scan_table table tag) as [v|] eqn:E.
    + split; [discriminate|]. intros H. exfalso.
      destruct (scan_table_Some _ _ _ E) as (kw & Hin & Hc).
      apply (H v). exists tag, kw. split; [now left|]. now split.
    + rewrite IH. split.
      * intros H value (t & kw & [<-|Ht] & Hin & Hc).
        -- rewrite (proj1 (scan_table_None table tag) E kw value Hin) in Hc.
           discriminate.
        -- apply (H value). now exists t, kw.
      * intros H value (t & kw & Ht & Hin & Hc).
        apply (H value). exists t, kw. split; [now right|]. now split.
Qed.

Lemma scan_tags_skip (table : list (string * string))
  (skipped tags : list string) :
  (forall value, ~ mentions table skipped value) ->
  scan_tags table (skipped ++ tags) = scan_tags table tags.
Proof.
  induction skipped as [|tag rest IH]; [reflexivity|].
  intros H. cbn [app scan_tags].
  destruct (scan_table table tag) as [v|] eqn:E.
  - exfalso. destruct (scan_table_Some _ _ _ E) as (kw & Hin & Hc).
    apply (H v). exists tag, kw. split; [now left|]. now split.
  - apply IH. intros value (t & kw & Ht & Hin & Hc).
    apply (H value). exists t, kw. split; [now right|]. now split.
Qed.

Lemma persona_table_values (keyword value : string) :
  In (keyword, value) TAG_TO_PERSONA ->
  exists p, Database.PersonaType_of value = Some p
            /\ p <> UNKNOWN /\ persona_value p = value.
Proof.
  unfold TAG_TO_PERSONA. cbn [In].
  intros H.
  repeat (destruct H as [H|H];
          [injection H as <- <-;
           first [ exists SIDE_WORKER; now repeat split
                 | exists CHILD_RAISING_MOM; now repeat split
                 | exists BUSINESS_OWNER; now repeat split ]|]).
  destruct H.
Qed.

(** X17.  [extract_persona_from_tags] returns a value of the tag table
    one of whose keywords occurs in one of the tags, and nothing exactly
    when no keyword occurs in any tag; the value is the label of a member
    of [PersonaType] other than the unknown one; tags in which no keyword
    occurs, put in front, do not change the result. *)
Theorem tags_give_persona (tags : list string) :
  match extract_persona_from_tags tags with
  | Some value =>
      mentions TAG_TO_PERSONA tags value
      /\ exists p, Database.PersonaType_of value = Some p
                   /\ p <> UNKNOWN /\ persona_value p = value
  | None => forall value, ~ mentions TAG_TO_PERSONA tags value
  end
  /\ forall skipped,
       (forall value, ~ mentions TAG_TO_PERSONA skipped value) ->
       extract_persona_from_tags (skipped ++ tags)
       = extract_persona_from_tags tags.
Proof.
  unfold extract_persona_from_tags. split.
  - destruct (scan_tags TAG_TO_PERSONA tags) as [value|] eqn:E.
    + pose proof (scan_tags_Some _ _ _ E) as H. split; [exact H|].
      destruct H as (t & kw & _ & Hin & _).
      exact (persona_table_values kw value Hin).
    + now apply scan_tags_None.
  - intros skipped H. now apply scan_tags_skip.
Qed.

(** The inner loop of [collect_genres]. *)
Lemma collect_inner (table : list (string * string)) (tag : string)
  (genres : list string) :
  let result :=
    fold_left
      (fun genres '(keyword, genre) =>
         if Py.contains keyword tag && negb (Py.mem genre genres)
         then genres ++ [genre]
         else genres)
      table genres in
  (NoDup genres -> NoDup result)
  /\ forall g, In g result <->
               In g genres
               \/ exists keyword, In (keyword, g) table
                                  /\ Py.contains keyword tag = true.
Proof.
  cbv zeta. revert genres.
  induction table as [|[k v] rest IH]; intros genres; cbn [fold_left].
  - split; [trivial|]. intros g. split; [now left|].
    intros [H|(kw & [] & _)]. exact H.
  - destruct (IH (if Py.contains k tag && negb (Py.mem v genres)
                  then genres ++ [v] else genres)) as [IHn IHi].
    split.
    + intros Hn. apply IHn.
      destruct (Py.contains k tag); cbn [andb]; [|assumption].
      destruct (Py.mem v genres) eqn:Em; cbn [negb]; [assumption|].
      apply NoDup_app; [assumption|repeat constructor; intros []|].
      intros x Hx [<-|[]]. apply mem_In in Hx. congruence.
    + intros g. rewrite IHi. split.
      * intros [H|(kw & Hin & Hc)].
        -- destruct (Py.contains k tag) eqn:Ec; cbn [andb] in H;
             [|now left].
           destruct (Py.mem v genres) eqn:Em; cbn [negb] in H; [now left|].
           apply in_app_iff in H. destruct H as [H|[<-|[]]]; [now left|].
           right. exists k. split; [now left|assumption].
        -- right. exists kw. split; [now right|assumption].
      * intros [H|(kw & [[= <- <-]|Hin] & Hc)].
        -- left. destruct (Py.contains k tag && negb (Py.mem v genres));
             [apply in_app_iff; now left|assumption].
        -- left. rewrite Hc. cbn [andb].
           destruct (Py.mem v genres) eqn:Em; cbn [negb].
           ++ now apply mem_In.
           ++ apply in_app_iff. right. now left.
        -- right. now exists kw.
Qed.

Lemma collect_genres_from (table : list (string * string))
  (tags genres : list string) :
  let result :=
    fold_left
      (fun genres tag =>
         fold_left
           (fun genres '(keyword, genre) =>
              if Py.contains keyword tag && negb (Py.mem genre genres)
              then genres ++ [genre]
              else genres)
           table genres)
      tags genres in
  (NoDup genres -> NoDup result)
  /\ forall g, In g result <-> In g genres \/ mentions table tags g.
Proof.
  cbv zeta. revert genres.
  induction tags as [|tag rest IH]; intros genres.
  - cbn [fold_left]. split; [trivial|]. intros g. split; [now left|].
    intros [H|(t & _ & [] & _)]. exact H.
  - rewrite fold_left_step.
    destruct (collect_inner table tag genres) as [Hn Hi].
    cbv zeta in Hn, Hi.
    destruct (IH (fold_left
                    (fun genres '(keyword, genre) =>
                       if Py.contains keyword tag
                          && negb (Py.mem genre genres)
                       then genres ++ [genre]
                       else genres)
                    table genres)) as [IHn IHi].
    split; [intros H; apply IHn, Hn, H|].
    intros g. rewrite IHi, Hi. split.
    + intros [[H|(kw & Hin & Hc)]|(t & kw & Ht & Hin & Hc)].
      * now left.
      * right. exists tag, kw. split; [now left|]. now split.
      * right. exists t, kw. split; [now right|]. now split.
    + intros [H|(t & kw & [<-|Ht] & Hin & Hc)].
      * left. now left.
      * left. right. now exists kw.
      * right. now exists t, kw.
Qed.

Lemma tag_genres_members (tags : list string) (genre : string) :
  In genre (extract_genres_from_tags tags)
  <-> mentions TAG_TO_GENRE tags genre.
Proof.
  unfold extract_genres_from_tags, collect_genres.
  destruct (collect_genres_from TAG_TO_GENRE tags []) as [_ Hi].
  cbv zeta in Hi. rewrite Hi.
  split; [intros [[]|H]; exact H|now right].
Qed.

(** X18.  [extract_genres_from_tags] returns, without repetition, exactly
    the genres of the tag table one of whose keywords occurs in one of
    the tags; each of them is a genre of the analyzer's keyword table. *)
Theorem tags_give_genres (tags : list string) :
  NoDup (extract_genres_from_tags tags)
  /\ (forall genre,
         In genre (extract_genres_from_tags tags)
         <-> mentions TAG_TO_GENRE tags genre)
  /\ incl (extract_genres_from_tags tags)
          (map fst PersonaAnalyzer.GENRE_KEYWORDS).
Proof.
  unfold extract_genres_from_tags, collect_genres.
  destruct (collect_genres_from TAG_TO_GENRE tags []) as [Hn Hi].
  cbv zeta in Hn, Hi.
  assert (Hm : forall genre,
             In genre
               (fold_left
                  (fun genres tag =>
                     fold_left
                       (fun genres '(keyword, genre) =>
                          if Py.contains keyword tag
                             && negb (Py.mem genre genres)
                          then genres ++ [genre]
                          else genres)
                       TAG_TO_GENRE genres)
                  tags [])
             <-> mentions TAG_TO_GENRE tags genre).
  { intros genre. rewrite Hi. split; [intros [[]|H]; exact H|now right]. }
  split; [apply Hn; constructor|]. split; [exact Hm|].
  intros genre H. apply Hm in H. destruct H as (t & kw & _ & Hin & _).
  clear - Hin. unfold TAG_TO_GENRE in Hin. cbn [In] in Hin.
  unfold PersonaAnalyzer.GENRE_KEYWORDS. cbn [map fst In].
  repeat (destruct Hin as [Hin|Hin];
          [injection Hin as <- <-; tauto|]).
  destruct Hin.
Qed.

(** X19.  [extract_source_from_tags] returns the first tag that names a
    source, and nothing exactly when no tag does. *)
Theorem tags_give_source (tags : list string) :
  match extract_source_from_tags tags with
  | Some source =>
      exists skipped rest,
        tags = skipped ++ source :: rest
        /\ Forall (fun tag => names_source tag = false) skipped
        /\ names_source source = true
  | None => Forall (fun tag => names_source tag = false) tags
  end.
Proof.
  induction tags as [|tag rest IH]; cbn [extract_source_from_tags];
    [constructor|].
  fold (names_source tag). destruct (names_source tag) eqn:E.
  - exists [], rest. split; [reflexivity|]. split; [constructor|exact E].
  - destruct (extract_source_from_tags rest) as [source|].
    + destruct IH as (skipped & rest' & -> & Hs & Hn).
      exists (tag :: skipped), rest'. split; [reflexivity|].
      split; [now constructor|exact Hn].
    + now constructor.
Qed.

End Tags.

Section Columns.

Import Database.

(** X20.  The texts [save_customer] writes in the persona and status
    columns are read back by [get_customer] as the members they came
    from; a text is accepted by the enumeration exactly when it is the
    value of the member returned; an empty or missing column gives the
    default member. *)
Theorem enum_columns_round_trip (customer : Customer.t) :
  persona_of_row (Some (persona_column customer))
  = Some (Customer.persona customer)
  /\ status_of_row (Some (status_column customer))
     = Some (Customer.status customer)
  /\ (forall s p, PersonaType_of s = Some p <-> s = persona_value p)
  /\ (forall s p, ConversationStatus_of s = Some p <-> s = status_value p)
  /\ persona_of_row None = Some UNKNOWN
  /\ persona_of_row (Some EmptyString) = Some UNKNOWN
  /\ status_of_row None = Some INITIAL
  /\ status_of_row (Some EmptyString) = Some INITIAL.
Proof.
  split; [|split; [|split; [|split]]].
  - unfold persona_column. now destruct (Customer.persona customer).
  - unfold status_column. now destruct (Customer.status customer).
  - intros s p. split.
    + unfold PersonaType_of. intros H. apply find_some in H.
      destruct H as [_ H]. apply String.eqb_eq in H. now symmetry.
    + intros ->. now destruct p.
  - intros s p. split.
    + unfold ConversationStatus_of. intros H. apply find_some in H.
      destruct H as [_ H]. apply String.eqb_eq in H. now symmetry.
    + intros ->. now destruct p.
  - now repeat split.
Qed.

End Columns.

Section Enrichment.

Import LineHandler.

Context {B : PyBuiltins}.

Lemma assign_persona_fields (persona : option string) (c : Customer.t) :
  let c' := assign_persona persona c in
  Customer.user_id c' = Customer.user_id c
  /\ Customer.display_name c' = Customer.display_name c
  /\ Customer.occupation c' = Customer.occupation c
  /\ Customer.interest_genre c' = Customer.interest_genre c
  /\ Customer.challenges c' = Customer.challenges c
  /\ Customer.goals c' = Customer.goals c
  /\ Customer.status c' = Customer.status c
  /\ Customer.source c' = Customer.source c.
Proof.
  cbv zeta. unfold assign_persona.
  destruct (Database.PersonaType_of (Py.or_blank persona));
    now repeat split.
Qed.

Lemma source_is_truthy (tags : list string) (source : string) :
  LstepDataMapper.extract_source_from_tags tags = Some source ->
  Py.truthy_str (Some source) = true.
Proof.
  intros H. destruct source; [|reflexivity]. exfalso.
  induction tags as [|tag rest IH];
    cbn [LstepDataMapper.extract_source_from_tags] in H; [discriminate|].
  destruct (existsb (fun keyword => Py.contains keyword tag)
              LstepDataMapper.source_keywords) eqn:E; [|auto].
  injection H as ->. vm_compute in E. discriminate.
Qed.

(** What the tag step does to each field. *)
Lemma enrich_from_tags_fields (tags : list string) (c : Customer.t) :
  let c' := enrich_from_tags tags c in
  Customer.user_id c' = Customer.user_id c
  /\ Customer.display_name c' = Customer.display_name c
  /\ Customer.occupation c' = Customer.occupation c
  /\ Customer.challenges c' = Customer.challenges c
  /\ Customer.goals c' = Customer.goals c
  /\ Customer.status c' = Customer.status c
  /\ Customer.source c'
     = (if Py.truthy_str (LstepDataMapper.extract_source_from_tags tags)
           && negb (Py.truthy_str (Customer.source c))
        then LstepDataMapper.extract_source_from_tags tags
        else Customer.source c)
  /\ Customer.persona c'
     = Customer.persona
         (if Py.truthy_str (LstepDataMapper.extract_persona_from_tags tags)
             && persona_eqb (Customer.persona c) UNKNOWN
          then assign_persona
                 (LstepDataMapper.extract_persona_from_tags tags) c
          else c)
  /\ forall g,
       In g (Py.or_empty (Customer.interest_genre c'))
       <-> In g (Py.or_empty (Customer.interest_genre c))
           \/ In g (LstepDataMapper.extract_genres_from_tags tags).
Proof.
  cbv zeta. unfold enrich_from_tags. cbv zeta.
  set (source := LstepDataMapper.extract_source_from_tags tags).
  set (persona := LstepDataMapper.extract_persona_from_tags tags).
  set (genres := LstepDataMapper.extract_genres_from_tags tags).
  set (c1 := if Py.truthy_str source
                && negb (Py.truthy_str (Customer.source c))
             then Customer.set_source source c else c).
  set (c2 := if Py.truthy_str persona
                && persona_eqb (Customer.persona c1) UNKNOWN
             then assign_persona persona c1 else c1).
  assert (H1 : Customer.user_id c1 = Customer.user_id c
               /\ Customer.display_name c1 = Customer.display_name c
               /\ Customer.occupation c1 = Customer.occupation c
               /\ Customer.interest_genre c1 = Customer.interest_genre c
               /\ Customer.challenges c1 = Customer.challenges c
               /\ Customer.goals c1 = Customer.goals c
               /\ Customer.status c1 = Customer.status c
               /\ Customer.persona c1 = Customer.persona c
               /\ Customer.source c1
                  = (if Py.truthy_str source
                        && negb (Py.truthy_str (Customer.source c))
                     then source else Customer.source c)).
  { unfold c1.
    destruct (Py.truthy_str source
              && negb (Py.truthy_str (Customer.source c)));
      now repeat split. }
  destruct H1 as (U1 & D1 & O1 & G1 & C1 & L1 & S1 & P1 & R1).
  assert (H2 : Customer.user_id c2 = Customer.user_id c
               /\ Customer.display_name c2 = Customer.display_name c
               /\ Customer.occupation c2 = Customer.occupation c
               /\ Customer.interest_genre c2 = Customer.interest_genre c
               /\ Customer.challenges c2 = Customer.challenges c
               /\ Customer.goals c2 = Customer.goals c
               /\ Customer.status c2 = Customer.status c
               /\ Customer.source c2 = Customer.source c1
               /\ Customer.persona c2
                  = Customer.persona
                      (if Py.truthy_str persona
                          && persona_eqb (Customer.persona c) UNKNOWN
                       then assign_persona persona c else c)).
  { unfold c2. rewrite P1.
    destruct (Py.truthy_str persona
              && persona_eqb (Customer.persona c) UNKNOWN).
    - destruct (assign_persona_fields persona c1)
        as (U & D & O & G & C & L & S & R).
      cbv zeta in U, D, O, G, C, L, S, R.
      repeat split; try congruence.
      unfold assign_persona.
      destruct (Database.PersonaType_of (Py.or_blank persona));
        [reflexivity|exact P1].
    - now repeat split. }
  destruct H2 as (U2 & D2 & O2 & G2 & C2 & L2 & S2 & R2 & P2).
  destruct genres as [|g gs] eqn:Eg.
  - repeat split; try congruence.
    + rewrite G2. now left.
    + rewrite G2. intros [H|[]]. exact H.
  - cbn [Customer.set_interest_genre Customer.user_id Customer.display_name
         Customer.occupation Customer.interest_genre Customer.challenges
         Customer.goals Customer.status Customer.source Customer.persona
         Py.or_empty].
    repeat split; try congruence.
    + intros H. apply set_union_list_In in H. now rewrite <- G2.
    + intros H. apply set_union_list_In. now rewrite G2.
Qed.

(** What the custom-field step does to each field. *)
Lemma enrich_from_fields_fields (custom_fields : list (string * option string))
  (c : Customer.t) :
  let c' := enrich_from_fields custom_fields c in
  Customer.user_id c' = Customer.user_id c
  /\ Customer.display_name c' = Customer.display_name c
  /\ Customer.interest_genre c' = Customer.interest_genre c
  /\ Customer.challenges c' = Customer.challenges c
  /\ Customer.persona c' = Customer.persona c
  /\ Customer.status c' = Customer.status c
  /\ Customer.source c' = Customer.source c
  /\ kept (Customer.occupation c) (Customer.occupation c')
  /\ kept (Customer.goals c) (Customer.goals c')
  /\ (Py.truthy_str (Customer.occupation c) = false ->
      forall v, dict_get "occupation" custom_fields = Some v ->
                Customer.occupation c' = v)
  /\ (Py.truthy_str (Customer.goals c) = false ->
      forall v, dict_get "goals" custom_fields = Some v ->
                Customer.goals c' = v).
Proof.
  cbv zeta. unfold enrich_from_fields, kept. cbv zeta.
  destruct (dict_get "occupation" custom_fields) as [o|];
    destruct (dict_get "goals" custom_fields) as [g|];
    destruct (Py.truthy_str (Customer.occupation c)) eqn:Eo;
    destruct (Py.truthy_str (Customer.goals c)) eqn:Eg;
    cbn [negb Customer.set_occupation Customer.set_goals
         Customer.user_id Customer.display_name
         Customer.occupation Customer.interest_genre Customer.challenges
         Customer.goals Customer.status Customer.source Customer.persona];
    rewrite ?Eo, ?Eg;
    cbn [negb Customer.set_occupation Customer.set_goals
         Customer.user_id Customer.display_name
         Customer.occupation Customer.interest_genre Customer.challenges
         Customer.goals Customer.status Customer.source Customer.persona];
    repeat split; try congruence; try discriminate.
Qed.

(** The two steps of [_enrich_customer_from_lstep] that are made when the
    calls return. *)
Lemma enrich_steps (lstep_client : option LstepClient.t) (c : Customer.t) :
  exists tags custom_fields,
    _enrich_customer_from_lstep lstep_client c
    = match custom_fields with
      | [] => fun c => c
      | _ :: _ => enrich_from_fields custom_fields
      end
        (match tags with
         | [] => c
         | _ :: _ => enrich_from_tags tags c
         end)
    /\ forall client found,
         lstep_client = Some client ->
         LstepClient.get_friend_tags client (Customer.user_id c)
         = Some found ->
         tags = found.
Proof.
  unfold _enrich_customer_from_lstep.
  destruct lstep_client as [client|].
  - destruct (LstepClient.get_friend_tags client (Customer.user_id c))
      as [tags|] eqn:E.
    + cbv zeta.
      destruct (LstepClient.get_custom_fields client _) as [fields|].
      * exists tags, fields. split; [now destruct fields|].
        intros ? ? [= <-] H. rewrite E in H. now injection H.
      * exists tags, []. split; [reflexivity|].
        intros ? ? [= <-] H. rewrite E in H. now injection H.
    + exists [], []. split; [reflexivity|].
      intros ? ? [= <-] H. rewrite E in H. discriminate H.
  - exists [], []. split; [reflexivity|]. discriminate.
Qed.

(** X21.  [_enrich_customer_from_lstep] never undoes what is known: the
    user id, the display name, the challenges and the status are left as
    they are; an occupation, goals or a source already filled in, and a
    persona already determined, keep their value; no interest genre is
    lost.  This holds whether Lstep is configured or not and whichever of
    the two calls raises. *)
Theorem enrichment_never_overwrites (lstep_client : option LstepClient.t)
  (customer : Customer.t) :
  let customer' := _enrich_customer_from_lstep lstep_client customer in
  Customer.user_id customer' = Customer.user_id customer
  /\ Customer.display_name customer' = Customer.display_name customer
  /\ Customer.challenges customer' = Customer.challenges customer
  /\ Customer.status customer' = Customer.status customer
  /\ kept (Customer.occupation customer) (Customer.occupation customer')
  /\ kept (Customer.goals customer) (Customer.goals customer')
  /\ kept (Customer.source customer) (Customer.source customer')
  /\ (Customer.persona customer <> UNKNOWN ->
      Customer.persona customer' = Customer.persona customer)
  /\ incl (Py.or_empty (Customer.interest_genre customer))
          (Py.or_empty (Customer.interest_genre customer')).
Proof.
  cbv zeta.
  destruct (enrich_steps lstep_client customer) as (tags & fields & -> & _).
  set (c1 := match tags with
             | [] => customer
             | _ :: _ => enrich_from_tags tags customer
             end).
  assert (H1 : Customer.user_id c1 = Customer.user_id customer
               /\ Customer.display_name c1 = Customer.display_name customer
               /\ Customer.challenges c1 = Customer.challenges customer
               /\ Customer.status c1 = Customer.status customer
               /\ Customer.occupation c1 = Customer.occupation customer
               /\ Customer.goals c1 = Customer.goals customer
               /\ kept (Customer.source customer) (Customer.source c1)
               /\ (Customer.persona customer <> UNKNOWN ->
                   Customer.persona c1 = Customer.persona customer)
               /\ incl (Py.or_empty (Customer.interest_genre customer))
                       (Py.or_empty (Customer.interest_genre c1))).
  { unfold c1. destruct tags as [|t ts].
    - unfold kept. repeat split; try reflexivity. apply incl_refl.
    - destruct (enrich_from_tags_fields (t :: ts) customer)
        as (U & D & O & C & L & S & R & P & G).
      cbv zeta in U, D, O, C, L, S, R, P, G.
      repeat split; try assumption.
      + unfold kept. intros Hs. rewrite R, Hs. cbn [negb].
        now rewrite Bool.andb_false_r.
      + intros Hp. rewrite P.
        destruct (persona_eqb (Customer.persona customer) UNKNOWN) eqn:E;
          [apply persona_eqb_eq in E; contradiction|].
        now rewrite Bool.andb_false_r.
      + intros g Hg. apply G. now left. }
  destruct H1 as (U1 & D1 & C1 & S1 & O1 & L1 & R1 & P1 & G1).
  destruct fields as [|f fs].
  - unfold kept in *. repeat split; try assumption; congruence.
  - destruct (enrich_from_fields_fields (f :: fs) c1)
      as (U & D & G & C & P & S & R & O & L & _).
    cbv zeta in U, D, G, C, P, S, R, O, L.
    unfold kept in *.
    repeat split; try congruence.
    + intros H. rewrite <- O1 in H. rewrite (O H). exact O1.
    + intros H. rewrite <- L1 in H. rewrite (L H). exact L1.
    + intros H. rewrite R. now apply R1.
    + intros H. rewrite P. now apply P1.
    + rewrite G. exact G1.
Qed.

Lemma persona_value_truthy (p : PersonaType) :
  Py.truthy_str (Some (persona_value p)) = true.
Proof. now destruct p. Qed.

(** X22.  When the tags of the user are obtained,
    [_enrich_customer_from_lstep] applies them: a customer of unknown
    persona gets the persona whose label the tags give; a customer
    without source gets the first tag that names one; the interest
    genres become the former ones together with those the tags mention. *)
Theorem enrichment_applies_tags (client : LstepClient.t)
  (customer : Customer.t) (tags : list string)
  (Htags : LstepClient.get_friend_tags client (Customer.user_id customer)
           = Some tags) :
  let customer' := _enrich_customer_from_lstep (Some client) customer in
  (Customer.persona customer = UNKNOWN ->
   forall value,
     LstepDataMapper.extract_persona_from_tags tags = Some value ->
     persona_value (Customer.persona customer') = value)
  /\ (Py.truthy_str (Customer.source customer) = false ->
      forall source,
        LstepDataMapper.extract_source_from_tags tags = Some source ->
        Customer.source customer' = Some source)
  /\ (forall genre,
         In genre (Py.or_empty (Customer.interest_genre customer'))
         <-> In genre (Py.or_empty (Customer.interest_genre customer))
             \/ mentions LstepDataMapper.TAG_TO_GENRE tags genre).
Proof.
  cbv zeta.
  destruct (enrich_steps (Some client) customer)
    as (tags' & fields & -> & Hfound).
  rewrite (Hfound client tags eq_refl Htags). clear Hfound tags'.
  set (c1 := match tags with
             | [] => customer
             | _ :: _ => enrich_from_tags tags customer
             end).
  assert (H1 : (Customer.persona customer = UNKNOWN ->
                forall value,
                  LstepDataMapper.extract_persona_from_tags tags
                  = Some value ->
                  persona_value (Customer.persona c1) = value)
               /\ (Py.truthy_str (Customer.source customer) = false ->
                   forall source,
                     LstepDataMapper.extract_source_from_tags tags
                     = Some source ->
                     Customer.source c1 = Some source)
               /\ (forall genre,
                      In genre (Py.or_empty (Customer.interest_genre c1))
                      <-> In genre
                            (Py.or_empty (Customer.interest_genre customer))
                          \/ mentions LstepDataMapper.TAG_TO_GENRE tags
                               genre)).
  { unfold c1. destruct tags as [|t ts].
    - split; [discriminate|]. split; [discriminate|].
      intros genre. split; [now left|].
      intros [H|(x & _ & [] & _)]. exact H.
    - destruct (enrich_from_tags_fields (t :: ts) customer)
        as (_ & _ & _ & _ & _ & _ & R & P & G).
      cbv zeta in R, P, G.
      split; [|split].
      + intros Hp value Hv. rewrite P, Hv, Hp.
        unfold LstepDataMapper.extract_persona_from_tags in Hv.
        destruct (scan_tags_Some _ _ _ Hv) as (x & kw & _ & Hin & _).
        destruct (persona_table_values kw value Hin) as (p & Hof & _ & <-).
        rewrite persona_value_truthy. cbn [andb persona_eqb].
        unfold assign_persona. cbn [Py.or_blank]. now rewrite Hof.
      + intros Hs source Hv. rewrite R, Hv, Hs.
        now rewrite (source_is_truthy _ _ Hv).
      + intros genre. rewrite G.
        destruct (tag_genres_members (t :: ts) genre) as [Ha Hb].
        split; (intros [H|H]; [now left|right; auto]). }
  destruct fields as [|f fs]; [exact H1|].
  destruct H1 as (P1 & R1 & G1).
  destruct (enrich_from_fields_fields (f :: fs) c1)
    as (_ & _ & G & _ & P & _ & R & _).
  cbv zeta in G, P, R.
  rewrite G, P, R. exact (conj P1 (conj R1 G1)).
Qed.

Lemma determined_persona_stays (messages : list string) (c : Customer.t) :
  Customer.persona c <> UNKNOWN ->
  Customer.persona (PersonaAnalyzer.analyze_messages messages c)
  = Customer.persona c.
Proof.
  revert c. induction messages as [|m ms IH]; intros c Hp.
  - now rewrite analyze_messages_nil.
  - rewrite analyze_messages_cons.
    assert (E : Customer.persona (PersonaAnalyzer.analyze_message m c)
                = Customer.persona c).
    { rewrite analyze_message_persona.
      destruct (persona_eqb (Customer.persona c) UNKNOWN) eqn:Eq;
        [apply persona_eqb_eq in Eq; contradiction|reflexivity]. }
    rewrite IH; [exact E|]. now rewrite E.
Qed.

(** X24.  A persona given by the Lstep tags is final: when a customer of
    unknown persona is enriched from tags that give a persona, no later
    utterance changes it, whatever the analyzer would have inferred from
    the conversation. *)
Theorem tag_persona_survives_analysis (client : LstepClient.t)
  (customer : Customer.t) (tags : list string) (value : string)
  (messages : list string)
  (Htags : LstepClient.get_friend_tags client (Customer.user_id customer)
           = Some tags)
  (Hunknown : Customer.persona customer = UNKNOWN)
  (Hvalue : LstepDataMapper.extract_persona_from_tags tags = Some value) :
  persona_value
    (Customer.persona
       (PersonaAnalyzer.analyze_messages messages
          (_enrich_customer_from_lstep (Some client) customer)))
  = value
  /\ Customer.persona
       (PersonaAnalyzer.analyze_messages messages
          (_enrich_customer_from_lstep (Some client) customer))
     <> UNKNOWN.
Proof.
  destruct (enrich_steps (Some client) customer)
    as (tags' & fields & E & Hfound).
  rewrite (Hfound client tags eq_refl Htags) in E. clear Hfound tags'.
  assert (Hp : exists p,
             Customer.persona
               (_enrich_customer_from_lstep (Some client) customer) = p
             /\ p <> UNKNOWN /\ persona_value p = value).
  { rewrite E.
    unfold LstepDataMapper.extract_persona_from_tags in Hvalue.
    destruct (scan_tags_Some _ _ _ Hvalue) as (x & kw & Hx & Hin & _).
    destruct (persona_table_values kw value Hin) as (p & Hof & Hn & Hval).
    exists p. split; [|now split].
    assert (H1 : Customer.persona
                   (match tags with
                    | [] => customer
                    | _ :: _ => enrich_from_tags tags customer
                    end) = p).
    { destruct tags as [|t ts]; [destruct Hx|].
      destruct (enrich_from_tags_fields (t :: ts) customer)
        as (_ & _ & _ & _ & _ & _ & _ & P & _).
      cbv zeta in P. rewrite P.
      unfold LstepDataMapper.extract_persona_from_tags.
      rewrite Hvalue, Hunknown, <- Hval, persona_value_truthy.
      cbn [andb persona_eqb]. unfold assign_persona. cbn [Py.or_blank].
      now rewrite Hval, Hof. }
    destruct fields as [|f fs]; [exact H1|].
    destruct (enrich_from_fields_fields
                (f :: fs)
                (match tags with
                 | [] => customer
                 | _ :: _ => enrich_from_tags tags customer
                 end))
      as (_ & _ & _ & _ & P & _).
    cbv zeta in P. now rewrite P. }
  destruct Hp as (p & Hp & Hn & Hval).
  rewrite determined_persona_stays; rewrite Hp; [now split|exact Hn].
Qed.

Lemma existsb_contains_inside (terms : list string)
  (front message back : string) :
  existsb (fun t => Py.contains t message) terms = true ->
  existsb (fun t => Py.contains t (front ++ message ++ back)) terms = true.
Proof.
  rewrite !existsb_exists. intros (x & Hin & Hc).
  exists x. split; [assumption|now apply contains_inside].
Qed.

(** X23.  Text put around a message does not hide what it asks for: a
    message that is a hand-off request, or looks like a question, is
    still one inside a longer message; and a message is a hand-off
    request exactly when one of the hand-off keywords occurs in it. *)
Theorem requests_survive_context (front message back : string) :
  (_is_handoff_request message = true ->
   _is_handoff_request (front ++ message ++ back) = true)
  /\ (AIEngine.looks_like_question message = true ->
      AIEngine.looks_like_question (front ++ message ++ back) = true)
  /\ (_is_handoff_request message = true
      <-> exists keyword, In keyword handoff_keywords
                          /\ Py.contains keyword message = true).
Proof.
  split; [|split].
  - apply existsb_contains_inside.
  - unfold AIEngine.looks_like_question.
    rewrite !Bool.orb_true_iff.
    intros [[H|H]|H].
    + left. left. now apply contains_inside.
    + left. right. now apply contains_inside.
    + right. now apply existsb_contains_inside.
  - unfold _is_handoff_request. now rewrite existsb_exists.
Qed.

End Enrichment.

(* ================================================================== *)
(** * Instances of the further properties *)
(* ================================================================== *)

Transparent PersonaAnalyzer.update_occupation PersonaAnalyzer.update_genres
  PersonaAnalyzer.update_challenges PersonaAnalyzer.update_persona
  PersonaAnalyzer._extract_occupation PersonaAnalyzer._extract_genres
  PersonaAnalyzer._extract_challenges PersonaAnalyzer._estimate_persona
  PersonaAnalyzer.analyze_message accreted.

Lemma extracted_occupation_one_persona_witness :
  PersonaAnalyzer._extract_occupation Fixture.company_worker = Some "会社員"
  /\ Customer.occupation Fixture.side_worker_profile = Some "会社員"
  /\ In "会社員" occupation_labels
  /\ (forall p q,
         occupation_bonus p Fixture.side_worker_profile = 5 ->
         occupation_bonus q Fixture.side_worker_profile = 5 -> p = q)
  /\ ("会社員" = "フリーランス" \/ "会社員" = "学生" ->
      forall p, occupation_bonus p Fixture.side_worker_profile = 0).
Proof.
  split; [vm_compute; reflexivity|]. split; [reflexivity|].
  apply (extracted_occupation_one_persona Fixture.company_worker "会社員"
           Fixture.side_worker_profile);
    vm_compute; reflexivity.
Defined.

Lemma search_without_criteria_witness :
  Py.truthy_str None = false
  /\ Py.truthy_str (Some EmptyString) = false
  /\ Py.truthy_list (Some (@nil string)) = false
  /\ Py.truthy_list (@None (list string)) = false
  /\ @KnowledgeBase.search_success_cases Reference.builtins
       KnowledgeBase.default None (Some []) (Some EmptyString) None
       (Some ["case_001"]) 3
     = []
  /\ KnowledgeBase.search_faqs KnowledgeBase.default None None 3 = [].
Proof.
  do 4 (split; [reflexivity|]).
  apply (@search_without_criteria Reference.builtins KnowledgeBase.default
           None (Some EmptyString) None (Some []) None (Some ["case_001"]) 3);
    reflexivity.
Defined.

Lemma smaller_limit_is_prefix_witness :
  0 <= 1 <= 3
  /\ @KnowledgeBase.search_success_cases Reference.builtins
       KnowledgeBase.default (Some "子育てママ") (Some ["時間が無い"]) None
       (Some ["料金"]) None 1
     = firstn (Z.to_nat 1)
         (@KnowledgeBase.search_success_cases Reference.builtins
            KnowledgeBase.default (Some "子育てママ") (Some ["時間が無い"])
            None (Some ["料金"]) None 3)
  /\ KnowledgeBase.search_faqs KnowledgeBase.default (Some ["料金"]) None 1
     = firstn (Z.to_nat 1)
         (KnowledgeBase.search_faqs KnowledgeBase.default (Some ["料金"])
            None 3).
Proof.
  split; [lia|].
  apply (@smaller_limit_is_prefix Reference.builtins KnowledgeBase.default
           (Some "子育てママ") (Some ["時間が無い"]) None (Some ["料金"])
           None None 1 3).
  lia.
Defined.

Lemma exclusion_keeps_order_witness :
  0 <= 2
  /\ Z.of_nat (length (KnowledgeBase.success_cases KnowledgeBase.default))
     <= 10
  /\ @KnowledgeBase.search_success_cases Reference.builtins
       KnowledgeBase.default (Some "子育てママ") (Some ["時間が無い"]) None
       None (Some ["case_002"]) 2
     = firstn (Z.to_nat 2)
         (not_excluded (Some ["case_002"])
            (@KnowledgeBase.search_success_cases Reference.builtins
               KnowledgeBase.default (Some "子育てママ")
               (Some ["時間が無い"]) None None None 10)).
Proof.
  split; [lia|]. split; [vm_compute; discriminate|].
  apply (@exclusion_keeps_order Reference.builtins KnowledgeBase.default
           (Some "子育てママ") (Some ["時間が無い"]) None None
           (Some ["case_002"]) 2 10);
    [lia|vm_compute; discriminate].
Defined.

Lemma enrichment_applies_tags_witness :
  LineHandler.LstepClient.get_friend_tags LstepFixture.client
    (Customer.user_id Fixture.fresh)
  = Some LstepFixture.tags
  /\ (Customer.persona Fixture.fresh = UNKNOWN ->
      forall value,
        LstepDataMapper.extract_persona_from_tags LstepFixture.tags
        = Some value ->
        persona_value
          (Customer.persona
             (@LineHandler._enrich_customer_from_lstep Reference.builtins
                (Some LstepFixture.client) Fixture.fresh))
        = value)
  /\ (Py.truthy_str (Customer.source Fixture.fresh) = false ->
      forall source,
        LstepDataMapper.extract_source_from_tags LstepFixture.tags
        = Some source ->
        Customer.source
          (@LineHandler._enrich_customer_from_lstep Reference.builtins
             (Some LstepFixture.client) Fixture.fresh)
        = Some source)
  /\ (forall genre,
         In genre
           (Py.or_empty
              (Customer.interest_genre
                 (@LineHandler._enrich_customer_from_lstep Reference.builtins
                    (Some LstepFixture.client) Fixture.fresh)))
         <-> In genre (Py.or_empty (Customer.interest_genre Fixture.fresh))
             \/ mentions LstepDataMapper.TAG_TO_GENRE LstepFixture.tags
                  genre).
Proof.
  split; [reflexivity|].
  apply (@enrichment_applies_tags Reference.builtins LstepFixture.client
           Fixture.fresh LstepFixture.tags).
  reflexivity.
Defined.

Lemma tag_persona_survives_analysis_witness :
  LineHandler.LstepClient.get_friend_tags LstepFixture.client
    (Customer.user_id Fixture.fresh)
  = Some LstepFixture.tags
  /\ Customer.persona Fixture.fresh = UNKNOWN
  /\ LstepDataMapper.extract_persona_from_tags LstepFixture.tags
     = Some "子育てママ"
  /\ persona_value
       (Customer.persona
          (@PersonaAnalyzer.analyze_messages Reference.builtins
             [Fixture.company_worker; Fixture.side_job]
             (@LineHandler._enrich_customer_from_lstep Reference.builtins
                (Some LstepFixture.client) Fixture.fresh)))
     = "子育てママ"
  /\ Customer.persona
       (@PersonaAnalyzer.analyze_messages Reference.builtins
          [Fixture.company_worker; Fixture.side_job]
          (@LineHandler._enrich_customer_from_lstep Reference.builtins
             (Some LstepFixture.client) Fixture.fresh))
     <> UNKNOWN.
Proof.
  split; [reflexivity|]. split; [reflexivity|].
  split; [vm_compute; reflexivity|].
  apply (@tag_persona_survives_analysis Reference.builtins
           LstepFixture.client Fixture.fresh LstepFixture.tags
           "子育てママ" [Fixture.company_worker; Fixture.side_job]);
    [reflexivity|reflexivity|vm_compute; reflexivity].
Defined.
